(** * cool-retro-term-webgl: the Electron renderer process and the
      terminal-text rasterizer it drives

    The development embeds [CRTTerminalApp] (electron/src/renderer.ts),
    the part of the main process it talks to (electron/src/main.ts through
    electron/src/preload.ts), and the interface of [TerminalText] from the
    renderer package, whose implementation is not part of the sources at
    hand and is modelled from the specification.

    Numbers that the code treats as counts (columns, rows, pixels,
    milliseconds) are integers; calls into Three.js, XTerm.js, the DOM and
    the IPC bridge are recorded in a trace, in the order the code makes
    them.  An [await] is a point at which the event loop delivers whatever
    comes next before the function goes on.  Of the libraries, the model
    has what they do with a size: the minimum size of an XTerm.js terminal
    and the default size of a node-pty process. *)

From Stdlib Require Import ZArith List Bool Lia String Ascii.
Import ListNotations.
Local Open Scope Z_scope.

(* ================================================================== *)
(** * Part I: definitions *)
(* ================================================================== *)

(** The pair returned by [getGridSize()] and passed to
    [onGridSizeChange] listeners. *)
Record GridSize : Type := mkGridSize { cols : Z; rows : Z }.

Definition GridSize_eqb (a b : GridSize) : bool :=
  (cols a =? cols b) && (rows a =? rows b).

Definition positive_size (g : GridSize) : bool :=
  (cols g >? 0) && (rows g >? 0).

(** Modelled from the spec: the glyph atlas of [TerminalText] (missing from
    the sources).  It supplies the fixed glyph cell metrics and, with them,
    the grid size derived from a viewport; being a function is the
    invariant "same viewport + font => same GridSize". *)
Class GlyphAtlas : Type := {
  cellWidth : Z;
  cellHeight : Z;
  computeGridSize : Z -> Z -> GridSize
}.

(** A JavaScript completion: a call returns normally or throws. *)
Inductive Completion (A : Type) : Type :=
| Normal (v : A)
| Throw (msg : string).
Arguments Normal {A} v.
Arguments Throw {A} msg.

(** XTerm.js (a library): [Terminal.resize(cols, rows)] raises the size it
    is given to the minimum of 2 columns and 1 row before it resizes the
    buffer. *)
Definition xterm_keeps (c r : Z) : GridSize :=
  mkGridSize (Z.max c 2) (Z.max r 1).

(** node-pty (a library): [spawn] takes the size of the new PTY as
    [opt.cols || 80] and [opt.rows || 24], so that a dimension of 0 gives
    way to the default. *)
Definition pty_spawned (c r : Z) : GridSize :=
  mkGridSize (if c =? 0 then 80 else c) (if r =? 0 then 24 else r).

(* ------------------------------------------------------------------ *)
(** ** The text rasterizer ([TerminalText]) *)

Module Rasterizer.

Record Color : Type := { red : Z; green : Z; blue : Z }.

Record Cell : Type := {
  character : option ascii;
  foreground : Color;
  background : Color;
  bold : bool;
  underline : bool;
  inverse : bool;
  dim : bool
}.

Record Cursor : Type := {
  cursor_row : Z;
  cursor_col : Z;
  cursor_visible : bool
}.

Record Selection : Type := {
  sel_start : Z * Z;
  sel_end : Z * Z;
  sel_anchor : Z * Z
}.

Record Grid : Type := {
  cells : list (list Cell);
  cursor : Cursor;
  selection : option Selection
}.

(** A listener registered with [onGridSizeChange]; listeners are told
    apart by the order of registration. *)
Definition Listener : Type := nat.

(** One invocation of a listener: which one, and the size it is told. *)
Definition Notification : Type := (Listener * GridSize)%type.

(** Modelled from the spec: the state of [TerminalText] (missing from the
    sources): the grid and its size, the pixel size of the backing
    texture, the viewport it was last sized for, the time of the
    time-driven effects, the dirty flag cleared by the static pass, the
    [onGridSizeChange] listeners, and whether (and how often) [dispose()]
    released the GPU resources it owns. *)
Record t : Type := {
  size : GridSize;
  grid : Grid;
  texture : Z * Z;
  viewport : Z * Z;
  time : Z;
  dirty : bool;
  listeners : list Listener;
  disposed : bool;
  released : nat
}.

Definition black : Color := {| red := 0; green := 0; blue := 0 |}.

Definition blankCell : Cell :=
  {| character := None; foreground := black; background := black;
     bold := false; underline := false; inverse := false; dim := false |}.

Definition blankGrid (g : GridSize) : Grid :=
  {| cells := repeat (repeat blankCell (Z.to_nat (cols g))) (Z.to_nat (rows g));
     cursor := {| cursor_row := 0; cursor_col := 0; cursor_visible := false |};
     selection := None |}.

Section WithAtlas.
Context `{GlyphAtlas}.

Definition textureFor (g : GridSize) : Z * Z :=
  (cols g * cellWidth, rows g * cellHeight).

(** Modelled from the spec: reallocation of the backing texture and
    glyph layout to a new cell count. *)
Definition reallocate (g : GridSize) (rz : t) : t :=
  {| size := g; grid := blankGrid g; texture := textureFor g;
     viewport := viewport rz; time := time rz; dirty := true;
     listeners := listeners rz; disposed := disposed rz;
     released := released rz |}.

(** Modelled from the spec: [new TerminalText(width, height)]. *)
Definition create (width height : Z) : t :=
  let g := computeGridSize width height in
  {| size := g; grid := blankGrid g; texture := textureFor g;
     viewport := (width, height); time := 0; dirty := true;
     listeners := []; disposed := false; released := 0 |}.

(** Modelled from the spec: [getGridSize()] "returns the current
    (cols, rows)". *)
Definition getGridSize (rz : t) : GridSize := size rz.

(** Modelled from the spec: [updateGridSize(cols, rows)] "reallocates
    backing texture and glyph layout to the new cell count; fails
    (no-op) if either dimension is <= 0".  The boolean tells whether the
    size was applied. *)
Definition updateGridSize (c r : Z) (rz : t) : Completion (bool * t) :=
  if (c <=? 0) || (r <=? 0)
  then Normal (false, rz)
  else Normal (true, reallocate (mkGridSize c r) rz).

(** Modelled from the spec: [onGridSizeChange(callback)] "registers a
    listener"; the listener gets the next free index. *)
Definition onGridSizeChange (rz : t) : Listener * t :=
  let l := List.length (listeners rz) in
  (l,
   {| size := size rz; grid := grid rz; texture := texture rz;
      viewport := viewport rz; time := time rz; dirty := dirty rz;
      listeners := listeners rz ++ [l]; disposed := disposed rz;
      released := released rz |}).

Definition withViewport (v : Z * Z) (rz : t) : t :=
  {| size := size rz; grid := grid rz; texture := texture rz;
     viewport := v; time := time rz; dirty := dirty rz;
     listeners := listeners rz; disposed := disposed rz;
     released := released rz |}.

(** Modelled from the spec: the size recomputation behind
    [updateSize(width, height)]: the grid size is derived again from
    the viewport and the glyph metrics, and the listeners are "invoked
    whenever a size recomputation changes cols or rows (not on every
    resize event -- only on actual grid-dimension change)". *)
Definition updateSize (width height : Z) (rz : t) : t * list Notification :=
  let g := computeGridSize width height in
  if GridSize_eqb g (size rz)
  then (withViewport (width, height) rz, [])
  else (reallocate g (withViewport (width, height) rz),
        map (fun l => (l, g)) (listeners rz)).

(** Modelled from the spec: [updateTime(t)] stores the frame time read
    by the time-driven effects. *)
Definition updateTime (now : Z) (rz : t) : t :=
  {| size := size rz; grid := grid rz; texture := texture rz;
     viewport := viewport rz; time := now; dirty := dirty rz;
     listeners := listeners rz; disposed := disposed rz;
     released := released rz |}.

(** Modelled from the spec: [renderStaticPass(renderer)] "draws the
    current dirty/full grid into its texture". *)
Definition renderStaticPass (rz : t) : t :=
  {| size := size rz; grid := grid rz; texture := texture rz;
     viewport := viewport rz; time := time rz; dirty := false;
     listeners := listeners rz; disposed := disposed rz;
     released := released rz |}.

(** Modelled from the spec: [dispose()] "releases all resources it owns
    and is idempotent (safe to call twice)". *)
Definition dispose (rz : t) : t :=
  if disposed rz then rz
  else {| size := size rz; grid := grid rz; texture := texture rz;
          viewport := viewport rz; time := time rz; dirty := dirty rz;
          listeners := listeners rz; disposed := true;
          released := S (released rz) |}.

End WithAtlas.

End Rasterizer.

(* ------------------------------------------------------------------ *)
(** ** The renderer process ([CRTTerminalApp], renderer.ts) *)

Module App.

(** The entries of [cleanupFunctions], in the order [init()] pushes
    them. *)
Inductive Cleanup : Type :=
| removeDataListener
| onDataDisposable_dispose
| removeExitListener
| removeResizeListener.

(** The two callbacks the program hands to [requestAnimationFrame]:
    [this.animate], and the start-up closure that dispatches a "resize"
    event. *)
Inductive FrameCallback : Type :=
| cb_animate
| cb_dispatchResize.

Inductive Payload : Type :=
| Data (d : string)
| ExitNotice (exitCode : Z).

(** The calls the renderer process makes on its collaborators. *)
Inductive Call : Type :=
| renderer_setSize (width height : Z)
| renderer_render
| renderer_dispose
| container_appendChild
| parentNode_removeChild
| new_TerminalText (width height : Z)
| new_TerminalFrame (width height : Z)
| new_Terminal
| new_XTermConnector
| terminalText_updateTime (now : Z)
| terminalText_renderStaticPass
| terminalText_updateSize (width height : Z)
| terminalText_onGridSizeChange
| terminalText_dispose
| terminalFrame_updateSize (width height : Z)
| terminalFrame_dispose
| xterm_open
| xterm_resize (c r : Z)
| xterm_write (p : Payload)
| xterm_onData
| xterm_focus
| xterm_dispose
| connector_setupMouseSelection
| connector_sync
| connector_dispose
| window_addEventListener_resize
| window_removeEventListener_resize
| window_requestAnimationFrame (cb : FrameCallback) (id : nat)
| window_cancelAnimationFrame (id : nat)
| terminalAPI_init (c r : Z)
| terminalAPI_write (d : string)
| terminalAPI_resize (c r : Z)
| terminalAPI_onData
| terminalAPI_onExit
| terminalAPI_onWindowResize
| cleanup_call (c : Cleanup)
| console_log (exitCode : Z).

(** Modelled from the spec: a collaborator with a [dispose()] that
    "releases all resources it owns and is idempotent" ([TerminalFrame]
    and [XTermConnector] are missing from the sources; the Three.js
    renderer and the XTerm.js terminal are libraries). *)
Record Component : Type := { disposed : bool; released : nat }.

Definition live : Component := {| disposed := false; released := 0 |}.

Definition Component_dispose (c : Component) : Component :=
  if disposed c then c
  else {| disposed := true; released := S (released c) |}.

(** The XTerm.js terminal: its size, its [onData] subscriptions, focus. *)
Record XTerm : Type := {
  x_size : GridSize;
  x_onData : nat;
  x_focused : bool;
  x_self : Component
}.

(** The browser window: viewport, the "resize" listener, the pending
    animation-frame callbacks (oldest first), the next request id, and the
    monotonic clock read by [performance.now()]. *)
Record Window : Type := {
  innerWidth : Z;
  innerHeight : Z;
  resizeListener : bool;
  frames : list (nat * FrameCallback);
  nextFrameId : nat;
  clock : Z
}.

(** What is suspended on a call of [terminalAPI.init] until the main
    process answers: [init()] at its [await] (renderer.ts, line 184), and
    with it, if that is who called [init()], the "DOMContentLoaded"
    handler at its own [await] (line 293). *)
Inductive Suspended : Type :=
| init_awaits
| DOMContentLoaded_awaits_init.

(** preload.ts and main.ts: the IPC listeners the renderer registered,
    the size of the PTY process as the requests sent so far leave it, if
    one is running, and the calls of [terminalAPI.init] not yet answered,
    oldest first. *)
Record Bridge : Type := {
  ptyProcess : option GridSize;
  dataListeners : nat;
  exitListeners : nat;
  resizeWindowListeners : nat;
  pending : list Suspended
}.

Record World : Type := {
  animationFrameId : option nat;
  connector : option Component;
  cleanupFunctions : list Cleanup;
  terminalText : Rasterizer.t;
  terminalFrame : Component;
  renderer : Component;
  domAttached : bool;
  xterm : XTerm;
  window : Window;
  api : Bridge
}.

Definition set_animationFrameId (v : option nat) (w : World) : World :=
  {| animationFrameId := v; connector := connector w;
     cleanupFunctions := cleanupFunctions w; terminalText := terminalText w;
     terminalFrame := terminalFrame w; renderer := renderer w;
     domAttached := domAttached w; xterm := xterm w; window := window w;
     api := api w |}.

Definition set_connector (v : option Component) (w : World) : World :=
  {| animationFrameId := animationFrameId w; connector := v;
     cleanupFunctions := cleanupFunctions w; terminalText := terminalText w;
     terminalFrame := terminalFrame w; renderer := renderer w;
     domAttached := domAttached w; xterm := xterm w; window := window w;
     api := api w |}.

Definition set_cleanupFunctions (v : list Cleanup) (w : World) : World :=
  {| animationFrameId := animationFrameId w; connector := connector w;
     cleanupFunctions := v; terminalText := terminalText w;
     terminalFrame := terminalFrame w; renderer := renderer w;
     domAttached := domAttached w; xterm := xterm w; window := window w;
     api := api w |}.

Definition set_terminalText (v : Rasterizer.t) (w : World) : World :=
  {| animationFrameId := animationFrameId w; connector := connector w;
     cleanupFunctions := cleanupFunctions w; terminalText := v;
     terminalFrame := terminalFrame w; renderer := renderer w;
     domAttached := domAttached w; xterm := xterm w; window := window w;
     api := api w |}.

Definition set_terminalFrame (v : Component) (w : World) : World :=
  {| animationFrameId := animationFrameId w; connector := connector w;
     cleanupFunctions := cleanupFunctions w; terminalText := terminalText w;
     terminalFrame := v; renderer := renderer w;
     domAttached := domAttached w; xterm := xterm w; window := window w;
     api := api w |}.

Definition set_renderer (v : Component) (w : World) : World :=
  {| animationFrameId := animationFrameId w; connector := connector w;
     cleanupFunctions := cleanupFunctions w; terminalText := terminalText w;
     terminalFrame := terminalFrame w; renderer := v;
     domAttached := domAttached w; xterm := xterm w; window := window w;
     api := api w |}.

Definition set_domAttached (v : bool) (w : World) : World :=
  {| animationFrameId := animationFrameId w; connector := connector w;
     cleanupFunctions := cleanupFunctions w; terminalText := terminalText w;
     terminalFrame := terminalFrame w; renderer := renderer w;
     domAttached := v; xterm := xterm w; window := window w;
     api := api w |}.

Definition set_xterm (v : XTerm) (w : World) : World :=
  {| animationFrameId := animationFrameId w; connector := connector w;
     cleanupFunctions := cleanupFunctions w; terminalText := terminalText w;
     terminalFrame := terminalFrame w; renderer := renderer w;
     domAttached := domAttached w; xterm := v; window := window w;
     api := api w |}.

Definition set_window (v : Window) (w : World) : World :=
  {| animationFrameId := animationFrameId w; connector := connector w;
     cleanupFunctions := cleanupFunctions w; terminalText := terminalText w;
     terminalFrame := terminalFrame w; renderer := renderer w;
     domAttached := domAttached w; xterm := xterm w; window := v;
     api := api w |}.

Definition set_api (v : Bridge) (w : World) : World :=
  {| animationFrameId := animationFrameId w; connector := connector w;
     cleanupFunctions := cleanupFunctions w; terminalText := terminalText w;
     terminalFrame := terminalFrame w; renderer := renderer w;
     domAttached := domAttached w; xterm := xterm w; window := window w;
     api := v |}.

(** *** The monad of the renderer process: state, and a trace of calls *)

Definition M (A : Type) : Type := World -> A * World * list Call.

Definition value {A : Type} (r : A * World * list Call) : A := fst (fst r).
Definition state {A : Type} (r : A * World * list Call) : World := snd (fst r).
Definition trace {A : Type} (r : A * World * list Call) : list Call := snd r.

Definition ret {A : Type} (a : A) : M A := fun w => (a, w, []).

Definition bind {A B : Type} (m : M A) (k : A -> M B) : M B :=
  fun w =>
    let r1 := m w in
    let r2 := k (value r1) (state r1) in
    (value r2, state r2, trace r1 ++ trace r2).

Definition get : M World := fun w => (w, w, []).
Definition modify (f : World -> World) : M unit := fun w => (tt, f w, []).
Definition call (c : Call) : M unit := fun w => (tt, w, [c]).
Definition when (b : bool) (m : M unit) : M unit := if b then m else ret tt.

Declare Scope app_scope.
Delimit Scope app_scope with app.
Notation "x <- m ;; k" := (bind m (fun x => k))
  (at level 61, m at next level, right associativity) : app_scope.
Notation "m ;; k" := (bind m (fun _ => k))
  (at level 61, right associativity) : app_scope.
Local Open Scope app_scope.

Fixpoint forEach {A : Type} (l : list A) (body : A -> M unit) : M unit :=
  match l with
  | [] => ret tt
  | a :: l' => body a ;; forEach l' body
  end.

Fixpoint times (n : nat) (body : M unit) : M unit :=
  match n with
  | O => ret tt
  | S n' => body ;; times n' body
  end.

Section WithAtlas.
Context `{GlyphAtlas}.

(** *** Collaborators *)

Definition performance_now : M Z :=
  fun w => (clock (window w), w, []).

(** [requestAnimationFrame(cb)]: the browser queues the callback and
    returns a fresh request id. *)
Definition requestAnimationFrame (cb : FrameCallback) : M nat :=
  fun w =>
    let id := nextFrameId (window w) in
    (id,
     set_window
       {| innerWidth := innerWidth (window w);
          innerHeight := innerHeight (window w);
          resizeListener := resizeListener (window w);
          frames := frames (window w) ++ [(id, cb)];
          nextFrameId := S id;
          clock := clock (window w) |} w,
     [window_requestAnimationFrame cb id]).

(** [cancelAnimationFrame(id)]: the request leaves the queue. *)
Definition cancelAnimationFrame (id : nat) : M unit :=
  fun w =>
    (tt,
     set_window
       {| innerWidth := innerWidth (window w);
          innerHeight := innerHeight (window w);
          resizeListener := resizeListener (window w);
          frames := filter (fun e => negb (Nat.eqb (fst e) id)) (frames (window w));
          nextFrameId := nextFrameId (window w);
          clock := clock (window w) |} w,
     [window_cancelAnimationFrame id]).

Definition set_resizeListener (b : bool) (w : World) : World :=
  set_window
    {| innerWidth := innerWidth (window w);
       innerHeight := innerHeight (window w);
       resizeListener := b;
       frames := frames (window w);
       nextFrameId := nextFrameId (window w);
       clock := clock (window w) |} w.

Definition window_addEventListener : M unit :=
  modify (set_resizeListener true) ;; call window_addEventListener_resize.

Definition window_removeEventListener : M unit :=
  modify (set_resizeListener false) ;; call window_removeEventListener_resize.

Definition xterm_do_resize (c r : Z) : M unit :=
  modify (fun w =>
    set_xterm {| x_size := xterm_keeps c r; x_onData := x_onData (xterm w);
                 x_focused := x_focused (xterm w); x_self := x_self (xterm w) |} w) ;;
  call (xterm_resize c r).

Definition xterm_do_onData : M unit :=
  modify (fun w =>
    set_xterm {| x_size := x_size (xterm w); x_onData := S (x_onData (xterm w));
                 x_focused := x_focused (xterm w); x_self := x_self (xterm w) |} w) ;;
  call xterm_onData.

Definition xterm_do_focus : M unit :=
  modify (fun w =>
    set_xterm {| x_size := x_size (xterm w); x_onData := x_onData (xterm w);
                 x_focused := true; x_self := x_self (xterm w) |} w) ;;
  call xterm_focus.

Definition xterm_do_dispose : M unit :=
  modify (fun w =>
    set_xterm {| x_size := x_size (xterm w); x_onData := x_onData (xterm w);
                 x_focused := x_focused (xterm w);
                 x_self := Component_dispose (x_self (xterm w)) |} w) ;;
  call xterm_dispose.

(** preload.ts [init] -> main.ts "terminal:init" -> [initializePty]:
    a running PTY is killed and a new one is spawned for the given
    size. *)
Definition terminalAPI_do_init (c r : Z) : M unit :=
  modify (fun w =>
    set_api {| ptyProcess := Some (pty_spawned c r);
               dataListeners := dataListeners (api w);
               exitListeners := exitListeners (api w);
               resizeWindowListeners := resizeWindowListeners (api w);
               pending := pending (api w) |} w) ;;
  call (terminalAPI_init c r).

(** preload.ts [resize] -> main.ts "terminal:resize": the PTY is resized
    if one is running; node-pty refuses a size that is not positive, which
    the handler catches. *)
Definition terminalAPI_do_resize (c r : Z) : M unit :=
  modify (fun w =>
    set_api {| ptyProcess := match ptyProcess (api w) with
                             | Some g =>
                                 Some (if (c >? 0) && (r >? 0)
                                       then mkGridSize c r else g)
                             | None => None
                             end;
               dataListeners := dataListeners (api w);
               exitListeners := exitListeners (api w);
               resizeWindowListeners := resizeWindowListeners (api w);
               pending := pending (api w) |} w) ;;
  call (terminalAPI_resize c r).

Definition terminalAPI_do_onData : M unit :=
  modify (fun w =>
    set_api {| ptyProcess := ptyProcess (api w);
               dataListeners := S (dataListeners (api w));
               exitListeners := exitListeners (api w);
               resizeWindowListeners := resizeWindowListeners (api w);
               pending := pending (api w) |} w) ;;
  call terminalAPI_onData.

Definition terminalAPI_do_onExit : M unit :=
  modify (fun w =>
    set_api {| ptyProcess := ptyProcess (api w);
               dataListeners := dataListeners (api w);
               exitListeners := S (exitListeners (api w));
               resizeWindowListeners := resizeWindowListeners (api w);
               pending := pending (api w) |} w) ;;
  call terminalAPI_onExit.

Definition terminalAPI_do_onWindowResize : M unit :=
  modify (fun w =>
    set_api {| ptyProcess := ptyProcess (api w);
               dataListeners := dataListeners (api w);
               exitListeners := exitListeners (api w);
               resizeWindowListeners := S (resizeWindowListeners (api w));
               pending := pending (api w) |} w) ;;
  call terminalAPI_onWindowResize.

(** What each cleanup function undoes. *)
Definition run_cleanup (c : Cleanup) : M unit :=
  modify (fun w =>
    match c with
    | removeDataListener =>
        set_api {| ptyProcess := ptyProcess (api w);
                   dataListeners := Nat.pred (dataListeners (api w));
                   exitListeners := exitListeners (api w);
                   resizeWindowListeners := resizeWindowListeners (api w);
                   pending := pending (api w) |} w
    | onDataDisposable_dispose =>
        set_xterm {| x_size := x_size (xterm w);
                     x_onData := Nat.pred (x_onData (xterm w));
                     x_focused := x_focused (xterm w);
                     x_self := x_self (xterm w) |} w
    | removeExitListener =>
        set_api {| ptyProcess := ptyProcess (api w);
                   dataListeners := dataListeners (api w);
                   exitListeners := Nat.pred (exitListeners (api w));
                   resizeWindowListeners := resizeWindowListeners (api w);
                   pending := pending (api w) |} w
    | removeResizeListener =>
        set_api {| ptyProcess := ptyProcess (api w);
                   dataListeners := dataListeners (api w);
                   exitListeners := exitListeners (api w);
                   resizeWindowListeners := Nat.pred (resizeWindowListeners (api w));
                   pending := pending (api w) |} w
    end) ;;
  call (cleanup_call c).

Definition push_cleanup (c : Cleanup) : M unit :=
  modify (fun w => set_cleanupFunctions (cleanupFunctions w ++ [c]) w).

Definition is_some {A : Type} (o : option A) : bool :=
  match o with Some _ => true | None => false end.

(** *** The methods of [CRTTerminalApp] *)

(** The listener given to [terminalText.onGridSizeChange] in the
    constructor (renderer.ts, lines 119-124). *)
Definition gridSizeChanged (c r : Z) : M unit :=
  w <- get ;;
  if (c >? 0) && (r >? 0) && is_some (connector w)
  then xterm_do_resize c r ;; call connector_sync
  else ret tt.

(** [terminalText.updateSize(width, height)]: the rasterizer recomputes
    its grid size and invokes the listeners it decides to notify; the
    only listener this program registers is [gridSizeChanged]. *)
Definition terminalText_do_updateSize (width height : Z) : M unit :=
  w <- get ;;
  let r := Rasterizer.updateSize width height (terminalText w) in
  modify (set_terminalText (fst r)) ;;
  call (terminalText_updateSize width height) ;;
  forEach (snd r) (fun n => gridSizeChanged (cols (snd n)) (rows (snd n))).

(** [handleResize] (renderer.ts, lines 139-152). *)
Definition handleResize : M unit :=
  w <- get ;;
  let width := innerWidth (window w) in
  let height := innerHeight (window w) in
  call (renderer_setSize width height) ;;
  terminalText_do_updateSize width height ;;
  call (terminalFrame_updateSize width height) ;;
  w' <- get ;;
  if is_some (connector w')
  then
    let gridSize := Rasterizer.getGridSize (terminalText w') in
    if (cols gridSize >? 0) && (rows gridSize >? 0)
    then xterm_do_resize (cols gridSize) (rows gridSize) ;; call connector_sync
    else ret tt
  else ret tt.

(** [animate] (renderer.ts, lines 157-169). *)
Definition animate : M unit :=
  now <- performance_now ;;
  modify (fun w => set_terminalText (Rasterizer.updateTime now (terminalText w)) w) ;;
  call (terminalText_updateTime now) ;;
  modify (fun w => set_terminalText (Rasterizer.renderStaticPass (terminalText w)) w) ;;
  call terminalText_renderStaticPass ;;
  id <- requestAnimationFrame cb_animate ;;
  modify (set_animationFrameId (Some id)) ;;
  call renderer_render.

(** [init()] (renderer.ts, lines 174-221) is an [async] function with
    one [await], on the call of [terminalAPI.init] in line 184.  Calling
    it runs [init_until_await], up to that call; the rest,
    [init_after_await], runs when the main process has answered, and
    whatever the event loop delivers in the meantime runs in between. *)

(** Lines 174-184. *)
Definition init_until_await : M unit :=
  w <- get ;;
  let gridSize := Rasterizer.getGridSize (terminalText w) in
  let c := if cols gridSize >? 0 then cols gridSize else 80 in
  let r := if rows gridSize >? 0 then rows gridSize else 24 in
  xterm_do_resize c r ;;
  terminalAPI_do_init c r.

(** The [await]: the caller is suspended until the call is answered. *)
Definition await (s : Suspended) : M unit :=
  modify (fun w =>
    set_api {| ptyProcess := ptyProcess (api w);
               dataListeners := dataListeners (api w);
               exitListeners := exitListeners (api w);
               resizeWindowListeners := resizeWindowListeners (api w);
               pending := pending (api w) ++ [s] |} w).

(** The oldest unanswered call is answered, or fails. *)
Definition settle : M unit :=
  modify (fun w =>
    set_api {| ptyProcess := ptyProcess (api w);
               dataListeners := dataListeners (api w);
               exitListeners := exitListeners (api w);
               resizeWindowListeners := resizeWindowListeners (api w);
               pending := tl (pending (api w)) |} w).

(** Lines 186-220. *)
Definition init_after_await : M unit :=
  terminalAPI_do_onData ;;
  push_cleanup removeDataListener ;;
  xterm_do_onData ;;
  push_cleanup onDataDisposable_dispose ;;
  terminalAPI_do_onExit ;;
  push_cleanup removeExitListener ;;
  terminalAPI_do_onWindowResize ;;
  push_cleanup removeResizeListener ;;
  xterm_do_focus.

(** [dispose()] (renderer.ts, lines 247-281), block by block as the
    source comments divide it. *)

(** "Stop animation loop" *)
Definition stopAnimationLoop : M unit :=
  w <- get ;;
  match animationFrameId w with
  | Some id => cancelAnimationFrame id ;; modify (set_animationFrameId None)
  | None => ret tt
  end.

(** "Run cleanup functions" *)
Definition runCleanupFunctions : M unit :=
  w <- get ;;
  forEach (cleanupFunctions w) run_cleanup ;;
  modify (set_cleanupFunctions []).

(** "Dispose connector" *)
Definition disposeConnector : M unit :=
  w <- get ;;
  match connector w with
  | Some c =>
      modify (set_connector (Some (Component_dispose c))) ;;
      call connector_dispose ;;
      modify (set_connector None)
  | None => ret tt
  end.

(** "Dispose Three.js resources" *)
Definition disposeThreeResources : M unit :=
  modify (fun w => set_terminalText (Rasterizer.dispose (terminalText w)) w) ;;
  call terminalText_dispose ;;
  modify (fun w => set_terminalFrame (Component_dispose (terminalFrame w)) w) ;;
  call terminalFrame_dispose ;;
  modify (fun w => set_renderer (Component_dispose (renderer w)) w) ;;
  call renderer_dispose.

(** "Remove renderer from DOM" *)
Definition removeRendererFromDom : M unit :=
  w <- get ;;
  when (domAttached w)
       (modify (set_domAttached false) ;; call parentNode_removeChild).

Definition dispose : M unit :=
  stopAnimationLoop ;;
  window_removeEventListener ;;
  runCleanupFunctions ;;
  disposeConnector ;;
  disposeThreeResources ;;
  removeRendererFromDom ;;
  xterm_do_dispose.

(** The objects as the field initialisers and [new] expressions of the
    constructor make them, before any method runs on them. *)
Definition fresh (win : Window) (ipc : Bridge) : World :=
  {| animationFrameId := None;
     connector := None;
     cleanupFunctions := [];
     terminalText := Rasterizer.create (innerWidth win) (innerHeight win);
     terminalFrame := live;
     renderer := live;
     domAttached := false;
     xterm := {| x_size := mkGridSize 80 24; x_onData := 0;
                 x_focused := false; x_self := live |};
     window := win;
     api := ipc |}.

(** The body of the constructor (renderer.ts, lines 58-134). *)
Definition constructor : M unit :=
  w <- get ;;
  let width := innerWidth (window w) in
  let height := innerHeight (window w) in
  call (renderer_setSize width height) ;;
  modify (set_domAttached true) ;;
  call container_appendChild ;;
  call (new_TerminalText width height) ;;
  call (new_TerminalFrame width height) ;;
  call new_Terminal ;;
  call xterm_open ;;
  let gridSize := Rasterizer.getGridSize (terminalText w) in
  when ((cols gridSize >? 0) && (rows gridSize >? 0))
       (xterm_do_resize (cols gridSize) (rows gridSize)) ;;
  modify (set_connector (Some live)) ;;
  call new_XTermConnector ;;
  call connector_setupMouseSelection ;;
  modify (fun w => set_terminalText (snd (Rasterizer.onGridSizeChange (terminalText w))) w) ;;
  call terminalText_onGridSizeChange ;;
  call connector_sync ;;
  window_addEventListener ;;
  animate.

Definition new_CRTTerminalApp (win : Window) (ipc : Bridge)
  : unit * World * list Call :=
  constructor (fresh win ipc).

(** *** The event loop of the renderer process *)

(** What can happen to a running application: the browser presents a
    frame, the window is resized, the main process forwards a resize,
    PTY output or the PTY's exit arrives, the user types, the host calls
    [init()] or [dispose()], and the main process answers the oldest
    unanswered call of [terminalAPI.init], or that call fails. *)
Inductive Event : Type :=
| EvFrame (now : Z)
| EvWindowResize (width height : Z)
| EvIpcWindowResize
| EvPtyData (d : string)
| EvPtyExit (exitCode : Z)
| EvKey (d : string)
| EvInit
| EvInitReply
| EvInitRejected
| EvDispose.

(** [window.dispatchEvent(new Event("resize"))]. *)
Definition dispatchResize : M unit :=
  w <- get ;;
  when (resizeListener (window w)) handleResize.

Definition run_frame_callback (e : nat * FrameCallback) : M unit :=
  match snd e with
  | cb_animate => animate
  | cb_dispatchResize => dispatchResize
  end.

Definition set_viewport (width height : Z) (w : World) : World :=
  set_window
    {| innerWidth := width; innerHeight := height;
       resizeListener := resizeListener (window w);
       frames := frames (window w);
       nextFrameId := nextFrameId (window w);
       clock := clock (window w) |} w.

(** The browser takes the callbacks queued so far, empties the queue,
    advances the clock and runs them in order. *)
Definition take_frames (now : Z) (w : World) : World :=
  set_window
    {| innerWidth := innerWidth (window w);
       innerHeight := innerHeight (window w);
       resizeListener := resizeListener (window w);
       frames := [];
       nextFrameId := nextFrameId (window w);
       clock := now |} w.

(** The listener given to [terminalAPI.onWindowResize] in [init()]. *)
Definition ipcWindowResized : M unit :=
  handleResize ;;
  w <- get ;;
  let newGridSize := Rasterizer.getGridSize (terminalText w) in
  when ((cols newGridSize >? 0) && (rows newGridSize >? 0))
       (terminalAPI_do_resize (cols newGridSize) (rows newGridSize)).

(** The listener given to [terminalAPI.onExit] in [init()]. *)
Definition ptyExited (exitCode : Z) : M unit :=
  call (console_log exitCode) ;;
  call (xterm_write (ExitNotice exitCode)).

(** The "DOMContentLoaded" handler after its [await] (renderer.ts, lines
    295-302): a frame callback that dispatches a "resize" event is
    requested. *)
Definition DOMContentLoaded_resume : M unit :=
  _ <- requestAnimationFrame cb_dispatchResize ;; ret tt.

(** What runs when a call of [terminalAPI.init] has been answered. *)
Definition resume (s : Suspended) : M unit :=
  match s with
  | init_awaits => init_after_await
  | DOMContentLoaded_awaits_init => init_after_await ;; DOMContentLoaded_resume
  end.

Definition step (e : Event) : M unit :=
  match e with
  | EvFrame now =>
      w <- get ;;
      modify (take_frames now) ;;
      forEach (frames (window w)) run_frame_callback
  | EvWindowResize width height =>
      modify (set_viewport width height) ;;
      dispatchResize
  | EvIpcWindowResize =>
      w <- get ;;
      times (resizeWindowListeners (api w)) ipcWindowResized
  | EvPtyData d =>
      w <- get ;;
      times (dataListeners (api w)) (call (xterm_write (Data d)))
  | EvPtyExit exitCode =>
      w <- get ;;
      modify (fun w =>
        set_api {| ptyProcess := None;
                   dataListeners := dataListeners (api w);
                   exitListeners := exitListeners (api w);
                   resizeWindowListeners := resizeWindowListeners (api w);
                   pending := pending (api w) |} w) ;;
      times (exitListeners (api w)) (ptyExited exitCode)
  | EvKey d =>
      w <- get ;;
      times (x_onData (xterm w)) (call (terminalAPI_write d))
  | EvInit => init_until_await ;; await init_awaits
  | EvInitReply =>
      w <- get ;;
      match pending (api w) with
      | s :: _ => settle ;; resume s
      | [] => ret tt
      end
  | EvInitRejected => settle
  | EvDispose => dispose
  end.

Definition run (es : list Event) : M unit := forEach es step.

(** The "DOMContentLoaded" handler up to its [await] (renderer.ts, lines
    285-293), in a document that has the "terminal" element: the
    application is constructed and [init()] is called. *)
Definition boot (width height now : Z) : unit * World * list Call :=
  let win := {| innerWidth := width; innerHeight := height;
                resizeListener := false; frames := [];
                nextFrameId := 1; clock := now |} in
  let ipc := {| ptyProcess := None; dataListeners := 0;
                exitListeners := 0; resizeWindowListeners := 0;
                pending := [] |} in
  (constructor ;; init_until_await ;; await DOMContentLoaded_awaits_init)
    (fresh win ipc).

End WithAtlas.

End App.

(** A concrete glyph atlas for running the model: 8 x 16 pixel cells, the
    grid being as many whole cells as fit the viewport. *)
Definition terminus8x16 : GlyphAtlas :=
  {| cellWidth := 8; cellHeight := 16;
     computeGridSize := fun width height => mkGridSize (width / 8) (height / 16) |}.

(* ------------------------------------------------------------------ *)
(** ** Observations on traces and worlds *)

(** The four calls of one iteration of the render loop. *)
Definition is_tick_call (c : App.Call) : bool :=
  match c with
  | App.terminalText_updateTime _ => true
  | App.terminalText_renderStaticPass => true
  | App.window_requestAnimationFrame App.cb_animate _ => true
  | App.renderer_render => true
  | _ => false
  end.

(** A trace made of whole iterations of the render loop, each in the order
    time, static pass, request of the next frame, main scene. *)
Inductive FrameBlocks : list App.Call -> Prop :=
| FrameBlocks_nil : FrameBlocks []
| FrameBlocks_tick (now : Z) (id : nat) (t : list App.Call) :
    FrameBlocks t ->
    FrameBlocks (App.terminalText_updateTime now
                 :: App.terminalText_renderStaticPass
                 :: App.window_requestAnimationFrame App.cb_animate id
                 :: App.renderer_render
                 :: t).

Definition is_animate (e : nat * App.FrameCallback) : bool :=
  match snd e with
  | App.cb_animate => true
  | App.cb_dispatchResize => false
  end.

(** The requests for [animate] the browser still holds. *)
Definition pending_ticks (w : App.World) : list (nat * App.FrameCallback) :=
  filter is_animate (App.frames (App.window w)).

(** The render loop is tracked: the only pending request for [animate], if
    any, is the one [animationFrameId] names. *)
Definition Tracked (w : App.World) : Prop :=
  map fst (pending_ticks w) =
  match App.animationFrameId w with
  | Some id => [id]
  | None => []
  end.

(** The render loop has stopped: nothing is pending and nothing is
    remembered. *)
Definition Halted (w : App.World) : Prop :=
  App.animationFrameId w = None /\ pending_ticks w = [].

(** A collaborator has released its resources exactly as often as its
    [disposed] flag says: once, or not yet. *)
Definition counted (c : App.Component) : Prop :=
  App.released c = if App.disposed c then 1%nat else 0%nat.

Definition Counted (w : App.World) : Prop :=
  Rasterizer.released (App.terminalText w)
    = (if Rasterizer.disposed (App.terminalText w) then 1%nat else 0%nat)
  /\ counted (App.terminalFrame w)
  /\ counted (App.renderer w)
  /\ counted (App.x_self (App.xterm w)).

(** The state in which a second [dispose()] finds the application. *)
Definition Disposed (w : App.World) : Prop :=
  App.animationFrameId w = None
  /\ App.cleanupFunctions w = []
  /\ App.connector w = None
  /\ Rasterizer.disposed (App.terminalText w) = true
  /\ App.disposed (App.terminalFrame w) = true
  /\ App.disposed (App.renderer w) = true
  /\ App.domAttached w = false
  /\ App.disposed (App.x_self (App.xterm w)) = true
  /\ App.resizeListener (App.window w) = false.

(** The part of the world that only [dispose()] touches. *)
Definition components (w : App.World)
  : bool * nat * App.Component * App.Component * App.Component
    * option App.Component :=
  (Rasterizer.disposed (App.terminalText w),
   Rasterizer.released (App.terminalText w),
   App.terminalFrame w, App.renderer w, App.x_self (App.xterm w),
   App.connector w).

(** The part of the world the cleanup functions leave alone. *)
Definition outside_listeners (w : App.World)
  : option nat * option App.Component * Rasterizer.t * App.Component
    * App.Component * bool * App.Component * App.Window :=
  (App.animationFrameId w, App.connector w, App.terminalText w,
   App.terminalFrame w, App.renderer w, App.domAttached w,
   App.x_self (App.xterm w), App.window w).

(** What the second [dispose()] of an application still calls. *)
Definition second_dispose_calls : list App.Call :=
  [App.window_removeEventListener_resize; App.terminalText_dispose;
   App.terminalFrame_dispose; App.renderer_dispose; App.xterm_dispose].

(** The sizes the terminal emulation and the PTY were last given. *)
Definition negotiated (w : App.World) : GridSize * option GridSize :=
  (App.x_size (App.xterm w), App.ptyProcess (App.api w)).

(** The part of the world the render loop lives in. *)
Definition loop_state (w : App.World)
  : list (nat * App.FrameCallback) * nat * option nat :=
  (App.frames (App.window w), App.nextFrameId (App.window w),
   App.animationFrameId w).

(** What of the render loop is pending and what is remembered. *)
Definition tick_state (w : App.World)
  : list (nat * App.FrameCallback) * option nat :=
  (pending_ticks w, App.animationFrameId w).

(** A computation whose trace has no call of the render loop. *)
Definition silent {A : Type} (m : App.M A) : Prop :=
  forall w, filter is_tick_call (App.trace (m w)) = [].

(** A computation that leaves an observation of the world as it was. *)
Definition preserves {A B : Type} (f : App.World -> B) (m : App.M A) : Prop :=
  forall w, f (App.state (m w)) = f w.

(** ** Concrete runs *)

(** The application started in a 640 x 480 window at time 1000, when the
    main process has answered its call of [terminalAPI.init]. *)
Definition started : App.World :=
  App.state (App.run (H := terminus8x16) [App.EvInitReply]
    (App.state (App.boot (H := terminus8x16) 640 480 1000))).

(** The same application after [dispose()]. *)
Definition started_disposed : App.World :=
  App.state (App.dispose started).

(** An application constructed while the window is 4 pixels wide: no
    column fits, thirty rows do. *)
Definition narrow : App.World :=
  App.state (App.new_CRTTerminalApp (H := terminus8x16)
    {| App.innerWidth := 4; App.innerHeight := 480;
       App.resizeListener := false; App.frames := [];
       App.nextFrameId := 1; App.clock := 0 |}
    {| App.ptyProcess := None; App.dataListeners := 0;
       App.exitListeners := 0; App.resizeWindowListeners := 0;
       App.pending := [] |}).

(** A rasterizer sized for a 640 x 480 viewport, with one listener. *)
Definition raster80x30 : Rasterizer.t :=
  snd (Rasterizer.onGridSizeChange (Rasterizer.create (H := terminus8x16) 640 480)).

(** ** Listeners and what undoes them *)

Definition Cleanup_eqb (a b : App.Cleanup) : bool :=
  match a, b with
  | App.removeDataListener, App.removeDataListener => true
  | App.onDataDisposable_dispose, App.onDataDisposable_dispose => true
  | App.removeExitListener, App.removeExitListener => true
  | App.removeResizeListener, App.removeResizeListener => true
  | _, _ => false
  end.

(** How many entries of [cleanupFunctions] undo a registration of the
    given kind. *)
Definition pending_cleanups (c : App.Cleanup) (l : list App.Cleanup) : nat :=
  List.length (filter (Cleanup_eqb c) l).

(** The listeners [init()] registers, per kind. *)
Definition registered (c : App.Cleanup) (w : App.World) : nat :=
  match c with
  | App.removeDataListener => App.dataListeners (App.api w)
  | App.onDataDisposable_dispose => App.x_onData (App.xterm w)
  | App.removeExitListener => App.exitListeners (App.api w)
  | App.removeResizeListener => App.resizeWindowListeners (App.api w)
  end.

(** Every registered listener has its cleanup function waiting. *)
Definition Balanced (w : App.World) : Prop :=
  forall c : App.Cleanup,
    registered c w = pending_cleanups c (App.cleanupFunctions w).

(** The part of the world that only [init()] and [dispose()] touch. *)
Definition subscriptions (w : App.World)
  : list App.Cleanup * nat * nat * nat * nat * bool :=
  (App.cleanupFunctions w, App.dataListeners (App.api w),
   App.x_onData (App.xterm w), App.exitListeners (App.api w),
   App.resizeWindowListeners (App.api w), App.resizeListener (App.window w)).

(** No listener of the application is registered any more. *)
Definition Unsubscribed (w : App.World) : Prop :=
  subscriptions w = ([], 0%nat, 0%nat, 0%nat, 0%nat, false).

(** Events that come from outside, as opposed to the host calling a
    method of the application. *)
Definition is_external (e : App.Event) : bool :=
  match e with
  | App.EvInit | App.EvDispose => false
  | _ => true
  end.

(** The answers to [terminalAPI.init]. *)
Definition is_settlement (e : App.Event) : bool :=
  match e with
  | App.EvInitReply | App.EvInitRejected => true
  | _ => false
  end.

(** The calls of [init()] that are suspended at their [await]. *)
Definition suspended (w : App.World) : list App.Suspended :=
  App.pending (App.api w).

Definition is_dispose (e : App.Event) : bool :=
  match e with
  | App.EvDispose => true
  | _ => false
  end.

(** How many calls of [init()] run to their end in a run that begins
    with [n] of them suspended: every answer lets the oldest suspended
    call go on, every failure drops it. *)
Fixpoint completed_inits (n : nat) (es : list App.Event) : nat :=
  match es with
  | [] => 0
  | App.EvInit :: es' => completed_inits (S n) es'
  | App.EvInitReply :: es' =>
      match n with
      | O => completed_inits O es'
      | S n' => S (completed_inits n' es')
      end
  | App.EvInitRejected :: es' => completed_inits (Nat.pred n) es'
  | _ :: es' => completed_inits n es'
  end.

(** The clock and the request counter, which only the browser and
    [requestAnimationFrame] advance. *)
Definition frame_clock (w : App.World) : Z * nat :=
  (App.clock (App.window w), App.nextFrameId (App.window w)).

(** The part of the world that resizing the terminal emulation leaves
    alone. *)
Definition beside_xterm (w : App.World)
  : Rasterizer.t * option App.Component * App.Bridge * App.Window :=
  (App.terminalText w, App.connector w, App.api w, App.window w).

(** The started application after the browser changed the viewport to
    800 x 480 and before the "resize" event is delivered. *)
Definition started_widened : App.World := App.set_viewport 800 480 started.

(** The same with a viewport of 8 x 480, in which one column fits. *)
Definition started_squeezed : App.World := App.set_viewport 8 480 started.

(* ------------------------------------------------------------------ *)
(** ** The main process (main.ts) *)

Module Main.

(** What the main process reads from its host: [process.platform],
    [process.env], [os.homedir()] and the work area of the primary
    display. *)
Record Host : Type := {
  platform : string;
  env : string -> option string;
  homedir : string;
  workAreaSize : Z * Z
}.

(** JavaScript's [a || b] on a string that may be undefined: the empty
    string is falsy. *)
Definition or_else (a : option string) (b : string) : string :=
  match a with
  | Some s => if String.eqb s "" then b else s
  | None => b
  end.

(** [getDefaultShell] (main.ts, lines 21-26). *)
Definition getDefaultShell (h : Host) : string :=
  if String.eqb (platform h) "win32"
  then or_else (env h "COMSPEC") "cmd.exe"
  else or_else (env h "SHELL") "/bin/bash".

(** A PTY process is running, has been sent the kill signal by the main
    process, or has reported its exit. *)
Inductive PtyStatus : Type :=
| Running
| Killed
| Exited.

Record Pty : Type := {
  file : string;
  args : list string;
  name : string;
  pty_size : GridSize;
  cwd : string;
  status : PtyStatus;
  input : list string
}.

Record BrowserWindow : Type := {
  contentSize : Z * Z;
  devTools : bool;
  destroyed : bool
}.

(** What travels over IPC: the argument of a renderer request, or the
    payload of a message to the renderer. *)
Inductive IpcArgs : Type :=
| NoArgs
| SizeArgs (c r : Z)
| DataArg (d : string)
| ExitArgs (exitCode : Z) (signal : option Z).

(** How the renderer reaches the main process: [ipcRenderer.invoke],
    answered by a handler registered with [ipcMain.handle], or
    [ipcRenderer.send], received by one registered with [ipcMain.on]. *)
Inductive Transport : Type :=
| Invoke
| Send.

(** The handlers main.ts registers. *)
Inductive Handler : Type :=
| on_init
| on_input
| on_resize
| on_get_process_id.

(** The registrations of main.ts, lines 115-138: which handler, if any,
    receives a request on a channel. *)
Definition handler_of (t : Transport) (channel : string) : option Handler :=
  match t with
  | Invoke =>
      if String.eqb channel "terminal:init" then Some on_init
      else if String.eqb channel "terminal:get-process-id" then Some on_get_process_id
      else None
  | Send =>
      if String.eqb channel "terminal:input" then Some on_input
      else if String.eqb channel "terminal:resize" then Some on_resize
      else None
  end.

(** The calls the main process makes. *)
Inductive Call : Type :=
| new_BrowserWindow (id : nat) (width height : Z)
| loadFile (id : nat)
| openDevTools (id : nat)
| spawn (id : nat) (shell : string) (shellArgs : list string) (c r : Z)
| pty_kill (id : nat)
| pty_write (id : nat) (d : string)
| pty_resize (id : nat) (c r : Z)
| webContents_send (win : nat) (channel : string) (payload : IpcArgs)
| app_quit
| console_log (exitCode : Z) (signal : option Z)
| console_error
| reply_success
| reply_pid (pid : option nat).

(** The two module variables, and the objects they may refer to: windows
    and PTY processes are numbered in the order of their creation. *)
Record State : Type := {
  mainWindow : option nat;
  ptyProcess : option nat;
  windows : list BrowserWindow;
  ptys : list Pty;
  ready : bool
}.

Definition initial : State :=
  {| mainWindow := None; ptyProcess := None; windows := []; ptys := [];
     ready := false |}.

Fixpoint update_nth {A : Type} (i : nat) (f : A -> A) (l : list A) : list A :=
  match l, i with
  | [], _ => []
  | a :: l', O => f a :: l'
  | a :: l', S i' => a :: update_nth i' f l'
  end.

Definition with_status (st : PtyStatus) (p : Pty) : Pty :=
  {| file := file p; args := args p; name := name p; pty_size := pty_size p;
     cwd := cwd p; status := st; input := input p |}.

Definition with_size (g : GridSize) (p : Pty) : Pty :=
  {| file := file p; args := args p; name := name p; pty_size := g;
     cwd := cwd p; status := status p; input := input p |}.

Definition with_input (d : string) (p : Pty) : Pty :=
  {| file := file p; args := args p; name := name p; pty_size := pty_size p;
     cwd := cwd p; status := status p; input := input p ++ [d] |}.

(** [kill()] reaches a process that is still running. *)
Definition killed (p : Pty) : Pty :=
  match status p with
  | Running => with_status Killed p
  | _ => p
  end.

Definition set_ptys (l : list Pty) (s : State) : State :=
  {| mainWindow := mainWindow s; ptyProcess := ptyProcess s;
     windows := windows s; ptys := l; ready := ready s |}.

Definition set_ptyProcess (v : option nat) (s : State) : State :=
  {| mainWindow := mainWindow s; ptyProcess := v;
     windows := windows s; ptys := ptys s; ready := ready s |}.

Definition set_mainWindow (v : option nat) (s : State) : State :=
  {| mainWindow := v; ptyProcess := ptyProcess s;
     windows := windows s; ptys := ptys s; ready := ready s |}.

Definition set_windows (l : list BrowserWindow) (s : State) : State :=
  {| mainWindow := mainWindow s; ptyProcess := ptyProcess s;
     windows := l; ptys := ptys s; ready := ready s |}.

Definition set_ready (s : State) : State :=
  {| mainWindow := mainWindow s; ptyProcess := ptyProcess s;
     windows := windows s; ptys := ptys s; ready := true |}.

(** [if (ptyProcess) { ptyProcess.kill(); ptyProcess = null; }], as the
    "closed" and "before-quit" handlers have it. *)
Definition kill_and_forget (s : State) : State * list Call :=
  match ptyProcess s with
  | Some i => (set_ptyProcess None (set_ptys (update_nth i killed (ptys s)) s),
               [pty_kill i])
  | None => (s, [])
  end.

(** [mainWindow && !mainWindow.isDestroyed()] *)
Definition window_alive (s : State) : option nat :=
  match mainWindow s with
  | Some w =>
      match nth_error (windows s) w with
      | Some bw => if destroyed bw then None else Some w
      | None => None
      end
  | None => None
  end.

Section WithHost.
Variable h : Host.

(** What node-pty's [resize] does with a size is the library's; the code
    only provides for it throwing. *)
Variable resize_throws : Pty -> Z -> Z -> bool.

(** [createWindow] (main.ts, lines 31-74). *)
Definition createWindow (s : State) : State * list Call :=
  let id := List.length (windows s) in
  let dev := match env h "NODE_ENV" with
             | Some v => String.eqb v "development"
             | None => false
             end in
  (set_mainWindow (Some id)
     (set_windows (windows s ++ [{| contentSize := workAreaSize h;
                                    devTools := dev;
                                    destroyed := false |}]) s),
   new_BrowserWindow id (fst (workAreaSize h)) (snd (workAreaSize h))
   :: loadFile id
   :: (if dev then [openDevTools id] else [])).

(** [initializePty] (main.ts, lines 79-112). *)
Definition initializePty (c r : Z) (s : State) : State * list Call :=
  let s1 := match ptyProcess s with
            | Some i => set_ptys (update_nth i killed (ptys s)) s
            | None => s
            end in
  let t1 := match ptyProcess s with
            | Some i => [pty_kill i]
            | None => []
            end in
  let shell := getDefaultShell h in
  let shellArgs := if String.eqb (platform h) "win32" then [] else ["--login"%string] in
  let id := List.length (ptys s1) in
  (set_ptyProcess (Some id)
     (set_ptys (ptys s1 ++ [{| file := shell; args := shellArgs;
                               name := "xterm-256color";
                               pty_size := pty_spawned c r;
                               cwd := homedir h;
                               status := Running; input := [] |}]) s1),
   t1 ++ [spawn id shell shellArgs c r]).

(** The handlers registered with [ipcMain] (main.ts, lines 115-138). *)
Definition ipc (t : Transport) (channel : string) (a : IpcArgs) (s : State)
  : State * list Call :=
  match handler_of t channel with
  | Some on_init =>
      match a with
      | SizeArgs c r =>
          let res := initializePty c r s in (fst res, snd res ++ [reply_success])
      | _ => (s, [])
      end
  | Some on_input =>
      match a, ptyProcess s with
      | DataArg d, Some i =>
          (set_ptys (update_nth i (with_input d) (ptys s)) s, [pty_write i d])
      | _, _ => (s, [])
      end
  | Some on_resize =>
      match a, ptyProcess s with
      | SizeArgs c r, Some i =>
          match nth_error (ptys s) i with
          | Some p =>
              if resize_throws p c r
              then (s, [pty_resize i c r; console_error])
              else (set_ptys (update_nth i (with_size (mkGridSize c r)) (ptys s)) s,
                    [pty_resize i c r])
          | None => (s, [])
          end
      | _, _ => (s, [])
      end
  | Some on_get_process_id => (s, [reply_pid (ptyProcess s)])
  | None => (s, [])
  end.

(** What Electron, the renderer and node-pty deliver to the main
    process. *)
Inductive Event : Type :=
| EvReady
| EvActivate
| EvWindowResize (win : nat) (width height : Z)
| EvWindowClosed (win : nat)
| EvWindowAllClosed
| EvBeforeQuit
| EvIpc (t : Transport) (channel : string) (a : IpcArgs)
| EvPtyData (id : nat) (d : string)
| EvPtyExit (id : nat) (exitCode : Z) (signal : option Z).

Definition resized (width height : Z) (bw : BrowserWindow) : BrowserWindow :=
  {| contentSize := (width, height); devTools := devTools bw;
     destroyed := destroyed bw |}.

Definition closed (bw : BrowserWindow) : BrowserWindow :=
  {| contentSize := contentSize bw; devTools := devTools bw; destroyed := true |}.

Definition live_window (s : State) (win : nat) : bool :=
  match nth_error (windows s) win with
  | Some bw => negb (destroyed bw)
  | None => false
  end.

Definition step (e : Event) (s : State) : State * list Call :=
  match e with
  | EvReady =>
      if ready s then (s, []) else createWindow (set_ready s)
  | EvActivate =>
      if ready s && forallb destroyed (windows s) then createWindow s else (s, [])
  | EvWindowResize win width height =>
      if live_window s win then
        let s1 := set_windows (update_nth win (resized width height) (windows s)) s in
        match mainWindow s1 with
        | Some m =>
            match nth_error (windows s1) m with
            | Some bw =>
                (s1, [webContents_send m "terminal:resize-window"
                        (SizeArgs (fst (contentSize bw)) (snd (contentSize bw)))])
            | None => (s1, [])
            end
        | None => (s1, [])
        end
      else (s, [])
  | EvWindowClosed win =>
      if live_window s win then
        kill_and_forget
          (set_mainWindow None
             (set_windows (update_nth win closed (windows s)) s))
      else (s, [])
  | EvWindowAllClosed =>
      if String.eqb (platform h) "darwin" then (s, []) else (s, [app_quit])
  | EvBeforeQuit => kill_and_forget s
  | EvIpc t channel a => ipc t channel a s
  | EvPtyData id d =>
      match nth_error (ptys s) id, window_alive s with
      | Some _, Some w => (s, [webContents_send w "terminal:data" (DataArg d)])
      | _, _ => (s, [])
      end
  | EvPtyExit id exitCode signal =>
      match nth_error (ptys s) id with
      | Some p =>
          match status p with
          | Exited => (s, [])
          | _ =>
              (set_ptyProcess None
                 (set_ptys (update_nth id (with_status Exited) (ptys s)) s),
               console_log exitCode signal
               :: match window_alive s with
                  | Some w => [webContents_send w "terminal:exit"
                                 (ExitArgs exitCode signal)]
                  | None => []
                  end
               ++ [app_quit])
          end
      | None => (s, [])
      end
  end.

Fixpoint run (es : list Event) (s : State) : State * list Call :=
  match es with
  | [] => (s, [])
  | e :: es' =>
      let r1 := step e s in
      let r2 := run es' (fst r1) in
      (fst r2, snd r1 ++ snd r2)
  end.

End WithHost.

End Main.

(* ------------------------------------------------------------------ *)
(** ** The bridge between the two processes (preload.ts) *)

Module Preload.

(** A request as [ipcRenderer] sends it. *)
Record Request : Type := {
  transport : Main.Transport;
  channel : string;
  arguments : Main.IpcArgs
}.

(** The functions of [terminalAPI] that reach the main process
    (preload.ts, lines 57-71), as the calls the renderer makes on them. *)
Definition request (c : App.Call) : option Request :=
  match c with
  | App.terminalAPI_init c r =>
      Some {| transport := Main.Invoke; channel := "terminal:init";
              arguments := Main.SizeArgs c r |}
  | App.terminalAPI_write d =>
      Some {| transport := Main.Send; channel := "terminal:input";
              arguments := Main.DataArg d |}
  | App.terminalAPI_resize c r =>
      Some {| transport := Main.Send; channel := "terminal:resize";
              arguments := Main.SizeArgs c r |}
  | _ => None
  end.

(** [getProcessId] (preload.ts, lines 69-71), which renderer.ts never
    calls. *)
Definition getProcessId : Request :=
  {| transport := Main.Invoke; channel := "terminal:get-process-id";
     arguments := Main.NoArgs |}.

(** The listeners [onData], [onExit] and [onWindowResize] put on
    [ipcRenderer] (preload.ts, lines 73-111): what a message of the main
    process becomes for the renderer, if some function of [terminalAPI]
    listens on its channel. *)
Definition deliver (channel : string) (payload : Main.IpcArgs) : option App.Event :=
  if String.eqb channel "terminal:data" then
    match payload with
    | Main.DataArg d => Some (App.EvPtyData d)
    | _ => None
    end
  else if String.eqb channel "terminal:exit" then
    match payload with
    | Main.ExitArgs exitCode _ => Some (App.EvPtyExit exitCode)
    | _ => None
    end
  else if String.eqb channel "terminal:resize-window" then
    match payload with
    | Main.SizeArgs _ _ => Some App.EvIpcWindowResize
    | _ => None
    end
  else None.

End Preload.

(** The messages to the renderer among the calls of the main process. *)
Definition sent (t : list Main.Call) : list (string * Main.IpcArgs) :=
  flat_map (fun c => match c with
                     | Main.webContents_send _ channel payload => [(channel, payload)]
                     | _ => []
                     end) t.

(** A request that reaches the handler of "terminal:init". *)
Definition is_init_request (e : Main.Event) : bool :=
  match e with
  | Main.EvIpc t channel _ =>
      match Main.handler_of t channel with
      | Some Main.on_init => true
      | _ => false
      end
  | _ => false
  end.

(** How often the renderer asked for a PTY in a run of the main process. *)
Definition init_requests (es : list Main.Event) : nat :=
  List.length (filter is_init_request es).

(** No PTY has been spawned yet. *)
Definition Unspawned (s : Main.State) : Prop :=
  Main.ptys s = [] /\ Main.ptyProcess s = None.

(** One PTY has been spawned, and the main process refers to it exactly
    while it runs. *)
Definition Sole (s : Main.State) : Prop :=
  exists p : Main.Pty,
    Main.ptys s = [p]
    /\ ((Main.ptyProcess s = Some 0%nat /\ Main.status p = Main.Running)
        \/ (Main.ptyProcess s = None /\ Main.status p <> Main.Running)).

(** The PTY the main process refers to exists and is running. *)
Definition Referenced_running (s : Main.State) : Prop :=
  match Main.ptyProcess s with
  | Some i => exists p, nth_error (Main.ptys s) i = Some p
                        /\ Main.status p = Main.Running
  | None => True
  end.

(** No PTY runs that the main process does not refer to. *)
Definition No_orphan (s : Main.State) : Prop :=
  forall (i : nat) (p : Main.Pty),
    nth_error (Main.ptys s) i = Some p -> Main.status p = Main.Running ->
    Main.ptyProcess s = Some i.

(** A host for running the model: Linux, with a shell set. *)
Definition linux_host : Main.Host :=
  {| Main.platform := "linux";
     Main.env := fun k => if String.eqb k "SHELL" then Some "/bin/zsh"%string else None;
     Main.homedir := "/home/user";
     Main.workAreaSize := (1280, 720) |}.

(** node-pty as it treats sizes: no resize to a size that is not
    positive. *)
Definition strict_resize (p : Main.Pty) (c r : Z) : bool :=
  (c <=? 0) || (r <=? 0).

(** The PTY a call of the main process is made on. *)
Definition pty_target (c : Main.Call) : option nat :=
  match c with
  | Main.pty_write i _ => Some i
  | Main.pty_resize i _ _ => Some i
  | _ => None
  end.

(** The request a call of the renderer becomes for the main process. *)
Definition forward (c : App.Call) : option Main.Event :=
  match Preload.request c with
  | Some m => Some (Main.EvIpc (Preload.transport m) (Preload.channel m)
                      (Preload.arguments m))
  | None => None
  end.

(** The main process receives, in order, the requests among the calls of
    the renderer. *)
Fixpoint main_receives (h : Main.Host) (resize_throws : Main.Pty -> Z -> Z -> bool)
  (t : list App.Call) (s : Main.State) : Main.State * list Main.Call :=
  match t with
  | [] => (s, [])
  | c :: t' =>
      match forward c with
      | Some e =>
          let r1 := Main.step h resize_throws e s in
          let r2 := main_receives h resize_throws t' (fst r1) in
          (fst r2, snd r1 ++ snd r2)
      | None => main_receives h resize_throws t' s
      end
  end.

(** The renderer receives, in order, the messages of the main process
    that some function of [terminalAPI] listens for. *)
Fixpoint renderer_receives `{GlyphAtlas} (msgs : list (string * Main.IpcArgs))
  (w : App.World) : App.World * list App.Call :=
  match msgs with
  | [] => (w, [])
  | (channel, payload) :: msgs' =>
      match Preload.deliver channel payload with
      | Some e =>
          let r1 := App.step e w in
          let r2 := renderer_receives msgs' (App.state r1) in
          (fst r2, App.trace r1 ++ snd r2)
      | None => renderer_receives msgs' w
      end
  end.

(** The main process after the renderer asked twice for a PTY. *)
Definition twice_initialised : Main.State :=
  fst (Main.run linux_host strict_resize
         [Main.EvReady;
          Main.EvIpc Main.Invoke "terminal:init" (Main.SizeArgs 80 24);
          Main.EvIpc Main.Invoke "terminal:init" (Main.SizeArgs 100 30)]
         Main.initial).

(** The main process after start-up and one request for a PTY. *)
Definition main_started : Main.State :=
  fst (Main.run linux_host strict_resize
         [Main.EvReady;
          Main.EvIpc Main.Invoke "terminal:init" (Main.SizeArgs 80 30)]
         Main.initial).

(** The window a message of the main process is sent to. *)
Definition send_target (c : Main.Call) : option nat :=
  match c with
  | Main.webContents_send win _ _ => Some win
  | _ => None
  end.

(** The main window is the only window there is: before the application
    is ready there is none, and afterwards a window is alive exactly when
    [mainWindow] refers to it. *)
Definition One_window (s : Main.State) : Prop :=
  (Main.ready s = false -> Main.windows s = [])
  /\ (forall m : nat, Main.live_window s m = true <-> Main.mainWindow s = Some m).

(* ================================================================== *)
(** * Part II: properties *)
(* ================================================================== *)

(** ** The monad *)

Lemma state_bind {A B : Type} (m : App.M A) (k : A -> App.M B) (w : App.World) :
  App.state (App.bind m k w) = App.state (k (App.value (m w)) (App.state (m w))).
Proof. reflexivity. Qed.

Lemma trace_bind {A B : Type} (m : App.M A) (k : A -> App.M B) (w : App.World) :
  App.trace (App.bind m k w)
  = App.trace (m w) ++ App.trace (k (App.value (m w)) (App.state (m w))).
Proof. reflexivity. Qed.

Lemma run_app (es1 es2 : list App.Event) `{GlyphAtlas} (w : App.World) :
  App.state (App.run (es1 ++ es2) w) = App.state (App.run es2 (App.state (App.run es1 w)))
  /\ App.trace (App.run (es1 ++ es2) w)
     = App.trace (App.run es1 w) ++ App.trace (App.run es2 (App.state (App.run es1 w))).
Proof.
  revert w. induction es1 as [|e es1 IH]; intros w.
  - split; reflexivity.
  - cbn [app]. unfold App.run in *. cbn [App.forEach].
    rewrite !state_bind, !trace_bind.
    destruct (IH (App.state (App.step e w))) as [Hs Ht].
    rewrite Hs, Ht, app_assoc. split; reflexivity.
Qed.

(** ** Computations that make no render-loop call *)

Section Silent.

Lemma silent_ret {A : Type} (a : A) : silent (App.ret a).
Proof. intros w. reflexivity. Qed.

Lemma silent_get : silent App.get.
Proof. intros w. reflexivity. Qed.

Lemma silent_modify (f : App.World -> App.World) : silent (App.modify f).
Proof. intros w. reflexivity. Qed.

Lemma silent_call (c : App.Call) : is_tick_call c = false -> silent (App.call c).
Proof. intros Hc w. cbn. rewrite Hc. reflexivity. Qed.

Lemma silent_bind {A B : Type} (m : App.M A) (k : A -> App.M B) :
  silent m -> (forall a, silent (k a)) -> silent (App.bind m k).
Proof.
  intros Hm Hk w. rewrite trace_bind, filter_app, Hm, Hk. reflexivity.
Qed.

Lemma silent_if {A : Type} (b : bool) (m1 m2 : App.M A) :
  silent m1 -> silent m2 -> silent (if b then m1 else m2).
Proof. destruct b; auto. Qed.

Lemma silent_when (b : bool) (m : App.M unit) : silent m -> silent (App.when b m).
Proof. intros Hm. destruct b; [exact Hm | apply silent_ret]. Qed.

Lemma silent_forEach {A : Type} (l : list A) (body : A -> App.M unit) :
  (forall a, silent (body a)) -> silent (App.forEach l body).
Proof.
  intros Hb. induction l as [|a l IH]; cbn [App.forEach].
  - apply silent_ret.
  - apply silent_bind; auto.
Qed.

Lemma silent_times (n : nat) (body : App.M unit) :
  silent body -> silent (App.times n body).
Proof.
  intros Hb. induction n as [|n IH]; cbn [App.times].
  - apply silent_ret.
  - apply silent_bind; auto.
Qed.

Lemma silent_performance_now : silent App.performance_now.
Proof. intros w. reflexivity. Qed.

Lemma silent_cancelAnimationFrame (id : nat) : silent (App.cancelAnimationFrame id).
Proof. intros w. reflexivity. Qed.

Lemma silent_request_dispatchResize :
  silent (App.requestAnimationFrame App.cb_dispatchResize).
Proof. intros w. reflexivity. Qed.

End Silent.

Create HintDb silent.
#[local] Hint Resolve silent_ret silent_get silent_modify silent_bind
  silent_if silent_when silent_forEach silent_times silent_performance_now
  silent_cancelAnimationFrame silent_request_dispatchResize : silent.
#[local] Hint Extern 1 (silent (App.call _)) =>
  (apply silent_call; reflexivity) : silent.

(** Breaks a computation into its parts: binds, branches and loops. *)
Ltac split_program lem_bind lem_if lem_when lem_forEach lem_times :=
  repeat first
    [ apply lem_bind; [ | intro ]
    | apply lem_if
    | apply lem_when
    | apply lem_forEach; intro
    | apply lem_times
    | match goal with
      | |- context [match ?x with Some _ => _ | None => _ end] => destruct x
      | |- context [match ?x with [] => _ | _ :: _ => _ end] => destruct x
      | |- context [match ?x with
                    | App.init_awaits => _
                    | App.DOMContentLoaded_awaits_init => _
                    end] => destruct x
      end
    | progress cbv zeta ].

Ltac silent_tac :=
  split_program @silent_bind @silent_if silent_when @silent_forEach silent_times;
  auto with silent.

Section SilentMethods.
Context `{GlyphAtlas}.

Lemma silent_xterm_do_resize (c r : Z) : silent (App.xterm_do_resize c r).
Proof. unfold App.xterm_do_resize. silent_tac. Qed.

Lemma silent_gridSizeChanged (c r : Z) : silent (App.gridSizeChanged c r).
Proof.
  unfold App.gridSizeChanged. pose proof silent_xterm_do_resize. silent_tac.
Qed.

Lemma silent_handleResize : silent App.handleResize.
Proof.
  pose proof silent_xterm_do_resize. pose proof silent_gridSizeChanged.
  unfold App.handleResize, App.terminalText_do_updateSize. silent_tac.
Qed.

Lemma silent_dispatchResize : silent App.dispatchResize.
Proof.
  pose proof silent_handleResize. unfold App.dispatchResize. silent_tac.
Qed.

Lemma silent_ipcWindowResized : silent App.ipcWindowResized.
Proof.
  pose proof silent_handleResize.
  unfold App.ipcWindowResized, App.terminalAPI_do_resize. silent_tac.
Qed.

Lemma silent_init_until_await : silent App.init_until_await.
Proof.
  pose proof silent_xterm_do_resize.
  unfold App.init_until_await, App.terminalAPI_do_init. silent_tac.
Qed.

Lemma silent_init_after_await : silent App.init_after_await.
Proof.
  unfold App.init_after_await, App.terminalAPI_do_onData,
    App.terminalAPI_do_onExit, App.terminalAPI_do_onWindowResize,
    App.xterm_do_onData, App.xterm_do_focus, App.push_cleanup.
  silent_tac.
Qed.

Lemma silent_resume (s : App.Suspended) : silent (App.resume s).
Proof.
  pose proof silent_init_after_await.
  unfold App.resume, App.DOMContentLoaded_resume. silent_tac.
Qed.

Lemma silent_run_cleanup (c : App.Cleanup) : silent (App.run_cleanup c).
Proof. unfold App.run_cleanup. silent_tac. Qed.

Lemma silent_dispose : silent App.dispose.
Proof.
  pose proof silent_run_cleanup.
  unfold App.dispose, App.stopAnimationLoop, App.runCleanupFunctions,
    App.disposeConnector, App.disposeThreeResources,
    App.removeRendererFromDom, App.window_removeEventListener,
    App.xterm_do_dispose.
  silent_tac.
Qed.

End SilentMethods.

(** ** Computations that leave part of the world alone *)

Section Preserves.
Context {B : Type} (f : App.World -> B).

Lemma keeps_bind {A C : Type} (m : App.M A) (k : A -> App.M C) (w : App.World) :
  f (App.state (m w)) = f w ->
  f (App.state (k (App.value (m w)) (App.state (m w)))) = f (App.state (m w)) ->
  f (App.state (App.bind m k w)) = f w.
Proof. intros H1 H2. rewrite state_bind. congruence. Qed.

Lemma preserves_forEach {A : Type} (l : list A) (body : A -> App.M unit) :
  (forall a, preserves f (body a)) -> preserves f (App.forEach l body).
Proof.
  intros Hb. induction l as [|a l IH]; intros w; cbn [App.forEach].
  - reflexivity.
  - apply keeps_bind; [apply Hb | apply IH].
Qed.

Lemma preserves_times (n : nat) (body : App.M unit) :
  preserves f body -> preserves f (App.times n body).
Proof.
  intros Hb. induction n as [|n IH]; intros w; cbn [App.times].
  - reflexivity.
  - apply keeps_bind; [apply Hb | apply IH].
Qed.

End Preserves.

(** Walks through a computation at a given world, one call at a time;
    what is left are the steps that need an argument of their own. *)
Ltac keeps_tac f :=
  repeat first
    [ reflexivity
    | match goal with
      | |- preserves f _ => let w := fresh "w" in intro w; cbv beta
      end
    | match goal with
      | H : preserves f ?m |- f (App.state (?m ?w)) = _ => apply H
      | H : forall a, preserves f (?m a) |- f (App.state (?m ?x ?w)) = _ => apply H
      | H : forall a b, preserves f (?m a b) |- f (App.state (?m ?x ?y ?w)) = _ => apply H
      end
    | apply (keeps_bind f);
        [ | cbv beta;
            cbn [App.value App.state App.get App.modify App.call App.ret
                 App.performance_now fst snd] ]
    | match goal with
      | |- f (App.state ((if ?b then _ else _) _)) = _ => destruct b
      | |- f (App.state (App.when ?b _ _)) = _ => destruct b; cbn [App.when]
      | |- f (App.state (match ?x with Some _ => _ | None => _ end _)) = _ =>
          destruct x
      | |- f (App.state (match ?x with [] => _ | _ :: _ => _ end _)) = _ =>
          destruct x
      | |- f (App.state (match ?x with
                         | App.init_awaits => _
                         | App.DOMContentLoaded_awaits_init => _
                         end _)) = _ =>
          destruct x
      | |- f (App.state (App.forEach _ _ _)) = _ =>
          apply (preserves_forEach f); intro
      | |- f (App.state (App.times _ _ _)) = _ => apply (preserves_times f)
      end
    | progress cbv zeta ].

Lemma updateSize_flags `{GlyphAtlas} (width height : Z) (rz : Rasterizer.t) :
  Rasterizer.disposed (fst (Rasterizer.updateSize width height rz)) = Rasterizer.disposed rz
  /\ Rasterizer.released (fst (Rasterizer.updateSize width height rz)) = Rasterizer.released rz.
Proof.
  unfold Rasterizer.updateSize.
  destruct (GridSize_eqb _ _); split; reflexivity.
Qed.

Section LoopState.
Context `{GlyphAtlas}.

Lemma loop_xterm_do_resize (c r : Z) : preserves loop_state (App.xterm_do_resize c r).
Proof. intros w. unfold App.xterm_do_resize. keeps_tac loop_state. Qed.

Lemma loop_gridSizeChanged (c r : Z) : preserves loop_state (App.gridSizeChanged c r).
Proof.
  pose proof loop_xterm_do_resize.
  intros w. unfold App.gridSizeChanged. keeps_tac loop_state.
Qed.

Lemma loop_handleResize : preserves loop_state App.handleResize.
Proof.
  pose proof loop_xterm_do_resize. pose proof loop_gridSizeChanged.
  intros w. unfold App.handleResize, App.terminalText_do_updateSize.
  keeps_tac loop_state.
Qed.

Lemma loop_dispatchResize : preserves loop_state App.dispatchResize.
Proof.
  pose proof loop_handleResize.
  intros w. unfold App.dispatchResize. keeps_tac loop_state.
Qed.

Lemma loop_ipcWindowResized : preserves loop_state App.ipcWindowResized.
Proof.
  pose proof loop_handleResize.
  intros w. unfold App.ipcWindowResized, App.terminalAPI_do_resize.
  keeps_tac loop_state.
Qed.

Lemma loop_init_until_await : preserves loop_state App.init_until_await.
Proof.
  pose proof loop_xterm_do_resize.
  intros w. unfold App.init_until_await, App.terminalAPI_do_init.
  keeps_tac loop_state.
Qed.

Lemma loop_init_after_await : preserves loop_state App.init_after_await.
Proof.
  intros w.
  unfold App.init_after_await, App.terminalAPI_do_onData,
    App.terminalAPI_do_onExit, App.terminalAPI_do_onWindowResize,
    App.xterm_do_onData, App.xterm_do_focus, App.push_cleanup.
  keeps_tac loop_state.
Qed.

Lemma loop_run_cleanup (c : App.Cleanup) : preserves loop_state (App.run_cleanup c).
Proof.
  intros w. unfold App.run_cleanup. keeps_tac loop_state.
  destruct c; reflexivity.
Qed.

End LoopState.

Section Components.
Context `{GlyphAtlas}.

Lemma comp_xterm_do_resize (c r : Z) : preserves components (App.xterm_do_resize c r).
Proof. intros w. unfold App.xterm_do_resize. keeps_tac components. Qed.

Lemma comp_gridSizeChanged (c r : Z) : preserves components (App.gridSizeChanged c r).
Proof.
  pose proof comp_xterm_do_resize.
  intros w. unfold App.gridSizeChanged. keeps_tac components.
Qed.

Lemma comp_updateSize (width height : Z) (w : App.World) :
  components
    (App.set_terminalText
       (fst (Rasterizer.updateSize width height (App.terminalText w))) w)
  = components w.
Proof.
  unfold components. cbn.
  destruct (updateSize_flags width height (App.terminalText w)) as [-> ->].
  reflexivity.
Qed.

Lemma comp_handleResize : preserves components App.handleResize.
Proof.
  pose proof comp_xterm_do_resize. pose proof comp_gridSizeChanged.
  intros w. unfold App.handleResize, App.terminalText_do_updateSize.
  keeps_tac components. apply comp_updateSize.
Qed.

Lemma comp_dispatchResize : preserves components App.dispatchResize.
Proof.
  pose proof comp_handleResize.
  intros w. unfold App.dispatchResize. keeps_tac components.
Qed.

Lemma comp_ipcWindowResized : preserves components App.ipcWindowResized.
Proof.
  pose proof comp_handleResize.
  intros w. unfold App.ipcWindowResized, App.terminalAPI_do_resize.
  keeps_tac components.
Qed.

Lemma comp_init_until_await : preserves components App.init_until_await.
Proof.
  pose proof comp_xterm_do_resize.
  intros w. unfold App.init_until_await, App.terminalAPI_do_init.
  keeps_tac components.
Qed.

Lemma comp_init_after_await : preserves components App.init_after_await.
Proof.
  intros w.
  unfold App.init_after_await, App.terminalAPI_do_onData,
    App.terminalAPI_do_onExit, App.terminalAPI_do_onWindowResize,
    App.xterm_do_onData, App.xterm_do_focus, App.push_cleanup.
  keeps_tac components.
Qed.

Lemma comp_resume (s : App.Suspended) : preserves components (App.resume s).
Proof.
  pose proof comp_init_after_await.
  intros w. unfold App.resume, App.DOMContentLoaded_resume.
  keeps_tac components.
Qed.

Lemma comp_animate : preserves components App.animate.
Proof. intros w. unfold App.animate. keeps_tac components. Qed.

Lemma comp_run_frame_callback (e : nat * App.FrameCallback) :
  preserves components (App.run_frame_callback e).
Proof.
  intros w. unfold App.run_frame_callback.
  destruct (snd e); [apply comp_animate | apply comp_dispatchResize].
Qed.

Lemma comp_step (e : App.Event) :
  e <> App.EvDispose -> preserves components (App.step e).
Proof.
  pose proof comp_run_frame_callback. pose proof comp_dispatchResize.
  pose proof comp_ipcWindowResized. pose proof comp_init_until_await.
  pose proof comp_resume.
  intros He w. destruct e; try congruence;
    unfold App.step, App.ptyExited, App.await, App.settle;
    keeps_tac components.
Qed.

End Components.

(** ** [dispose()], block by block *)

Section Dispose.

(** The blocks after the cleanup functions: connector, Three.js
    resources, DOM node, XTerm. *)
Local Notation "'release' w" :=
  (App.state (App.xterm_do_dispose
     (App.state (App.removeRendererFromDom
        (App.state (App.disposeThreeResources
           (App.state (App.disposeConnector w))))))))
  (at level 10, w at level 9).

Lemma dispose_blocks (w : App.World) :
  App.state (App.dispose w)
  = release (App.state (App.runCleanupFunctions
      (App.state (App.window_removeEventListener
         (App.state (App.stopAnimationLoop w)))))).
Proof. unfold App.dispose. rewrite !state_bind. reflexivity. Qed.

Lemma stop_forgets (w : App.World) :
  App.animationFrameId (App.state (App.stopAnimationLoop w)) = None.
Proof.
  unfold App.stopAnimationLoop. rewrite state_bind.
  cbn [App.value App.state App.get fst snd].
  destruct (App.animationFrameId w) eqn:E; [ reflexivity | exact E ].
Qed.

Lemma cleanup_loop (w : App.World) :
  outside_listeners (App.state (App.runCleanupFunctions w)) = outside_listeners w
  /\ App.cleanupFunctions (App.state (App.runCleanupFunctions w)) = [].
Proof.
  unfold App.runCleanupFunctions. rewrite !state_bind.
  cbn [App.value App.state App.get App.modify fst snd].
  split; [ | reflexivity ].
  change (outside_listeners
            (App.state (App.forEach (App.cleanupFunctions w) App.run_cleanup w))
          = outside_listeners w).
  apply preserves_forEach. intros c v.
  unfold App.run_cleanup. keeps_tac outside_listeners.
  destruct c; reflexivity.
Qed.

Lemma release_Disposed (w : App.World) :
  App.animationFrameId w = None ->
  App.resizeListener (App.window w) = false ->
  App.cleanupFunctions w = [] ->
  Disposed (release w).
Proof.
  intros Ha Hr Hc.
  destruct w as [afid conn cf [sz gr tx vp tm dt ls dsp rel]
                 [d1 r1] [d2 r2] dom [xs xo xf [d3 r3]] win ap].
  cbn in Ha, Hr, Hc. subst.
  destruct conn, dom, dsp, d1, d2, d3; unfold Disposed; cbn;
    repeat split; assumption.
Qed.

Lemma release_loop_state (w : App.World) : loop_state (release w) = loop_state w.
Proof.
  destruct w as [afid conn cf tt tf rd dom xt win ap].
  destruct conn, dom; reflexivity.
Qed.

Lemma release_Counted (w : App.World) :
  Counted w ->
  Counted (release w)
  /\ Rasterizer.released (App.terminalText (release w)) = 1%nat
  /\ App.released (App.terminalFrame (release w)) = 1%nat
  /\ App.released (App.renderer (release w)) = 1%nat
  /\ App.released (App.x_self (App.xterm (release w))) = 1%nat.
Proof.
  destruct w as [afid conn cf [sz gr tx vp tm dt ls dsp rel]
                 [d1 r1] [d2 r2] dom [xs xo xf [d3 r3]] win ap].
  unfold Counted, counted. cbn. intros (H0 & H1 & H2 & H3).
  destruct conn, dom, dsp, d1, d2, d3; cbn; subst; repeat split; reflexivity.
Qed.

Lemma dispose_Disposed (w : App.World) : Disposed (App.state (App.dispose w)).
Proof.
  rewrite dispose_blocks.
  pose proof (stop_forgets w) as Ha.
  set (w1 := App.state (App.stopAnimationLoop w)) in *. clearbody w1.
  assert (Ha2 : App.animationFrameId
                  (App.state (App.window_removeEventListener w1)) = None)
    by exact Ha.
  assert (Hr2 : App.resizeListener (App.window
                  (App.state (App.window_removeEventListener w1))) = false)
    by reflexivity.
  set (w2 := App.state (App.window_removeEventListener w1)) in *. clearbody w2.
  destruct (cleanup_loop w2) as [Hout Hc].
  set (w3 := App.state (App.runCleanupFunctions w2)) in *. clearbody w3.
  unfold outside_listeners in Hout.
  injection Hout as E1 E2 E3 E4 E5 E6 E7 E8.
  apply release_Disposed; congruence.
Qed.

Lemma dispose_again (w : App.World) :
  Disposed w -> App.dispose w = (tt, w, second_dispose_calls).
Proof.
  destruct w as [afid conn cf [sz gr tx vp tm dt ls dsp rel]
                 [d1 r1] [d2 r2] dom [xs xo xf [d3 r3]]
                 [iw ih rl fr nf ck] ap].
  unfold Disposed. cbn.
  intros (H1 & H2 & H3 & H4 & H5 & H6 & H7 & H8 & H9). subst.
  reflexivity.
Qed.

Lemma stop_components (w : App.World) :
  components (App.state (App.window_removeEventListener
                (App.state (App.stopAnimationLoop w))))
  = components w.
Proof.
  unfold App.stopAnimationLoop. rewrite state_bind.
  cbn [App.value App.state App.get fst snd].
  destruct (App.animationFrameId w); reflexivity.
Qed.

Lemma dispose_Counted (w : App.World) :
  Counted w ->
  Counted (App.state (App.dispose w))
  /\ Rasterizer.released (App.terminalText (App.state (App.dispose w))) = 1%nat
  /\ App.released (App.terminalFrame (App.state (App.dispose w))) = 1%nat
  /\ App.released (App.renderer (App.state (App.dispose w))) = 1%nat
  /\ App.released (App.x_self (App.xterm (App.state (App.dispose w)))) = 1%nat.
Proof.
  intros Hw. rewrite dispose_blocks. apply release_Counted.
  pose proof (stop_components w) as E.
  set (w2 := App.state (App.window_removeEventListener _)) in *. clearbody w2.
  destruct (cleanup_loop w2) as [Hout _].
  set (w3 := App.state (App.runCleanupFunctions w2)) in *. clearbody w3.
  unfold outside_listeners in Hout. unfold Counted, counted, components in *.
  injection Hout as E1 E2 E3 E4 E5 E6 E7 E8.
  injection E as F1 F2 F3 F4 F5 F6.
  rewrite E3, E4, E5, E7, F1, F2, F3, F4, F5. exact Hw.
Qed.

End Dispose.

(** ** The render loop: what is pending, what is remembered *)

Lemma filter_filter_comm {A : Type} (p q : A -> bool) (l : list A) :
  filter p (filter q l) = filter q (filter p l).
Proof.
  induction l as [|a l IH]; [reflexivity|].
  cbn [filter]. destruct (q a) eqn:Hq, (p a) eqn:Hp; cbn [filter];
    rewrite ?Hq, ?Hp, IH; reflexivity.
Qed.

Lemma pending_ticks_ext (w w' : App.World) :
  loop_state w' = loop_state w -> pending_ticks w' = pending_ticks w.
Proof.
  unfold loop_state, pending_ticks. intros E. injection E as E1 E2 E3.
  rewrite E1. reflexivity.
Qed.

Lemma Tracked_ext (w w' : App.World) :
  loop_state w' = loop_state w -> Tracked w -> Tracked w'.
Proof.
  intros E Hw. unfold Tracked. rewrite (pending_ticks_ext _ _ E).
  unfold loop_state in E. injection E as E1 E2 E3. rewrite E3. exact Hw.
Qed.

Lemma Halted_ext (w w' : App.World) :
  loop_state w' = loop_state w -> Halted w -> Halted w'.
Proof.
  intros E [Ha Hp]. unfold Halted. rewrite (pending_ticks_ext _ _ E).
  unfold loop_state in E. injection E as E1 E2 E3. rewrite E3. split; assumption.
Qed.

Lemma Halted_Tracked (w : App.World) : Halted w -> Tracked w.
Proof. intros [Ha Hp]. unfold Tracked. rewrite Ha, Hp. reflexivity. Qed.

Lemma ticks_loop_state (w w' : App.World) :
  loop_state w' = loop_state w -> tick_state w' = tick_state w.
Proof.
  intros E. unfold tick_state. rewrite (pending_ticks_ext _ _ E).
  unfold loop_state in E. injection E as E1 E2 E3. rewrite E3. reflexivity.
Qed.

Lemma Tracked_ticks (w w' : App.World) :
  tick_state w' = tick_state w -> Tracked w -> Tracked w'.
Proof.
  unfold tick_state, Tracked. intros E Hw. injection E as E1 E2.
  rewrite E1, E2. exact Hw.
Qed.

Lemma Halted_ticks (w w' : App.World) :
  tick_state w' = tick_state w -> Halted w -> Halted w'.
Proof.
  unfold tick_state, Halted. intros E Hw. injection E as E1 E2.
  rewrite E1, E2. exact Hw.
Qed.

Lemma animate_trace (w : App.World) :
  App.trace (App.animate w)
  = [App.terminalText_updateTime (App.clock (App.window w));
     App.terminalText_renderStaticPass;
     App.window_requestAnimationFrame App.cb_animate (App.nextFrameId (App.window w));
     App.renderer_render].
Proof. reflexivity. Qed.

Lemma animate_loop_state (w : App.World) :
  loop_state (App.state (App.animate w))
  = (App.frames (App.window w) ++ [(App.nextFrameId (App.window w), App.cb_animate)],
     S (App.nextFrameId (App.window w)),
     Some (App.nextFrameId (App.window w))).
Proof. reflexivity. Qed.

Lemma animate_Tracked (w : App.World) :
  pending_ticks w = [] -> Tracked (App.state (App.animate w)).
Proof.
  intros Hp. unfold Tracked, pending_ticks in *.
  change (App.frames (App.window (App.state (App.animate w))))
    with (App.frames (App.window w)
          ++ [(App.nextFrameId (App.window w), App.cb_animate)]).
  change (App.animationFrameId (App.state (App.animate w)))
    with (Some (App.nextFrameId (App.window w))).
  rewrite filter_app, Hp. reflexivity.
Qed.

Section RenderLoop.
Context `{GlyphAtlas}.

Lemma callback_not_animate (e : nat * App.FrameCallback) :
  is_animate e = false -> App.run_frame_callback e = App.dispatchResize.
Proof.
  unfold is_animate, App.run_frame_callback.
  destruct (snd e); [discriminate | reflexivity].
Qed.

Lemma callback_animate (e : nat * App.FrameCallback) :
  is_animate e = true -> App.run_frame_callback e = App.animate.
Proof.
  unfold is_animate, App.run_frame_callback.
  destruct (snd e); [reflexivity | discriminate].
Qed.

(** Callbacks other than [animate] leave the render loop as it is. *)
Lemma other_callbacks_loop_state (l : list (nat * App.FrameCallback)) :
  filter is_animate l = [] ->
  preserves loop_state (App.forEach l App.run_frame_callback).
Proof.
  induction l as [|e l IH]; intros Hl w; cbn [App.forEach].
  - reflexivity.
  - cbn [filter] in Hl. destruct (is_animate e) eqn:He; [discriminate|].
    apply keeps_bind.
    + rewrite (callback_not_animate e He). apply loop_dispatchResize.
    + apply IH, Hl.
Qed.

Lemma other_callbacks_silent (l : list (nat * App.FrameCallback)) :
  filter is_animate l = [] ->
  silent (App.forEach l App.run_frame_callback).
Proof.
  induction l as [|e l IH]; intros Hl; cbn [App.forEach].
  - apply silent_ret.
  - cbn [filter] in Hl. destruct (is_animate e) eqn:He; [discriminate|].
    apply silent_bind; [ | intros _; apply IH, Hl ].
    rewrite (callback_not_animate e He). apply silent_dispatchResize.
Qed.

(** One pending [animate] among the callbacks of a frame: after the
    frame, the request it made is the one pending and remembered. *)
Lemma one_animate_Tracked (l : list (nat * App.FrameCallback)) :
  forall (e : nat * App.FrameCallback) (w : App.World),
    filter is_animate l = [e] ->
    pending_ticks w = [] ->
    Tracked (App.state (App.forEach l App.run_frame_callback w)).
Proof.
  induction l as [|e' l IH]; intros e w Hl Hp; cbn [App.forEach].
  - discriminate.
  - rewrite state_bind. cbn [filter] in Hl.
    destruct (is_animate e') eqn:He.
    + injection Hl as _ Hl.
      rewrite (callback_animate e' He).
      apply (Tracked_ext (App.state (App.animate w))).
      * apply other_callbacks_loop_state, Hl.
      * apply animate_Tracked, Hp.
    + apply (IH e); [exact Hl|].
      rewrite (callback_not_animate e' He).
      rewrite (pending_ticks_ext w); [exact Hp | apply loop_dispatchResize].
Qed.

(** The calls of the render loop in any frame come in whole
    iterations. *)
Lemma callbacks_FrameBlocks (l : list (nat * App.FrameCallback)) (w : App.World) :
  FrameBlocks (filter is_tick_call
                 (App.trace (App.forEach l App.run_frame_callback w))).
Proof.
  revert w. induction l as [|e l IH]; intros w; cbn [App.forEach].
  - constructor.
  - rewrite trace_bind, filter_app.
    destruct (is_animate e) eqn:He.
    + rewrite (callback_animate e He), animate_trace.
      cbn [filter is_tick_call app]. constructor. apply IH.
    + rewrite (callback_not_animate e He), silent_dispatchResize.
      apply IH.
Qed.

End RenderLoop.

Lemma FrameBlocks_app (t1 t2 : list App.Call) :
  FrameBlocks t1 -> FrameBlocks t2 -> FrameBlocks (t1 ++ t2).
Proof.
  induction 1 as [|now id t Ht IH]; intros H2; cbn [app].
  - exact H2.
  - constructor. apply IH, H2.
Qed.

Lemma cancel_only_tick (id : nat) (l : list (nat * App.FrameCallback)) :
  map fst (filter is_animate l) = [id] ->
  filter is_animate (filter (fun e => negb (Nat.eqb (fst e) id)) l) = [].
Proof.
  intros Hl. rewrite filter_filter_comm.
  destruct (filter is_animate l) as [|[i c] [|e l']]; cbn in Hl; try discriminate.
  injection Hl as ->. cbn. rewrite Nat.eqb_refl. reflexivity.
Qed.

Section Steps.
Context `{GlyphAtlas}.

Lemma stop_Halted (w : App.World) :
  Tracked w -> Halted (App.state (App.stopAnimationLoop w)).
Proof.
  intros Hw. split; [apply stop_forgets|].
  unfold Tracked in Hw. unfold pending_ticks in *.
  unfold App.stopAnimationLoop. rewrite state_bind.
  cbn [App.value App.state App.get fst snd].
  destruct (App.animationFrameId w) as [id|].
  - cbn. apply cancel_only_tick, Hw.
  - cbn. destruct (filter is_animate (App.frames (App.window w)));
      [reflexivity | discriminate].
Qed.

Lemma loop_runCleanupFunctions : preserves loop_state App.runCleanupFunctions.
Proof.
  pose proof loop_run_cleanup.
  intros w. unfold App.runCleanupFunctions. keeps_tac loop_state.
Qed.

Lemma dispose_Halted (w : App.World) :
  Tracked w -> Halted (App.state (App.dispose w)).
Proof.
  intros Hw. rewrite dispose_blocks.
  apply (Halted_ext (App.state (App.stopAnimationLoop w)));
    [ | apply stop_Halted, Hw ].
  rewrite release_loop_state, loop_runCleanupFunctions. reflexivity.
Qed.

Lemma silent_step (e : App.Event) :
  (forall now, e <> App.EvFrame now) -> silent (App.step e).
Proof.
  pose proof silent_dispatchResize. pose proof silent_ipcWindowResized.
  pose proof silent_init_until_await. pose proof silent_resume.
  pose proof silent_dispose.
  intros He. destruct e; try (exfalso; eapply He; reflexivity);
    unfold App.step, App.ptyExited, App.await, App.settle; silent_tac.
Qed.

Lemma loop_step (e : App.Event) :
  (forall now, e <> App.EvFrame now) -> e <> App.EvInitReply ->
  e <> App.EvDispose ->
  preserves loop_state (App.step e).
Proof.
  pose proof loop_dispatchResize. pose proof loop_ipcWindowResized.
  pose proof loop_init_until_await.
  intros He Hr Hd w. destruct e; try congruence;
    try (exfalso; eapply He; reflexivity);
    unfold App.step, App.ptyExited, App.await, App.settle;
    keeps_tac loop_state.
Qed.

Lemma ticks_request_dispatch (w : App.World) :
  tick_state (App.state (App.requestAnimationFrame App.cb_dispatchResize w))
  = tick_state w.
Proof.
  unfold tick_state, pending_ticks.
  change (App.frames (App.window
            (App.state (App.requestAnimationFrame App.cb_dispatchResize w))))
    with (App.frames (App.window w)
          ++ [(App.nextFrameId (App.window w), App.cb_dispatchResize)]).
  rewrite filter_app. cbn [filter is_animate snd]. rewrite app_nil_r.
  reflexivity.
Qed.

Lemma ticks_resume (s : App.Suspended) : preserves tick_state (App.resume s).
Proof.
  intros w. destruct s; unfold App.resume.
  - apply ticks_loop_state, loop_init_after_await.
  - rewrite state_bind. unfold App.DOMContentLoaded_resume.
    rewrite state_bind. cbn [App.state App.ret fst snd].
    rewrite ticks_request_dispatch.
    apply ticks_loop_state, loop_init_after_await.
Qed.

(** An answer to [terminalAPI.init] leaves the render loop as it is. *)
Lemma ticks_reply : preserves tick_state (App.step App.EvInitReply).
Proof.
  intros w. unfold App.step. rewrite state_bind.
  cbn [App.value App.state App.get fst snd].
  destruct (App.pending (App.api w)) as [|s l]; [ reflexivity | ].
  rewrite state_bind, ticks_resume. reflexivity.
Qed.

Lemma frame_state (now : Z) (w : App.World) :
  App.state (App.step (App.EvFrame now) w)
  = App.state (App.forEach (App.frames (App.window w)) App.run_frame_callback
                 (App.take_frames now w))
  /\ App.trace (App.step (App.EvFrame now) w)
     = App.trace (App.forEach (App.frames (App.window w)) App.run_frame_callback
                    (App.take_frames now w)).
Proof. split; reflexivity. Qed.

Lemma step_FrameBlocks (e : App.Event) (w : App.World) :
  FrameBlocks (filter is_tick_call (App.trace (App.step e w))).
Proof.
  destruct e;
    try (rewrite silent_step; [constructor | discriminate]).
  destruct (frame_state now w) as [_ ->]. apply callbacks_FrameBlocks.
Qed.

Lemma run_FrameBlocks (es : list App.Event) (w : App.World) :
  FrameBlocks (filter is_tick_call (App.trace (App.run es w))).
Proof.
  revert w. induction es as [|e es IH]; intros w.
  - constructor.
  - unfold App.run in *. cbn [App.forEach].
    rewrite trace_bind, filter_app.
    apply FrameBlocks_app; [apply step_FrameBlocks | apply IH].
Qed.

Lemma step_Tracked (e : App.Event) (w : App.World) :
  Tracked w -> Tracked (App.state (App.step e w)).
Proof.
  intros Hw. destruct e;
    try (apply (Tracked_ext w); [apply loop_step; discriminate | exact Hw]).
  - destruct (frame_state now w) as [-> _].
    unfold Tracked, pending_ticks in Hw.
    destruct (filter is_animate (App.frames (App.window w))) as [|e [|e' l]] eqn:Hf.
    + apply (Tracked_ext (App.take_frames now w)).
      * apply other_callbacks_loop_state, Hf.
      * unfold Tracked, pending_ticks. cbn.
        destruct (App.animationFrameId w); [discriminate | reflexivity].
    + apply (one_animate_Tracked _ e); [exact Hf | reflexivity].
    + destruct (App.animationFrameId w); discriminate.
  - apply (Tracked_ticks w); [ apply ticks_reply | exact Hw ].
  - apply Halted_Tracked, dispose_Halted, Hw.
Qed.

Lemma step_Halted (e : App.Event) (w : App.World) :
  Halted w ->
  Halted (App.state (App.step e w))
  /\ filter is_tick_call (App.trace (App.step e w)) = [].
Proof.
  intros Hw. destruct e;
    try (split;
         [ apply (Halted_ext w); [apply loop_step; discriminate | exact Hw]
         | apply silent_step; discriminate ]).
  - destruct (frame_state now w) as [-> ->].
    destruct Hw as [Ha Hp]. unfold pending_ticks in Hp. split.
    + apply (Halted_ext (App.take_frames now w)).
      * apply other_callbacks_loop_state, Hp.
      * split; [exact Ha | reflexivity].
    + apply other_callbacks_silent, Hp.
  - split; [ apply (Halted_ticks w); [ apply ticks_reply | exact Hw ]
           | apply silent_step; discriminate ].
  - split; [ apply dispose_Halted, Halted_Tracked, Hw
           | apply silent_step; discriminate ].
Qed.

Lemma run_Tracked (es : list App.Event) (w : App.World) :
  Tracked w -> Tracked (App.state (App.run es w)).
Proof.
  revert w. induction es as [|e es IH]; intros w Hw.
  - exact Hw.
  - unfold App.run in *. cbn [App.forEach]. rewrite state_bind.
    apply IH, step_Tracked, Hw.
Qed.

Lemma run_Halted (es : list App.Event) (w : App.World) :
  Halted w ->
  Halted (App.state (App.run es w))
  /\ filter is_tick_call (App.trace (App.run es w)) = [].
Proof.
  revert w. induction es as [|e es IH]; intros w Hw.
  - split; [exact Hw | reflexivity].
  - unfold App.run in *. cbn [App.forEach].
    rewrite state_bind, trace_bind, filter_app.
    destruct (step_Halted e w Hw) as [Hs Ht].
    destruct (IH _ Hs) as [Hs' Ht'].
    rewrite Ht, Ht'. split; [exact Hs' | reflexivity].
Qed.

End Steps.

(** ** From start-up on *)

Section Reachable.
Context `{GlyphAtlas}.

Lemma constructor_loop_state (w : App.World) :
  loop_state (App.state (App.constructor w))
  = (App.frames (App.window w) ++ [(App.nextFrameId (App.window w), App.cb_animate)],
     S (App.nextFrameId (App.window w)),
     Some (App.nextFrameId (App.window w))).
Proof.
  unfold App.constructor. rewrite state_bind.
  cbn [App.value App.state App.get fst snd].
  match goal with |- context [App.when ?b _] => destruct b end; reflexivity.
Qed.

Lemma constructor_Counted (w : App.World) :
  Counted w -> Counted (App.state (App.constructor w)).
Proof.
  intros Hw. unfold App.constructor. rewrite state_bind.
  cbn [App.value App.state App.get fst snd].
  match goal with |- context [App.when ?b _] => destruct b end; exact Hw.
Qed.

Lemma constructor_connector (w : App.World) :
  App.connector (App.state (App.constructor w)) = Some App.live.
Proof.
  unfold App.constructor. rewrite state_bind.
  cbn [App.value App.state App.get fst snd].
  match goal with |- context [App.when ?b _] => destruct b end; reflexivity.
Qed.

Lemma boot_state (width height now : Z) :
  App.state (App.boot width height now)
  = App.state (App.await App.DOMContentLoaded_awaits_init
      (App.state (App.init_until_await
         (App.state (App.constructor
            (App.fresh
               {| App.innerWidth := width; App.innerHeight := height;
                  App.resizeListener := false; App.frames := [];
                  App.nextFrameId := 1; App.clock := now |}
               {| App.ptyProcess := None; App.dataListeners := 0;
                  App.exitListeners := 0; App.resizeWindowListeners := 0;
                  App.pending := [] |})))))).
Proof.
  unfold App.boot. cbv zeta. rewrite state_bind. cbv beta.
  rewrite state_bind. reflexivity.
Qed.

Lemma loop_await (s : App.Suspended) : preserves loop_state (App.await s).
Proof. intros w. reflexivity. Qed.

Lemma boot_Tracked (width height now : Z) :
  Tracked (App.state (App.boot width height now)).
Proof.
  rewrite boot_state.
  match goal with
  | |- Tracked (App.state (App.await ?s ?w)) =>
      apply (Tracked_ext w); [apply loop_await|]
  end.
  match goal with
  | |- Tracked (App.state (App.init_until_await ?w)) =>
      apply (Tracked_ext w); [apply loop_init_until_await|]
  end.
  match goal with
  | |- Tracked (App.state (App.constructor ?w)) =>
      pose proof (constructor_loop_state w) as E;
      set (w1 := App.state (App.constructor w)) in *; clearbody w1
  end.
  unfold Tracked, pending_ticks, loop_state in *. cbn in E.
  injection E as E1 E2 E3. rewrite E1, E3. reflexivity.
Qed.

Lemma Counted_ext (w w' : App.World) :
  components w' = components w -> Counted w -> Counted w'.
Proof.
  unfold components, Counted, counted. intros E Hw.
  injection E as E1 E2 E3 E4 E5 E6. rewrite E1, E2, E3, E4, E5. exact Hw.
Qed.

Lemma fresh_Counted (win : App.Window) (ipc : App.Bridge) :
  Counted (App.fresh win ipc).
Proof. unfold Counted, counted. repeat split; reflexivity. Qed.

Lemma init_until_await_Counted (w : App.World) :
  Counted w -> Counted (App.state (App.init_until_await w)).
Proof. apply Counted_ext, comp_init_until_await. Qed.

Lemma await_Counted (s : App.Suspended) (w : App.World) :
  Counted w -> Counted (App.state (App.await s w)).
Proof. apply Counted_ext. reflexivity. Qed.

Lemma boot_Counted (width height now : Z) :
  Counted (App.state (App.boot width height now)).
Proof.
  rewrite boot_state.
  apply await_Counted, init_until_await_Counted, constructor_Counted, fresh_Counted.
Qed.

Lemma step_Counted (e : App.Event) (w : App.World) :
  Counted w -> Counted (App.state (App.step e w)).
Proof.
  intros Hw.
  destruct e;
    try (apply (Counted_ext w); [apply comp_step; discriminate | exact Hw]).
  apply dispose_Counted, Hw.
Qed.

Lemma run_Counted (es : list App.Event) (w : App.World) :
  Counted w -> Counted (App.state (App.run es w)).
Proof.
  revert w. induction es as [|e es IH]; intros w Hw.
  - exact Hw.
  - unfold App.run in *. cbn [App.forEach]. rewrite state_bind.
    apply IH, step_Counted, Hw.
Qed.

End Reachable.

(* ================================================================== *)
(** * Part III: the properties claimed of the program *)
(* ================================================================== *)

(** ** The frame driver *)

(** C1. Every call of [animate] makes exactly these calls, in this order:
    the frame time is advanced, the static pass is rendered, the next tick
    is requested, and only then the main scene is rendered; the time stored
    is the clock's and the request made is the one remembered.  Whatever
    happens to the application, the render-loop calls of the whole run come
    in such iterations. *)
Theorem animate_order `{GlyphAtlas} :
  (forall w : App.World,
      App.trace (App.animate w)
      = [App.terminalText_updateTime (App.clock (App.window w));
         App.terminalText_renderStaticPass;
         App.window_requestAnimationFrame App.cb_animate
           (App.nextFrameId (App.window w));
         App.renderer_render]
      /\ Rasterizer.time (App.terminalText (App.state (App.animate w)))
         = App.clock (App.window w)
      /\ App.animationFrameId (App.state (App.animate w))
         = Some (App.nextFrameId (App.window w)))
  /\ (forall (es : list App.Event) (w : App.World),
         FrameBlocks (filter is_tick_call (App.trace (App.run es w)))).
Proof.
  split.
  - intros w. repeat split; reflexivity.
  - apply run_FrameBlocks.
Qed.

(** ** The grid-size listener *)

Lemma xterm_keeps_positive (c r : Z) :
  0 < r -> xterm_keeps c r = mkGridSize (Z.max c 2) r.
Proof. intros Hr. unfold xterm_keeps. f_equal. lia. Qed.

Lemma pty_spawned_positive (c r : Z) :
  0 < c -> 0 < r -> pty_spawned c r = mkGridSize c r.
Proof.
  intros Hc Hr. unfold pty_spawned.
  replace (c =? 0) with false by (symmetry; apply Z.eqb_neq; lia).
  replace (r =? 0) with false by (symmetry; apply Z.eqb_neq; lia).
  reflexivity.
Qed.

Lemma xterm_do_resize_effect (c r : Z) (w : App.World) :
  App.trace (App.xterm_do_resize c r w) = [App.xterm_resize c r]
  /\ App.x_size (App.xterm (App.state (App.xterm_do_resize c r w)))
     = xterm_keeps c r.
Proof. split; reflexivity. Qed.

(** C2, as the code has it.  When the rasterizer reports a grid of
    positive dimensions and the application still holds its connector (it
    has not been disposed), the terminal emulation is asked to resize to
    that grid and then the connector syncs, in that order, and nothing else
    is called.  The terminal emulation then has the rows of the grid and
    its columns, or the 2 columns XTerm.js keeps when the grid has only
    one. *)
Theorem gridSizeChanged_resizes_then_syncs (w : App.World) (c r : Z) :
  0 < c -> 0 < r -> App.connector w <> None ->
  App.trace (App.gridSizeChanged c r w)
  = [App.xterm_resize c r; App.connector_sync]
  /\ App.x_size (App.xterm (App.state (App.gridSizeChanged c r w)))
     = mkGridSize (Z.max c 2) r.
Proof.
  intros Hc Hr Hconn. unfold App.gridSizeChanged.
  rewrite trace_bind, state_bind.
  cbn [App.trace App.value App.state App.get fst snd app].
  replace (c >? 0) with true by (symmetry; apply Z.gtb_lt; lia).
  replace (r >? 0) with true by (symmetry; apply Z.gtb_lt; lia).
  destruct (App.connector w); [ | congruence ].
  split; [ reflexivity | ].
  rewrite <- (xterm_keeps_positive c r Hr). reflexivity.
Qed.

Lemma gridSizeChanged_resizes_then_syncs_witness :
  App.trace (App.gridSizeChanged 100 30 started)
  = [App.xterm_resize 100 30; App.connector_sync]
  /\ App.x_size (App.xterm (App.state (App.gridSizeChanged 100 30 started)))
     = mkGridSize 100 30.
Proof.
  apply (gridSizeChanged_resizes_then_syncs started 100 30).
  - lia.
  - lia.
  - vm_compute. discriminate.
Defined.

(** C2, as stated, fails once the application has been disposed: the
    listener is told a grid of positive dimensions and calls nothing. *)
Lemma gridSizeChanged_after_dispose :
  80 > 0 /\ 24 > 0
  /\ App.trace (App.gridSizeChanged 80 24 started_disposed) = []
  /\ App.trace (App.gridSizeChanged 80 24 started_disposed)
     <> [App.xterm_resize 80 24; App.connector_sync].
Proof.
  split; [ lia | ]. split; [ lia | ].
  split; [ vm_compute; reflexivity | vm_compute; discriminate ].
Qed.

(** ** Start-up *)

Lemma init_until_await_result (w : App.World) :
  let g := Rasterizer.getGridSize (App.terminalText w) in
  let c := if cols g >? 0 then cols g else 80 in
  let r := if rows g >? 0 then rows g else 24 in
  App.trace (App.init_until_await w)
  = [App.xterm_resize c r; App.terminalAPI_init c r]
  /\ negotiated (App.state (App.init_until_await w))
     = (xterm_keeps c r, Some (pty_spawned c r)).
Proof. intros g c r. split; reflexivity. Qed.

Lemma fallback_positive (g : GridSize) :
  0 < (if cols g >? 0 then cols g else 80)
  /\ 0 < (if rows g >? 0 then rows g else 24).
Proof.
  split.
  - destruct (cols g >? 0) eqn:E; [ apply Z.gtb_lt, E | lia ].
  - destruct (rows g >? 0) eqn:E; [ apply Z.gtb_lt, E | lia ].
Qed.

Lemma init_after_await_negotiated (w : App.World) :
  negotiated (App.state (App.init_after_await w)) = negotiated w.
Proof.
  unfold App.init_after_await, App.terminalAPI_do_onData, App.terminalAPI_do_onExit,
    App.terminalAPI_do_onWindowResize, App.xterm_do_onData,
    App.xterm_do_focus, App.push_cleanup.
  keeps_tac negotiated.
Qed.

(** C10, as the code has it.  [init()] replaces each dimension of the
    rasterizer's grid that is not positive by its own fallback, 80 columns
    or 24 rows, and keeps a positive one.  Before it suspends at its
    [await] it asks the terminal emulation to resize to the resulting size
    and then the main process for a PTY of that size, which is strictly
    positive in both dimensions: the PTY is spawned with exactly that size,
    and the terminal emulation has it too, but for the 2 columns XTerm.js
    keeps when it is asked for one.  The rest of [init()], when it runs,
    changes neither size. *)
Theorem init_fallback_per_dimension (w : App.World) :
  let g := Rasterizer.getGridSize (App.terminalText w) in
  let c := if cols g >? 0 then cols g else 80 in
  let r := if rows g >? 0 then rows g else 24 in
  App.trace (App.init_until_await w)
  = [App.xterm_resize c r; App.terminalAPI_init c r]
  /\ App.x_size (App.xterm (App.state (App.init_until_await w)))
     = mkGridSize (Z.max c 2) r
  /\ App.ptyProcess (App.api (App.state (App.init_until_await w)))
     = Some (mkGridSize c r)
  /\ 0 < c /\ 0 < r
  /\ (forall v : App.World,
         negotiated (App.state (App.init_after_await v)) = negotiated v).
Proof.
  intros g c r.
  destruct (init_until_await_result w) as [Ht En]. fold g c r in Ht, En.
  destruct (fallback_positive g) as [Hc Hr]. fold c r in Hc, Hr.
  split; [ exact Ht | ].
  split; [ rewrite <- (xterm_keeps_positive c r Hr);
           exact (f_equal fst En) | ].
  split; [ rewrite <- (pty_spawned_positive c r Hc Hr);
           exact (f_equal snd En) | ].
  split; [ exact Hc | ]. split; [ exact Hr | ].
  apply init_after_await_negotiated.
Qed.

(** C10, as stated, fails when only one dimension is degenerate: with no
    column but thirty rows, the PTY is initialised with 80 x 30, not with
    the fallback size 80 x 24. *)
Lemma init_keeps_positive_dimension :
  cols (Rasterizer.getGridSize (App.terminalText narrow)) <= 0
  /\ App.ptyProcess (App.api (App.state (App.init_until_await narrow)))
     = Some (mkGridSize 80 30)
  /\ App.ptyProcess (App.api (App.state (App.init_until_await narrow)))
     <> Some (mkGridSize 80 24).
Proof.
  split; [ vm_compute; discriminate | ].
  split; [ vm_compute; reflexivity | vm_compute; discriminate ].
Qed.

(** ** The rasterizer *)

Lemma GridSize_eqb_eq (a b : GridSize) : GridSize_eqb a b = true <-> a = b.
Proof.
  unfold GridSize_eqb. destruct a as [ca ra], b as [cb rb]. cbn.
  rewrite andb_true_iff, !Z.eqb_eq. split.
  - intros [-> ->]. reflexivity.
  - intros E. injection E as -> ->. split; reflexivity.
Qed.

Lemma updateSize_size `{GlyphAtlas} (width height : Z) (rz : Rasterizer.t) :
  Rasterizer.size (fst (Rasterizer.updateSize width height rz))
  = computeGridSize width height
  /\ Rasterizer.listeners (fst (Rasterizer.updateSize width height rz))
     = Rasterizer.listeners rz.
Proof.
  unfold Rasterizer.updateSize.
  destruct (GridSize_eqb _ _) eqn:E; cbn; [ | split; reflexivity ].
  apply GridSize_eqb_eq in E. split; [ symmetry; exact E | reflexivity ].
Qed.

(** C7.  [updateGridSize(cols, rows)] with a dimension that is not
    positive returns normally, reports that nothing was applied, and leaves
    the rasterizer -- grid, size, texture and all -- exactly as it was. *)
Theorem updateGridSize_degenerate_noop `{GlyphAtlas}
  (c r : Z) (rz : Rasterizer.t) :
  c <= 0 \/ r <= 0 ->
  Rasterizer.updateGridSize c r rz = Normal (false, rz).
Proof.
  intros Hd. unfold Rasterizer.updateGridSize.
  replace ((c <=? 0) || (r <=? 0)) with true; [ reflexivity | ].
  symmetry. apply orb_true_iff.
  destruct Hd as [Hc | Hr]; [ left | right ]; apply Z.leb_le; assumption.
Qed.

Lemma updateGridSize_degenerate_noop_witness :
  Rasterizer.updateGridSize (H := terminus8x16) 0 24 raster80x30
  = Normal (false, raster80x30).
Proof.
  apply (updateGridSize_degenerate_noop (H := terminus8x16) 0 24 raster80x30).
  left. lia.
Defined.

(** C8.  Two size recomputations in a row that derive the same grid size:
    the second one notifies no listener, so over both each registered
    listener is invoked at most once. *)
Theorem updateSize_same_size_notifies_once `{GlyphAtlas}
  (width1 height1 width2 height2 : Z) (rz : Rasterizer.t) :
  computeGridSize width1 height1 = computeGridSize width2 height2 ->
  let first := Rasterizer.updateSize width1 height1 rz in
  let second := Rasterizer.updateSize width2 height2 (fst first) in
  snd second = []
  /\ (List.length (snd first ++ snd second)
      <= List.length (Rasterizer.listeners rz))%nat
  /\ Rasterizer.getGridSize (fst second) = computeGridSize width1 height1.
Proof.
  intros Hsame first second.
  destruct (updateSize_size width1 height1 rz) as [Hsize Hls].
  fold first in Hsize, Hls.
  assert (Hsecond : second = (Rasterizer.withViewport (width2, height2) (fst first), [])).
  { subst second. unfold Rasterizer.updateSize at 1.
    replace (GridSize_eqb (computeGridSize width2 height2)
               (Rasterizer.size (fst first))) with true; [ reflexivity | ].
    symmetry. apply GridSize_eqb_eq. rewrite Hsize. symmetry. exact Hsame. }
  rewrite Hsecond. cbn [fst snd]. split; [ reflexivity | split ].
  - rewrite app_nil_r. subst first. unfold Rasterizer.updateSize.
    destruct (GridSize_eqb _ _); cbn [snd List.length].
    + apply Nat.le_0_l.
    + rewrite length_map. apply Nat.le_refl.
  - exact Hsize.
Qed.

Lemma updateSize_same_size_notifies_once_witness :
  snd (Rasterizer.updateSize (H := terminus8x16) 801 480
         (fst (Rasterizer.updateSize (H := terminus8x16) 800 480 raster80x30))) = []
  /\ (List.length
        (snd (Rasterizer.updateSize (H := terminus8x16) 800 480 raster80x30)
         ++ snd (Rasterizer.updateSize (H := terminus8x16) 801 480
                   (fst (Rasterizer.updateSize (H := terminus8x16) 800 480 raster80x30))))
      <= List.length (Rasterizer.listeners raster80x30))%nat
  /\ Rasterizer.getGridSize
       (fst (Rasterizer.updateSize (H := terminus8x16) 801 480
               (fst (Rasterizer.updateSize (H := terminus8x16) 800 480 raster80x30))))
     = mkGridSize 100 30.
Proof.
  apply (updateSize_same_size_notifies_once (H := terminus8x16)
           800 480 801 480 raster80x30).
  reflexivity.
Defined.

(** ** Disposal *)

(** C9.  For an application started and then put through any events,
    [dispose()] called twice in a row is the same as calling it once: the
    second call leaves the state as the first left it and calls only the
    listener removal and the collaborators' [dispose()], which by then
    release nothing -- every collaborator has released its resources
    exactly once.  After the first [dispose()] no request for [animate] is
    pending, and whatever events follow, no render-loop call is made. *)
Theorem dispose_twice `{GlyphAtlas}
  (width height now : Z) (before after : list App.Event) :
  let w := App.state (App.run before (App.state (App.boot width height now))) in
  let w1 := App.state (App.dispose w) in
  App.dispose w1 = (tt, w1, second_dispose_calls)
  /\ (Rasterizer.released (App.terminalText w1) = 1%nat
      /\ App.released (App.terminalFrame w1) = 1%nat
      /\ App.released (App.renderer w1) = 1%nat
      /\ App.released (App.x_self (App.xterm w1)) = 1%nat)
  /\ Halted w1
  /\ Halted (App.state (App.run after w1))
  /\ filter is_tick_call (App.trace (App.run after w1)) = [].
Proof.
  intros w w1.
  assert (Hw : Tracked w) by (apply run_Tracked, boot_Tracked).
  assert (Cw : Counted w) by (apply run_Counted, boot_Counted).
  clearbody w.
  assert (H1 : Halted w1) by (apply dispose_Halted, Hw).
  split; [ apply dispose_again, dispose_Disposed | ].
  split; [ apply (dispose_Counted w Cw) | ].
  split; [ exact H1 | ].
  apply run_Halted, H1.
Qed.


(* ================================================================== *)
(** * Part IV: further properties of the renderer process *)
(* ================================================================== *)

(** Unfolds the listeners and the methods they call down to the calls on
    the collaborators. *)
Ltac unfold_handlers :=
  unfold App.step, App.run_frame_callback, App.ptyExited, App.ipcWindowResized,
    App.dispatchResize, App.handleResize, App.terminalText_do_updateSize,
    App.gridSizeChanged, App.animate, App.xterm_do_resize,
    App.terminalAPI_do_resize.

Section Subscriptions.
Context `{GlyphAtlas}.

Lemma subs_run_frame_callback (e : nat * App.FrameCallback) :
  preserves subscriptions (App.run_frame_callback e).
Proof.
  intros w. unfold App.run_frame_callback.
  destruct (snd e); unfold_handlers; keeps_tac subscriptions.
Qed.

Lemma subs_step (e : App.Event) :
  is_external e = true -> is_settlement e = false ->
  preserves subscriptions (App.step e).
Proof.
  pose proof subs_run_frame_callback.
  intros He Hs w. destruct e; try discriminate;
    unfold App.step, App.ptyExited, App.ipcWindowResized,
      App.dispatchResize, App.handleResize, App.terminalText_do_updateSize,
      App.gridSizeChanged, App.xterm_do_resize, App.terminalAPI_do_resize;
    keeps_tac subscriptions.
Qed.

Lemma susp_run_frame_callback (e : nat * App.FrameCallback) :
  preserves suspended (App.run_frame_callback e).
Proof.
  intros w. unfold App.run_frame_callback.
  destruct (snd e); unfold_handlers; keeps_tac suspended.
Qed.

Lemma susp_step (e : App.Event) :
  is_external e = true -> is_settlement e = false ->
  preserves suspended (App.step e).
Proof.
  pose proof susp_run_frame_callback.
  intros He Hs w. destruct e; try discriminate;
    unfold App.step, App.ptyExited, App.ipcWindowResized,
      App.dispatchResize, App.handleResize, App.terminalText_do_updateSize,
      App.gridSizeChanged, App.xterm_do_resize, App.terminalAPI_do_resize;
    keeps_tac suspended.
Qed.

Lemma init_call_effect (w : App.World) :
  subscriptions (App.state (App.step App.EvInit w)) = subscriptions w
  /\ suspended (App.state (App.step App.EvInit w))
     = suspended w ++ [App.init_awaits].
Proof. split; reflexivity. Qed.

Lemma rejected_effect (w : App.World) :
  subscriptions (App.state (App.step App.EvInitRejected w)) = subscriptions w
  /\ suspended (App.state (App.step App.EvInitRejected w)) = tl (suspended w).
Proof. split; reflexivity. Qed.

End Subscriptions.
Lemma Balanced_ext (w w' : App.World) :
  subscriptions w' = subscriptions w -> Balanced w -> Balanced w'.
Proof.
  unfold subscriptions. intros E Hw c. specialize (Hw c).
  injection E as E1 E2 E3 E4 E5 E6.
  destruct c; unfold registered in *; congruence.
Qed.

Lemma Unsubscribed_Balanced (w : App.World) : Unsubscribed w -> Balanced w.
Proof.
  unfold Unsubscribed, subscriptions. intros E c.
  injection E as E1 E2 E3 E4 E5 E6.
  destruct c; unfold registered; rewrite E1; assumption.
Qed.

Lemma init_after_await_subscriptions (w : App.World) :
  subscriptions (App.state (App.init_after_await w))
  = (App.cleanupFunctions w
       ++ [App.removeDataListener; App.onDataDisposable_dispose;
           App.removeExitListener; App.removeResizeListener],
     S (App.dataListeners (App.api w)), S (App.x_onData (App.xterm w)),
     S (App.exitListeners (App.api w)),
     S (App.resizeWindowListeners (App.api w)),
     App.resizeListener (App.window w))
  /\ suspended (App.state (App.init_after_await w)) = suspended w.
Proof.
  destruct w as [afid conn cf tt tf rd dom [xs xo xf xc] win [pp dl el rl pd]].
  unfold subscriptions, suspended. cbn. rewrite <- !app_assoc.
  split; reflexivity.
Qed.

Lemma resume_subscriptions (s : App.Suspended) (w : App.World) :
  subscriptions (App.state (App.resume s w))
  = subscriptions (App.state (App.init_after_await w))
  /\ suspended (App.state (App.resume s w))
     = suspended (App.state (App.init_after_await w)).
Proof.
  destruct s; unfold App.resume; [ split; reflexivity | ].
  rewrite state_bind. cbv beta. unfold App.DOMContentLoaded_resume.
  rewrite state_bind. cbn [App.state App.ret fst snd].
  generalize (App.state (App.init_after_await w)). intros v. split; reflexivity.
Qed.

Section Answers.
Context `{GlyphAtlas}.

(** An answer to [terminalAPI.init]: with no call suspended nothing
    happens; otherwise the oldest suspended call registers its four
    listeners and pushes their cleanup functions. *)
Lemma reply_effect (w : App.World) :
  match suspended w with
  | [] => App.step App.EvInitReply w = (tt, w, [])
  | _ :: l =>
      subscriptions (App.state (App.step App.EvInitReply w))
      = (App.cleanupFunctions w
           ++ [App.removeDataListener; App.onDataDisposable_dispose;
               App.removeExitListener; App.removeResizeListener],
         S (App.dataListeners (App.api w)), S (App.x_onData (App.xterm w)),
         S (App.exitListeners (App.api w)),
         S (App.resizeWindowListeners (App.api w)),
         App.resizeListener (App.window w))
      /\ suspended (App.state (App.step App.EvInitReply w)) = l
  end.
Proof.
  unfold suspended.
  destruct (App.pending (App.api w)) as [|s l] eqn:E.
  - unfold App.step, App.bind.
    cbn [App.value App.state App.trace App.get fst snd].
    rewrite E. reflexivity.
  - unfold App.step. rewrite state_bind.
    cbn [App.value App.state App.get fst snd]. rewrite E.
    rewrite state_bind. cbv beta.
    destruct (resume_subscriptions s (App.state (App.settle w))) as [R1 R2].
    destruct (init_after_await_subscriptions (App.state (App.settle w))) as [I1 I2].
    split.
    + rewrite R1, I1. reflexivity.
    + change (suspended (App.state (App.resume s (App.state (App.settle w)))) = l).
      rewrite R2, I2. unfold suspended. cbn. rewrite E. reflexivity.
Qed.

Lemma pending_cleanups_app (c : App.Cleanup) (l1 l2 : list App.Cleanup) :
  pending_cleanups c (l1 ++ l2)
  = (pending_cleanups c l1 + pending_cleanups c l2)%nat.
Proof. unfold pending_cleanups. rewrite filter_app, length_app. reflexivity. Qed.

Lemma reply_Balanced (w : App.World) :
  Balanced w -> Balanced (App.state (App.step App.EvInitReply w)).
Proof.
  intros Hw. pose proof (reply_effect w) as E.
  destruct (suspended w) as [|s l].
  - rewrite E. exact Hw.
  - destruct E as [E _]. intros c. specialize (Hw c).
    set (w' := App.state (App.step App.EvInitReply w)) in *. clearbody w'.
    unfold subscriptions in E. injection E as E1 E2 E3 E4 E5 E6.
    rewrite E1, pending_cleanups_app.
    destruct c; unfold registered in *; cbn; lia.
Qed.

End Answers.

Lemma run_cleanup_registered (c a : App.Cleanup) (w : App.World) :
  registered c (App.state (App.run_cleanup a w))
  = if Cleanup_eqb c a then Nat.pred (registered c w) else registered c w.
Proof. destruct c, a; reflexivity. Qed.

Lemma cleanups_registered (c : App.Cleanup) (l : list App.Cleanup) (w : App.World) :
  registered c (App.state (App.forEach l App.run_cleanup w))
  = (registered c w - pending_cleanups c l)%nat.
Proof.
  revert w. induction l as [|a l IH]; intros w; cbn [App.forEach].
  - cbn. lia.
  - rewrite state_bind, IH, run_cleanup_registered.
    unfold pending_cleanups. cbn [filter].
    destruct (Cleanup_eqb c a); cbn [List.length]; lia.
Qed.

Section DisposeSubscriptions.

Local Notation "'release' w" :=
  (App.state (App.xterm_do_dispose
     (App.state (App.removeRendererFromDom
        (App.state (App.disposeThreeResources
           (App.state (App.disposeConnector w))))))))
  (at level 10, w at level 9).

Lemma release_subscriptions (w : App.World) :
  subscriptions (release w) = subscriptions w.
Proof.
  destruct w as [afid conn cf tt tf rd dom xt win ap].
  destruct conn, dom; reflexivity.
Qed.

Lemma stop_subscriptions (w : App.World) :
  subscriptions (App.state (App.window_removeEventListener
                   (App.state (App.stopAnimationLoop w))))
  = (App.cleanupFunctions w, App.dataListeners (App.api w),
     App.x_onData (App.xterm w), App.exitListeners (App.api w),
     App.resizeWindowListeners (App.api w), false).
Proof.
  unfold App.stopAnimationLoop. rewrite state_bind.
  cbn [App.value App.state App.get fst snd].
  destruct (App.animationFrameId w); reflexivity.
Qed.

Lemma runCleanupFunctions_registered (c : App.Cleanup) (w : App.World) :
  registered c (App.state (App.runCleanupFunctions w))
  = (registered c w - pending_cleanups c (App.cleanupFunctions w))%nat.
Proof.
  rewrite <- cleanups_registered.
  unfold App.runCleanupFunctions. rewrite !state_bind.
  cbn [App.value App.state App.get App.modify fst snd].
  destruct c; reflexivity.
Qed.

Lemma dispose_Unsubscribed (w : App.World) :
  Balanced w -> Unsubscribed (App.state (App.dispose w)).
Proof.
  intros Hw. rewrite dispose_blocks.
  unfold Unsubscribed. rewrite release_subscriptions.
  pose proof (stop_subscriptions w) as E.
  set (w2 := App.state (App.window_removeEventListener _)) in *. clearbody w2.
  assert (H2 : Balanced w2).
  { intros c. specialize (Hw c). unfold subscriptions in E.
    injection E as E1 E2 E3 E4 E5 E6.
    destruct c; unfold registered in *; congruence. }
  assert (Hr : App.resizeListener (App.window w2) = false).
  { unfold subscriptions in E. injection E as E1 E2 E3 E4 E5 E6. exact E6. }
  clear E Hw.
  pose proof (fun c => runCleanupFunctions_registered c w2) as R.
  destruct (cleanup_loop w2) as [Hout Hc].
  set (w3 := App.state (App.runCleanupFunctions w2)) in *. clearbody w3.
  unfold outside_listeners in Hout. injection Hout as O1 O2 O3 O4 O5 O6 O7 O8.
  pose proof (R App.removeDataListener) as R1.
  pose proof (R App.onDataDisposable_dispose) as R2.
  pose proof (R App.removeExitListener) as R3.
  pose proof (R App.removeResizeListener) as R4.
  rewrite (H2 App.removeDataListener) in R1.
  rewrite (H2 App.onDataDisposable_dispose) in R2.
  rewrite (H2 App.removeExitListener) in R3.
  rewrite (H2 App.removeResizeListener) in R4.
  rewrite Nat.sub_diag in R1, R2, R3, R4.
  unfold registered in R1, R2, R3, R4.
  unfold subscriptions. rewrite Hc, R1, R2, R3, R4, O8, Hr. reflexivity.
Qed.

End DisposeSubscriptions.

Lemma times_call_trace (n : nat) (c : App.Call) (w : App.World) :
  App.trace (App.times n (App.call c) w) = repeat c n
  /\ App.state (App.times n (App.call c) w) = w.
Proof.
  induction n as [|n [IHt IHs]]; cbn [App.times repeat].
  - split; reflexivity.
  - rewrite trace_bind, state_bind. cbn [App.state App.call App.trace fst snd].
    rewrite IHt, IHs. split; reflexivity.
Qed.

(** ** After [dispose()] nothing reaches the application *)

Lemma bind_result {A B : Type} (m : App.M A) (k : A -> App.M B) (w w1 w2 : App.World)
  (a : A) (b : B) (t1 t2 : list App.Call) :
  m w = (a, w1, t1) -> k a w1 = (b, w2, t2) ->
  App.bind m k w = (b, w2, t1 ++ t2).
Proof. intros Hm Hk. unfold App.bind. rewrite Hm. cbn. rewrite Hk. reflexivity. Qed.

Section Inert.
Context `{GlyphAtlas}.






End Inert.

Section ReachableSubscriptions.
Context `{GlyphAtlas}.

Lemma constructor_subscriptions (w : App.World) :
  subscriptions (App.state (App.constructor w))
  = (App.cleanupFunctions w, App.dataListeners (App.api w),
     App.x_onData (App.xterm w), App.exitListeners (App.api w),
     App.resizeWindowListeners (App.api w), true).
Proof.
  unfold App.constructor. rewrite state_bind.
  cbn [App.value App.state App.get fst snd].
  match goal with |- context [App.when ?b _] => destruct b end; reflexivity.
Qed.

Lemma subs_init_until_await : preserves subscriptions App.init_until_await.
Proof.
  intros w. unfold App.init_until_await, App.terminalAPI_do_init, App.xterm_do_resize.
  keeps_tac subscriptions.
Qed.

Lemma susp_init_until_await : preserves suspended App.init_until_await.
Proof.
  intros w. unfold App.init_until_await, App.terminalAPI_do_init, App.xterm_do_resize.
  keeps_tac suspended.
Qed.

Lemma constructor_suspended (w : App.World) :
  suspended (App.state (App.constructor w)) = suspended w.
Proof.
  unfold App.constructor. rewrite state_bind.
  cbn [App.value App.state App.get fst snd].
  match goal with |- context [App.when ?b _] => destruct b end; reflexivity.
Qed.

Lemma await_effect (s : App.Suspended) (w : App.World) :
  subscriptions (App.state (App.await s w)) = subscriptions w
  /\ suspended (App.state (App.await s w)) = suspended w ++ [s].
Proof. split; reflexivity. Qed.

(** When the "DOMContentLoaded" handler suspends, the window's "resize"
    listener is the only one registered, and the handler is the only one
    waiting. *)
Lemma boot_subscriptions (width height now : Z) :
  subscriptions (App.state (App.boot width height now))
  = ([], 0%nat, 0%nat, 0%nat, 0%nat, true)
  /\ suspended (App.state (App.boot width height now))
     = [App.DOMContentLoaded_awaits_init].
Proof.
  rewrite boot_state.
  match goal with
  | |- context [App.await ?s ?w] => destruct (await_effect s w) as [-> ->]
  end.
  rewrite subs_init_until_await, constructor_subscriptions.
  rewrite susp_init_until_await, constructor_suspended.
  split; reflexivity.
Qed.

Lemma boot_Balanced (width height now : Z) :
  Balanced (App.state (App.boot width height now)).
Proof.
  destruct (boot_subscriptions width height now) as [E _].
  set (w := App.state (App.boot width height now)) in *. clearbody w.
  intros c. unfold subscriptions in E. injection E as E1 E2 E3 E4 E5 E6.
  rewrite E1. destruct c; unfold registered; cbn; assumption.
Qed.

Lemma step_Balanced (e : App.Event) (w : App.World) :
  Balanced w -> Balanced (App.state (App.step e w)).
Proof.
  intros Hw. destruct (is_external e) eqn:He.
  - destruct (is_settlement e) eqn:Hq.
    + destruct e; try discriminate.
      * apply reply_Balanced, Hw.
      * apply (Balanced_ext w); [ apply rejected_effect | exact Hw ].
    + apply (Balanced_ext w); [ apply subs_step; assumption | exact Hw ].
  - destruct e; try discriminate.
    + apply (Balanced_ext w); [ apply init_call_effect | exact Hw ].
    + apply Unsubscribed_Balanced, dispose_Unsubscribed, Hw.
Qed.

Lemma run_Balanced (es : list App.Event) (w : App.World) :
  Balanced w -> Balanced (App.state (App.run es w)).
Proof.
  revert w. induction es as [|e es IH]; intros w Hw.
  - exact Hw.
  - unfold App.run in *. cbn [App.forEach]. rewrite state_bind.
    apply IH, step_Balanced, Hw.
Qed.

Lemma registered_ext (c : App.Cleanup) (w w' : App.World) :
  subscriptions w' = subscriptions w -> registered c w' = registered c w.
Proof.
  unfold subscriptions. intros E. injection E as E1 E2 E3 E4 E5 E6.
  destruct c; unfold registered; assumption.
Qed.

(** While the host does not call [dispose()], every [init()] that runs to
    its end adds one listener of each kind and nothing else changes their
    number. *)
Lemma run_registered (c : App.Cleanup) (es : list App.Event) (w : App.World) :
  forallb (fun e => negb (is_dispose e)) es = true ->
  registered c (App.state (App.run es w))
  = (registered c w + completed_inits (List.length (suspended w)) es)%nat.
Proof.
  revert w. induction es as [|e es IH]; intros w Hes.
  - cbn. lia.
  - cbn [forallb] in Hes. apply andb_true_iff in Hes. destruct Hes as [He Hes].
    unfold App.run in *. cbn [App.forEach]. rewrite state_bind, (IH _ Hes).
    destruct (is_external e) eqn:Hx.
    + destruct (is_settlement e) eqn:Hq.
      * destruct e; try discriminate.
        -- pose proof (reply_effect w) as E. cbn [completed_inits].
           destruct (suspended w) as [|s l] eqn:Es.
           ++ rewrite E. cbn [App.state fst snd]. rewrite Es. reflexivity.
           ++ destruct E as [E1 E2]. rewrite E2. cbn [List.length].
              set (w' := App.state (App.step App.EvInitReply w)) in *.
              clearbody w'. unfold subscriptions in E1.
              injection E1 as F1 F2 F3 F4 F5 F6.
              destruct c; unfold registered; cbn; lia.
        -- destruct (rejected_effect w) as [E1 E2].
           rewrite (registered_ext c _ _ E1), E2. cbn [completed_inits].
           destruct (suspended w); reflexivity.
      * rewrite (registered_ext c _ _ (subs_step e Hx Hq w)),
          (susp_step e Hx Hq w).
        destruct e; try discriminate; reflexivity.
    + destruct e; try discriminate.
      destruct (init_call_effect w) as [E1 E2].
      rewrite (registered_ext c _ _ E1), E2, length_app. cbn [completed_inits].
      cbn [List.length]. rewrite Nat.add_1_r. reflexivity.
Qed.

End ReachableSubscriptions.

(** ** A running render loop *)

Section Running.
Context `{GlyphAtlas}.

Lemma clock_dispatchResize : preserves frame_clock App.dispatchResize.
Proof. intros w. unfold_handlers. keeps_tac frame_clock. Qed.

(** A frame with one pending [animate]: whatever else is called, the
    render loop makes one iteration, with the clock and the request id of
    the moment the frame began. *)
Lemma one_animate_ticks (l : list (nat * App.FrameCallback)) :
  forall (e : nat * App.FrameCallback) (w : App.World),
    filter is_animate l = [e] ->
    filter is_tick_call (App.trace (App.forEach l App.run_frame_callback w))
    = [App.terminalText_updateTime (App.clock (App.window w));
       App.terminalText_renderStaticPass;
       App.window_requestAnimationFrame App.cb_animate
         (App.nextFrameId (App.window w));
       App.renderer_render]
    /\ App.animationFrameId
         (App.state (App.forEach l App.run_frame_callback w))
       = Some (App.nextFrameId (App.window w)).
Proof.
  induction l as [|e' l IH]; intros e w Hl; cbn [App.forEach].
  - discriminate.
  - rewrite trace_bind, state_bind, filter_app. cbn [filter] in Hl.
    destruct (is_animate e') eqn:He.
    + injection Hl as _ Hl. rewrite (callback_animate e' He).
      rewrite (other_callbacks_silent l Hl), app_nil_r.
      split; [ reflexivity | ].
      pose proof (other_callbacks_loop_state l Hl (App.state (App.animate w))) as E.
      rewrite animate_loop_state in E.
      unfold loop_state in E at 1. injection E as E1 E2 E3. exact E3.
    + rewrite (callback_not_animate e' He), silent_dispatchResize. cbn [app].
      pose proof (clock_dispatchResize w) as E.
      destruct (IH e (App.state (App.dispatchResize w)) Hl) as [Ht Hs].
      unfold frame_clock in E. injection E as E1 E2.
      rewrite Ht, Hs, E1, E2. split; reflexivity.
Qed.

Lemma frame_ticks (now : Z) (id : nat) (w : App.World) :
  Tracked w -> App.animationFrameId w = Some id ->
  filter is_tick_call (App.trace (App.step (App.EvFrame now) w))
  = [App.terminalText_updateTime now;
     App.terminalText_renderStaticPass;
     App.window_requestAnimationFrame App.cb_animate
       (App.nextFrameId (App.window w));
     App.renderer_render]
  /\ App.animationFrameId (App.state (App.step (App.EvFrame now) w))
     = Some (App.nextFrameId (App.window w)).
Proof.
  intros Hw Ha. destruct (frame_state now w) as [-> ->].
  unfold Tracked, pending_ticks in Hw. rewrite Ha in Hw.
  destruct (filter is_animate (App.frames (App.window w)))
    as [|e [|e' l]] eqn:Hf; try discriminate.
  exact (one_animate_ticks _ e (App.take_frames now w) Hf).
Qed.

Lemma step_running (e : App.Event) (w : App.World) :
  is_dispose e = false -> Tracked w ->
  App.animationFrameId w <> None ->
  App.animationFrameId (App.state (App.step e w)) <> None.
Proof.
  intros He Hw Ha. destruct (App.animationFrameId w) as [id|] eqn:Ea; [ | congruence ].
  assert (Hq : forall e', (forall t, e' <> App.EvFrame t) ->
               e' <> App.EvInitReply -> e' <> App.EvDispose ->
               App.animationFrameId (App.state (App.step e' w)) <> None).
  { intros e' H1 H2 H3. pose proof (loop_step e' H1 H2 H3 w) as E.
    unfold loop_state in E. injection E as E1 E2 E3. rewrite E3, Ea. discriminate. }
  destruct e; try discriminate; try (apply Hq; discriminate).
  - destruct (frame_ticks now id w Hw Ea) as [_ ->]. discriminate.
  - pose proof (ticks_reply w) as E. apply (f_equal snd) in E.
    cbn [tick_state snd] in E. rewrite E, Ea. discriminate.
Qed.

Lemma run_running (es : list App.Event) (w : App.World) :
  forallb (fun e => negb (is_dispose e)) es = true ->
  Tracked w -> App.animationFrameId w <> None ->
  App.animationFrameId (App.state (App.run es w)) <> None.
Proof.
  revert w. induction es as [|e es IH]; intros w Hes Hw Ha.
  - exact Ha.
  - cbn [forallb] in Hes. apply andb_true_iff in Hes. destruct Hes as [He Hes].
    apply negb_true_iff in He.
    unfold App.run in *. cbn [App.forEach]. rewrite state_bind.
    apply IH; [ exact Hes | apply step_Tracked, Hw | apply step_running; assumption ].
Qed.

Lemma init_until_await_loop (w : App.World) :
  App.animationFrameId (App.state (App.init_until_await w)) = App.animationFrameId w.
Proof.
  pose proof (loop_init_until_await w) as E. apply (f_equal snd) in E. exact E.
Qed.

Lemma await_loop (s : App.Suspended) (w : App.World) :
  App.animationFrameId (App.state (App.await s w)) = App.animationFrameId w.
Proof. reflexivity. Qed.

Lemma constructor_loop (w : App.World) :
  App.animationFrameId (App.state (App.constructor w))
  = Some (App.nextFrameId (App.window w)).
Proof.
  pose proof (constructor_loop_state w) as E. apply (f_equal snd) in E. exact E.
Qed.

Lemma boot_running (width height now : Z) :
  App.animationFrameId (App.state (App.boot width height now)) <> None.
Proof.
  rewrite boot_state, await_loop, init_until_await_loop, constructor_loop.
  discriminate.
Qed.

End Running.


(** ** Resizing *)

Section Resizing.
Context `{GlyphAtlas}.

Lemma beside_gridSizeChanged (c r : Z) :
  preserves beside_xterm (App.gridSizeChanged c r).
Proof. intros w. unfold_handlers. keeps_tac beside_xterm. Qed.

Lemma updateSize_effect (width height : Z) (w : App.World) :
  beside_xterm (App.state (App.terminalText_do_updateSize width height w))
  = (fst (Rasterizer.updateSize width height (App.terminalText w)),
     App.connector w, App.api w, App.window w).
Proof.
  unfold App.terminalText_do_updateSize. rewrite state_bind.
  cbn [App.value App.state App.get fst snd]. cbv zeta.
  rewrite state_bind. cbv beta. rewrite state_bind. cbv beta.
  cbn [App.value App.state App.modify App.call fst snd].
  rewrite (preserves_forEach beside_xterm); [ reflexivity | ].
  intros n. apply beside_gridSizeChanged.
Qed.

(** The last block of [handleResize]: with a connector and a grid of
    positive dimensions the terminal emulation gets the grid's size and the
    connector syncs. *)
Lemma handleResize_state (w : App.World) :
  exists v : App.World,
    beside_xterm v
    = (fst (Rasterizer.updateSize (App.innerWidth (App.window w))
              (App.innerHeight (App.window w)) (App.terminalText w)),
       App.connector w, App.api w, App.window w)
    /\ App.handleResize w
       = (tt,
          (if App.is_some (App.connector v)
              && ((cols (Rasterizer.getGridSize (App.terminalText v)) >? 0)
                  && (rows (Rasterizer.getGridSize (App.terminalText v)) >? 0))
           then App.state (App.xterm_do_resize
                  (cols (Rasterizer.getGridSize (App.terminalText v)))
                  (rows (Rasterizer.getGridSize (App.terminalText v))) v)
           else v),
          App.renderer_setSize (App.innerWidth (App.window w))
                               (App.innerHeight (App.window w))
          :: App.trace (App.terminalText_do_updateSize
                          (App.innerWidth (App.window w))
                          (App.innerHeight (App.window w)) w)
          ++ App.terminalFrame_updateSize (App.innerWidth (App.window w))
                                          (App.innerHeight (App.window w))
          :: (if App.is_some (App.connector v)
                 && ((cols (Rasterizer.getGridSize (App.terminalText v)) >? 0)
                     && (rows (Rasterizer.getGridSize (App.terminalText v)) >? 0))
              then [App.xterm_resize
                      (cols (Rasterizer.getGridSize (App.terminalText v)))
                      (rows (Rasterizer.getGridSize (App.terminalText v)));
                    App.connector_sync]
              else [])).
Proof.
  exists (App.state (App.terminalText_do_updateSize
                       (App.innerWidth (App.window w))
                       (App.innerHeight (App.window w)) w)).
  split; [ apply updateSize_effect | ].
  set (width := App.innerWidth (App.window w)).
  set (height := App.innerHeight (App.window w)).
  set (r := App.terminalText_do_updateSize width height w).
  assert (Hr : r = (tt, App.state r, App.trace r)).
  { destruct r as [[[] v] t]. reflexivity. }
  unfold App.handleResize, App.bind.
  cbn [App.value App.state App.trace App.get App.call fst snd app].
  fold width height. fold r.
  set (v := App.state r). set (t := App.trace r).
  destruct (App.connector v); cbn [App.is_some andb];
    [ destruct ((cols (Rasterizer.getGridSize (App.terminalText v)) >? 0)
                && (rows (Rasterizer.getGridSize (App.terminalText v)) >? 0)) | ];
    cbn; rewrite ?app_nil_r; reflexivity.
Qed.

End Resizing.


Section ResizingProperties.
Context `{GlyphAtlas}.

Lemma resize_branch_terminalText (b : bool) (c r : Z) (v : App.World) :
  App.terminalText (if b then App.state (App.xterm_do_resize c r v) else v)
  = App.terminalText v
  /\ App.api (if b then App.state (App.xterm_do_resize c r v) else v) = App.api v.
Proof. destruct b; split; reflexivity. Qed.

Lemma handleResize_effect (w : App.World) :
  App.connector w <> None ->
  0 < cols (Rasterizer.getGridSize (App.terminalText (App.state (App.handleResize w)))) ->
  0 < rows (Rasterizer.getGridSize (App.terminalText (App.state (App.handleResize w)))) ->
  App.x_size (App.xterm (App.state (App.handleResize w)))
  = mkGridSize
      (Z.max (cols (Rasterizer.getGridSize
                      (App.terminalText (App.state (App.handleResize w))))) 2)
      (rows (Rasterizer.getGridSize
               (App.terminalText (App.state (App.handleResize w)))))
  /\ App.api (App.state (App.handleResize w)) = App.api w
  /\ exists t : list App.Call,
       App.trace (App.handleResize w)
       = t ++ [App.xterm_resize
                 (cols (Rasterizer.getGridSize
                          (App.terminalText (App.state (App.handleResize w)))))
                 (rows (Rasterizer.getGridSize
                          (App.terminalText (App.state (App.handleResize w)))));
               App.connector_sync].
Proof.
  intros Hconn. destruct (handleResize_state w) as (v & Hv & ->).
  cbn [App.state App.trace fst snd].
  unfold beside_xterm in Hv. injection Hv as E1 E2 E3 E4.
  match goal with
  | |- context [if ?b then App.state (App.xterm_do_resize ?c ?r v) else v] =>
      destruct (resize_branch_terminalText b c r v) as [-> ->]
  end.
  intros Hc Hr.
  replace (cols (Rasterizer.getGridSize (App.terminalText v)) >? 0) with true
    by (symmetry; apply Z.gtb_lt; exact Hc).
  replace (rows (Rasterizer.getGridSize (App.terminalText v)) >? 0) with true
    by (symmetry; apply Z.gtb_lt; exact Hr).
  destruct (App.connector v) eqn:Ec; [ | congruence ].
  cbn [App.is_some andb]. split; [ | split ].
  - rewrite <- (xterm_keeps_positive _ _ Hr). reflexivity.
  - exact E3.
  - eexists (_ :: _ ++ [_]). cbn [app]. rewrite <- app_assoc. reflexivity.
Qed.




Lemma ipc_branch (b : bool) (c r : Z) (v : App.World) :
  App.state (App.when b (App.terminalAPI_do_resize c r) v)
  = (if b then App.state (App.terminalAPI_do_resize c r v) else v).
Proof. destruct b; reflexivity. Qed.

Lemma ipc_branch_terminalText (b : bool) (c r : Z) (v : App.World) :
  App.terminalText (if b then App.state (App.terminalAPI_do_resize c r v) else v)
  = App.terminalText v.
Proof. destruct b; reflexivity. Qed.

Lemma terminalAPI_do_resize_effect (c r : Z) (v : App.World) :
  0 < c -> 0 < r ->
  negotiated (App.state (App.terminalAPI_do_resize c r v))
  = (App.x_size (App.xterm v),
     match App.ptyProcess (App.api v) with
     | Some _ => Some (mkGridSize c r)
     | None => None
     end).
Proof.
  intros Hc Hr. unfold negotiated, App.terminalAPI_do_resize.
  rewrite state_bind.
  cbn [App.state App.value App.modify App.call fst snd App.api App.xterm
       App.set_api App.ptyProcess].
  replace (c >? 0) with true by (symmetry; apply Z.gtb_lt; exact Hc).
  replace (r >? 0) with true by (symmetry; apply Z.gtb_lt; exact Hr).
  reflexivity.
Qed.

(** X5.  The listener of the main process's "window resized" message: when the
    application holds its connector, a PTY is running and the grid the
    rasterizer reports afterwards has positive dimensions, the PTY ends up
    with exactly that grid size, and the terminal emulation with its rows
    and its columns, or the 2 columns XTerm.js keeps when the grid has only
    one.  So with a grid of two columns or more the terminal emulation and
    the PTY agree on the grid's size, and with a grid of one column they do
    not. *)
Theorem ipc_resize_aligns_pty (w : App.World) :
  App.connector w <> None ->
  App.ptyProcess (App.api w) <> None ->
  let g := Rasterizer.getGridSize
             (App.terminalText (App.state (App.ipcWindowResized w))) in
  0 < cols g -> 0 < rows g ->
  negotiated (App.state (App.ipcWindowResized w))
  = (mkGridSize (Z.max (cols g) 2) (rows g), Some g)
  /\ (2 <= cols g -> negotiated (App.state (App.ipcWindowResized w)) = (g, Some g))
  /\ (cols g = 1 ->
      negotiated (App.state (App.ipcWindowResized w))
      = (mkGridSize 2 (rows g), Some (mkGridSize 1 (rows g)))).
Proof.
  intros Hconn Hpty g.
  assert (Hmain : 0 < cols g -> 0 < rows g ->
            negotiated (App.state (App.ipcWindowResized w))
            = (mkGridSize (Z.max (cols g) 2) (rows g), Some g));
    [ | intros Hc Hr; split; [ exact (Hmain Hc Hr) | split ];
        [ intros H2; rewrite (Hmain Hc Hr), Z.max_l by lia;
          destruct g; reflexivity
        | intros H1; rewrite (Hmain Hc Hr); destruct g as [gc gr];
          cbn [cols rows] in *; subst gc; reflexivity ] ].
  subst g. unfold App.ipcWindowResized.
  rewrite state_bind. cbv beta. rewrite state_bind.
  cbn [App.value App.state App.get fst snd]. cbv zeta.
  rewrite ipc_branch, ipc_branch_terminalText.
  pose proof (handleResize_effect w Hconn) as Hh.
  set (v := App.state (App.handleResize w)) in *. clearbody v.
  intros Hc Hr. destruct (Hh Hc Hr) as (Hx & Ha & _).
  replace (cols (Rasterizer.getGridSize (App.terminalText v)) >? 0) with true
    by (symmetry; apply Z.gtb_lt; exact Hc).
  replace (rows (Rasterizer.getGridSize (App.terminalText v)) >? 0) with true
    by (symmetry; apply Z.gtb_lt; exact Hr).
  cbn [andb]. rewrite (terminalAPI_do_resize_effect _ _ v Hc Hr).
  rewrite Hx, Ha.
  destruct (App.ptyProcess (App.api w)); [ | congruence ].
  destruct (Rasterizer.getGridSize (App.terminalText v)); reflexivity.
Qed.

End ResizingProperties.

(** ** The running application *)

(** X1.  At any moment of a run of the application from its start, at most one
    request for [animate] is pending with the browser, and it is the one
    [animationFrameId] names: the render loop never forks, and [dispose()]
    can always cancel it. *)
Theorem render_loop_never_forks `{GlyphAtlas}
  (width height now : Z) (es : list App.Event) :
  let w := App.state (App.run es (App.state (App.boot width height now))) in
  map fst (pending_ticks w)
  = match App.animationFrameId w with Some id => [id] | None => [] end
  /\ (List.length (pending_ticks w) <= 1)%nat.
Proof.
  intros w.
  assert (Hw : Tracked w) by (apply run_Tracked, boot_Tracked).
  clearbody w. split; [ exact Hw | ].
  unfold Tracked in Hw. rewrite <- (length_map fst), Hw.
  destruct (App.animationFrameId w); cbn; lia.
Qed.

(** X2.  As long as the host has not called [dispose()], every frame the
    browser presents runs [animate] exactly once: the render-loop calls of
    the frame are one iteration, stamped with the time of that frame. *)
Theorem frame_makes_one_iteration `{GlyphAtlas}
  (width height now0 now : Z) (es : list App.Event) :
  forallb (fun e => negb (is_dispose e)) es = true ->
  let w := App.state (App.run es (App.state (App.boot width height now0))) in
  filter is_tick_call (App.trace (App.step (App.EvFrame now) w))
  = [App.terminalText_updateTime now;
     App.terminalText_renderStaticPass;
     App.window_requestAnimationFrame App.cb_animate
       (App.nextFrameId (App.window w));
     App.renderer_render].
Proof.
  intros Hes w.
  assert (Hw : Tracked w) by (apply run_Tracked, boot_Tracked).
  assert (Ha : App.animationFrameId w <> None)
    by (apply run_running; [ exact Hes | apply boot_Tracked | apply boot_running ]).
  clearbody w.
  destruct (App.animationFrameId w) as [id|] eqn:Ea; [ | congruence ].
  exact (proj1 (frame_ticks now id w Hw Ea)).
Qed.

Lemma frame_makes_one_iteration_witness :
  filter is_tick_call
    (App.trace (App.step (H := terminus8x16) (App.EvFrame 1032)
       (App.state (App.run (H := terminus8x16)
          [App.EvInitReply; App.EvFrame 1016; App.EvWindowResize 800 480]
          (App.state (App.boot (H := terminus8x16) 640 480 1000))))))
  = [App.terminalText_updateTime 1032;
     App.terminalText_renderStaticPass;
     App.window_requestAnimationFrame App.cb_animate
       (App.nextFrameId (App.window
          (App.state (App.run (H := terminus8x16)
             [App.EvInitReply; App.EvFrame 1016; App.EvWindowResize 800 480]
             (App.state (App.boot (H := terminus8x16) 640 480 1000))))));
     App.renderer_render].
Proof.
  apply (frame_makes_one_iteration (H := terminus8x16) 640 480 1000 1032
           [App.EvInitReply; App.EvFrame 1016; App.EvWindowResize 800 480]).
  reflexivity.
Defined.

Section AfterDispose.
Context `{GlyphAtlas}.




Lemma susp_stop (w : App.World) :
  suspended (App.state (App.window_removeEventListener
                          (App.state (App.stopAnimationLoop w))))
  = suspended w.
Proof.
  unfold App.stopAnimationLoop. rewrite state_bind.
  cbn [App.value App.state App.get fst snd].
  destruct (App.animationFrameId w); reflexivity.
Qed.

Lemma susp_runCleanupFunctions : preserves suspended App.runCleanupFunctions.
Proof.
  intros w. unfold App.runCleanupFunctions, App.run_cleanup.
  keeps_tac suspended. destruct a; reflexivity.
Qed.

Lemma susp_disposeConnector : preserves suspended App.disposeConnector.
Proof. intros w. unfold App.disposeConnector. keeps_tac suspended. Qed.

Lemma susp_disposeThreeResources : preserves suspended App.disposeThreeResources.
Proof. intros w. reflexivity. Qed.

Lemma susp_removeRendererFromDom : preserves suspended App.removeRendererFromDom.
Proof. intros w. unfold App.removeRendererFromDom. keeps_tac suspended. Qed.

Lemma susp_xterm_do_dispose : preserves suspended App.xterm_do_dispose.
Proof. intros w. reflexivity. Qed.

Lemma susp_dispose : preserves suspended App.dispose.
Proof.
  intros w. rewrite dispose_blocks.
  rewrite susp_xterm_do_dispose, susp_removeRendererFromDom,
    susp_disposeThreeResources, susp_disposeConnector,
    susp_runCleanupFunctions.
  apply susp_stop.
Qed.

End AfterDispose.



Lemma data_written (d : string) `{GlyphAtlas} (w : App.World) :
  App.trace (App.step (App.EvPtyData d) w)
  = repeat (App.xterm_write (App.Data d)) (App.dataListeners (App.api w)).
Proof.
  unfold App.step. rewrite trace_bind.
  cbn [App.trace App.value App.state App.get fst snd app].
  apply times_call_trace.
Qed.

(** X21.  If [dispose()] runs while a call of [init()] is suspended at its
    [await], the answer of the main process still lets that call go on: it
    registers the listeners of [init()] on the disposed application, so
    that a chunk of PTY output is again written to the terminal emulation,
    which has been disposed, until [dispose()] is called a second time. *)
Theorem dispose_during_init_keeps_listening `{GlyphAtlas}
  (width height now : Z) (before : list App.Event) (d : string) :
  let w := App.state (App.run before (App.state (App.boot width height now))) in
  let w2 := App.state (App.step App.EvInitReply (App.state (App.dispose w))) in
  suspended w <> [] ->
  App.disposed (App.x_self (App.xterm w2)) = true
  /\ App.trace (App.step (App.EvPtyData d) (App.state (App.dispose w))) = []
  /\ App.trace (App.step (App.EvPtyData d) w2) = [App.xterm_write (App.Data d)]
  /\ App.trace (App.step (App.EvPtyData d) (App.state (App.dispose w2))) = [].
Proof.
  intros w w2 Hs. subst w2.
  assert (Bw : Balanced w) by (apply run_Balanced, boot_Balanced).
  clearbody w.
  pose proof (dispose_Unsubscribed w Bw) as Hu.
  pose proof (dispose_Disposed w) as Hd.
  pose proof (susp_dispose w) as Hs1.
  set (w1 := App.state (App.dispose w)) in *. clearbody w1.
  pose proof (reply_effect w1) as E.
  pose proof (reply_Balanced w1 (Unsubscribed_Balanced w1 Hu)) as B2.
  assert (Hc : components (App.state (App.step App.EvInitReply w1)) = components w1)
    by (apply comp_step; discriminate).
  destruct (suspended w1) as [|s l]; [ congruence | ].
  destruct E as [E _].
  pose proof (dispose_Unsubscribed _ B2) as Hu2.
  set (w2 := App.state (App.step App.EvInitReply w1)) in *. clearbody w2.
  set (w3 := App.state (App.dispose w2)) in *. clearbody w3.
  unfold Unsubscribed, subscriptions in Hu, Hu2. unfold subscriptions in E.
  injection Hu as U1 U2 U3 U4 U5 U6. injection Hu2 as V1 V2 V3 V4 V5 V6.
  injection E as E1 E2 E3 E4 E5 E6.
  unfold components in Hc. injection Hc as C1 C2 C3 C4 C5 C6.
  destruct Hd as (_ & _ & _ & _ & _ & _ & _ & Hx & _).
  split; [ rewrite C5; exact Hx | ].
  rewrite !data_written, U2, E2, U2, V2. repeat split.
Qed.

Lemma dispose_during_init_keeps_listening_witness :
  App.disposed (App.x_self (App.xterm
     (App.state (App.step (H := terminus8x16) App.EvInitReply
        (App.state (App.dispose
           (App.state (App.run (H := terminus8x16) [App.EvFrame 1016]
              (App.state (App.boot (H := terminus8x16) 640 480 1000))))))))))
  = true
  /\ App.trace (App.step (H := terminus8x16) (App.EvPtyData "ls")
       (App.state (App.step (H := terminus8x16) App.EvInitReply
          (App.state (App.dispose
             (App.state (App.run (H := terminus8x16) [App.EvFrame 1016]
                (App.state (App.boot (H := terminus8x16) 640 480 1000)))))))))
     = [App.xterm_write (App.Data "ls")].
Proof.
  destruct (dispose_during_init_keeps_listening (H := terminus8x16) 640 480 1000
              [App.EvFrame 1016] "ls") as (H1 & _ & H3 & _).
  - vm_compute. discriminate.
  - split; [ exact H1 | exact H3 ].
Defined.

Lemma delivered_per_init `{GlyphAtlas}
  (width height now : Z) (es : list App.Event) (d : string) :
  forallb (fun e => negb (is_dispose e)) es = true ->
  let w := App.state (App.run es (App.state (App.boot width height now))) in
  App.trace (App.step (App.EvPtyData d) w)
  = repeat (App.xterm_write (App.Data d)) (completed_inits 1 es)
  /\ App.trace (App.step (App.EvKey d) w)
     = repeat (App.terminalAPI_write d) (completed_inits 1 es).
Proof.
  intros Hes.
  destruct (boot_subscriptions width height now) as [E Es].
  set (w0 := App.state (App.boot width height now)) in *. clearbody w0.
  pose proof (run_registered App.removeDataListener es w0 Hes) as Rd.
  pose proof (run_registered App.onDataDisposable_dispose es w0 Hes) as Rk.
  unfold subscriptions in E. injection E as E1 E2 E3 E4 E5 E6.
  unfold registered in Rd, Rk. rewrite E2, Es in Rd. rewrite E3, Es in Rk.
  cbn [List.length Nat.add] in Rd, Rk.
  intros w. subst w. set (w := App.state (App.run es w0)) in *. clearbody w.
  unfold App.step. rewrite !trace_bind.
  cbn [App.trace App.value App.state App.get fst snd app].
  rewrite Rd, Rk.
  split; apply times_call_trace.
Qed.

(** X7.  Each call of [init()] that runs to its end registers one more
    listener for PTY output and one more for key strokes, and only
    [dispose()] removes them: in a run without [dispose()], a chunk of PTY
    output is written to the terminal emulation once per [init()] completed
    so far (that of start-up included), and a key stroke is sent to the PTY
    as often. *)
Theorem data_delivered_once_per_init `{GlyphAtlas}
  (width height now : Z) (es : list App.Event) (d : string) :
  forallb (fun e => negb (is_dispose e)) es = true ->
  let w := App.state (App.run es (App.state (App.boot width height now))) in
  App.trace (App.step (App.EvPtyData d) w)
  = repeat (App.xterm_write (App.Data d)) (completed_inits 1 es)
  /\ App.trace (App.step (App.EvKey d) w)
     = repeat (App.terminalAPI_write d) (completed_inits 1 es).
Proof. exact (delivered_per_init width height now es d). Qed.

Lemma data_delivered_once_per_init_witness :
  App.trace (App.step (H := terminus8x16) (App.EvPtyData "ls")
     (App.state (App.run (H := terminus8x16)
        [App.EvInitReply; App.EvFrame 1016; App.EvInit; App.EvInitReply]
        (App.state (App.boot (H := terminus8x16) 640 480 1000)))))
  = [App.xterm_write (App.Data "ls"); App.xterm_write (App.Data "ls")]
  /\ App.trace (App.step (H := terminus8x16) (App.EvKey "ls")
       (App.state (App.run (H := terminus8x16)
          [App.EvInitReply; App.EvFrame 1016; App.EvInit; App.EvInitReply]
          (App.state (App.boot (H := terminus8x16) 640 480 1000)))))
     = [App.terminalAPI_write "ls"; App.terminalAPI_write "ls"].
Proof.
  apply (data_delivered_once_per_init (H := terminus8x16) 640 480 1000
           [App.EvInitReply; App.EvFrame 1016; App.EvInit; App.EvInitReply] "ls").
  reflexivity.
Defined.


Lemma ipc_resize_aligns_pty_witness :
  negotiated (App.state (App.ipcWindowResized (H := terminus8x16) started_squeezed))
  = (mkGridSize 2 30, Some (mkGridSize 1 30)).
Proof.
  assert (Hc : App.connector started_squeezed <> None)
    by (vm_compute; discriminate).
  assert (Hp : App.ptyProcess (App.api started_squeezed) <> None)
    by (vm_compute; discriminate).
  assert (H1 : 0 < cols (Rasterizer.getGridSize (App.terminalText
                 (App.state (App.ipcWindowResized (H := terminus8x16) started_squeezed)))))
    by (vm_compute; reflexivity).
  assert (H2 : 0 < rows (Rasterizer.getGridSize (App.terminalText
                 (App.state (App.ipcWindowResized (H := terminus8x16) started_squeezed)))))
    by (vm_compute; reflexivity).
  destruct (ipc_resize_aligns_pty (H := terminus8x16) started_squeezed Hc Hp H1 H2)
    as (_ & _ & H3).
  rewrite H3; vm_compute; reflexivity.
Defined.

(** ** Start-up as a whole *)

Section StartUp.
Context `{GlyphAtlas}.

Lemma constructor_grid (w : App.World) :
  Rasterizer.getGridSize (App.terminalText (App.state (App.constructor w)))
  = Rasterizer.getGridSize (App.terminalText w).
Proof.
  unfold App.constructor. rewrite state_bind.
  cbn [App.value App.state App.get fst snd].
  match goal with |- context [App.when ?b _] => destruct b end; reflexivity.
Qed.

Lemma await_negotiated (s : App.Suspended) (w : App.World) :
  negotiated (App.state (App.await s w)) = negotiated w.
Proof. reflexivity. Qed.

Lemma reply_negotiated (w : App.World) :
  negotiated (App.state (App.step App.EvInitReply w)) = negotiated w.
Proof.
  pose proof init_after_await_negotiated as Hi.
  unfold App.step, App.settle, App.resume, App.DOMContentLoaded_resume.
  keeps_tac negotiated; apply Hi.
Qed.

(** X8.  Start-up -- constructor, then [init()] up to its [await]: the main
    process is asked for a PTY of the grid the rasterizer derived from the
    window, with 80 columns or 24 rows in place of a dimension that is not
    positive, and that size is positive in both dimensions.  The terminal
    emulation has the same rows and the same columns, but for the 2 columns
    XTerm.js keeps when the grid has only one; so from two columns on the
    terminal emulation and the PTY start with the same size.  The answer of
    the main process, when it arrives, changes neither size. *)
Theorem boot_sizes_agree (width height now : Z) :
  let g := computeGridSize width height in
  let c := if cols g >? 0 then cols g else 80 in
  let r := if rows g >? 0 then rows g else 24 in
  let w := App.state (App.boot width height now) in
  App.x_size (App.xterm w) = mkGridSize (Z.max c 2) r
  /\ App.ptyProcess (App.api w) = Some (mkGridSize c r)
  /\ 0 < c /\ 0 < r
  /\ (2 <= c -> negotiated w = (mkGridSize c r, Some (mkGridSize c r)))
  /\ negotiated (App.state (App.step App.EvInitReply w)) = negotiated w.
Proof.
  intros g c r w.
  destruct (fallback_positive g) as [Hc Hr]. fold c r in Hc, Hr.
  assert (E : negotiated w = (mkGridSize (Z.max c 2) r, Some (mkGridSize c r))).
  { subst w. rewrite boot_state, await_negotiated.
    match goal with
    | |- negotiated (App.state (App.init_until_await ?v)) = _ =>
        destruct (init_until_await_result v) as [_ ->];
        replace (Rasterizer.getGridSize (App.terminalText v)) with g
          by (symmetry; apply constructor_grid)
    end.
    fold c r. rewrite (xterm_keeps_positive c r Hr),
      (pty_spawned_positive c r Hc Hr). reflexivity. }
  clearbody w.
  split; [ exact (f_equal fst E) | ].
  split; [ exact (f_equal snd E) | ].
  split; [ exact Hc | ]. split; [ exact Hr | ]. split.
  - intros H2. rewrite E, Z.max_l by lia. reflexivity.
  - apply reply_negotiated.
Qed.

End StartUp.


(* ================================================================== *)
(** * Part V: the main process and the bridge *)
(* ================================================================== *)



(** ** Lists updated in place *)

Lemma update_nth_length {A : Type} (i : nat) (f : A -> A) (l : list A) :
  List.length (Main.update_nth i f l) = List.length l.
Proof.
  revert i. induction l as [|a l IH]; intros [|i]; cbn; try reflexivity.
  rewrite IH. reflexivity.
Qed.

Lemma update_nth_same {A : Type} (i : nat) (f : A -> A) (l : list A) :
  nth_error (Main.update_nth i f l) i = option_map f (nth_error l i).
Proof.
  revert i. induction l as [|a l IH]; intros [|i]; cbn; try reflexivity.
  apply IH.
Qed.

Lemma update_nth_other {A : Type} (i j : nat) (f : A -> A) (l : list A) :
  i <> j -> nth_error (Main.update_nth i f l) j = nth_error l j.
Proof.
  revert i j. induction l as [|a l IH]; intros [|i] [|j] Hij; cbn;
    try reflexivity; try congruence.
  apply IH. congruence.
Qed.

Lemma killed_not_running (p : Main.Pty) : Main.status (Main.killed p) <> Main.Running.
Proof. unfold Main.killed. destruct (Main.status p) eqn:E; cbn; congruence. Qed.

Lemma killed_keeps_others (p : Main.Pty) :
  Main.status p <> Main.Running -> Main.killed p = p.
Proof. unfold Main.killed. destruct (Main.status p); congruence. Qed.

(** ** The PTY the main process refers to *)

Section MainInvariants.
Variable h : Main.Host.
Variable resize_throws : Main.Pty -> Z -> Z -> bool.

Lemma kill_and_forget_forgets (s : Main.State) :
  Main.ptyProcess (fst (Main.kill_and_forget s)) = None.
Proof.
  unfold Main.kill_and_forget.
  destruct (Main.ptyProcess s) eqn:E; cbn; [ reflexivity | exact E ].
Qed.

Lemma initializePty_spawns (c r : Z) (s : Main.State) :
  let s' := fst (Main.initializePty h c r s) in
  Main.ptyProcess s' = Some (List.length (Main.ptys s))
  /\ nth_error (Main.ptys s') (List.length (Main.ptys s))
     = Some {| Main.file := Main.getDefaultShell h;
               Main.args := if String.eqb (Main.platform h) "win32"
                            then [] else ["--login"%string];
               Main.name := "xterm-256color";
               Main.pty_size := pty_spawned c r;
               Main.cwd := Main.homedir h;
               Main.status := Main.Running;
               Main.input := [] |}
  /\ (forall i p, i <> List.length (Main.ptys s) ->
        nth_error (Main.ptys s') i = Some p ->
        Main.ptyProcess s = Some i -> Main.status p <> Main.Running)
  /\ (forall i, i <> List.length (Main.ptys s) ->
        Main.ptyProcess s <> Some i ->
        nth_error (Main.ptys s') i = nth_error (Main.ptys s) i).
Proof.
  unfold Main.initializePty. cbv zeta. cbn [fst].
  destruct (Main.ptyProcess s) as [j|] eqn:Ej; cbn.
  - rewrite update_nth_length. split; [ reflexivity | ]. split; [ | split ].
    + rewrite nth_error_app2; rewrite update_nth_length; [ | apply Nat.le_refl ].
      rewrite Nat.sub_diag. reflexivity.
    + intros i p Hi Hp Hj. injection Hj as <-.
      destruct (Nat.lt_ge_cases j (List.length (Main.ptys s))) as [Hlt | Hge].
      * rewrite nth_error_app1 in Hp by (rewrite update_nth_length; exact Hlt).
        rewrite update_nth_same in Hp.
        destruct (nth_error (Main.ptys s) j) as [q|]; [ | discriminate ].
        injection Hp as <-. apply killed_not_running.
      * rewrite nth_error_app2 in Hp by (rewrite update_nth_length; exact Hge).
        rewrite update_nth_length in Hp.
        destruct (j - List.length (Main.ptys s))%nat as [|k] eqn:Ek; [ lia | ].
        destruct k; discriminate.
    + intros i Hi Hij.
      destruct (Nat.lt_ge_cases i (List.length (Main.ptys s))) as [Hlt | Hge].
      * rewrite nth_error_app1 by (rewrite update_nth_length; exact Hlt).
        apply update_nth_other. congruence.
      * rewrite nth_error_app2 by (rewrite update_nth_length; exact Hge).
        rewrite update_nth_length.
        destruct (i - List.length (Main.ptys s))%nat as [|k] eqn:Ek; [ lia | ].
        symmetry. destruct k; cbn; apply nth_error_None; lia.
  - split; [ reflexivity | ]. split; [ | split ].
    + rewrite nth_error_app2 by apply Nat.le_refl.
      rewrite Nat.sub_diag. reflexivity.
    + intros i p _ _ Hj. discriminate.
    + intros i Hi _.
      destruct (Nat.lt_ge_cases i (List.length (Main.ptys s))) as [Hlt | Hge].
      * apply nth_error_app1, Hlt.
      * rewrite nth_error_app2 by exact Hge.
        destruct (i - List.length (Main.ptys s))%nat as [|k] eqn:Ek; [ lia | ].
        symmetry. destruct k; cbn; apply nth_error_None; lia.
Qed.

Lemma step_Referenced_running (e : Main.Event) (s : Main.State) :
  Referenced_running s ->
  Referenced_running (fst (Main.step h resize_throws e s)).
Proof.
  intros Hs. unfold Referenced_running in *.
  destruct e; cbn [Main.step].
  - destruct (Main.ready s); exact Hs.
  - destruct (Main.ready s && forallb Main.destroyed (Main.windows s)); exact Hs.
  - destruct (Main.live_window s win); [ | exact Hs ].
    destruct (Main.mainWindow _) as [m|]; [ | exact Hs ].
    destruct (nth_error _ m); exact Hs.
  - destruct (Main.live_window s win); [ | exact Hs ].
    rewrite kill_and_forget_forgets. exact I.
  - destruct (String.eqb (Main.platform h) "darwin"); exact Hs.
  - rewrite kill_and_forget_forgets. exact I.
  - unfold Main.ipc. destruct (Main.handler_of t channel) as [[ | | | ]|]; [ | | | exact Hs | exact Hs ].
    + destruct a; try exact Hs. cbn [fst].
      destruct (initializePty_spawns c r s) as (-> & -> & _).
      eexists. split; reflexivity.
    + destruct a; try exact Hs.
      destruct (Main.ptyProcess s) as [i|] eqn:Ei; [ | cbn [fst]; rewrite Ei; exact I ].
      cbn. rewrite Ei, update_nth_same.
      destruct Hs as (p & -> & Hp). eexists. split; [ reflexivity | exact Hp ].
    + destruct a; try exact Hs.
      destruct (Main.ptyProcess s) as [i|] eqn:Ei; [ | cbn [fst]; rewrite Ei; exact I ].
      destruct Hs as (p & Hn & Hp). rewrite Hn.
      destruct (resize_throws p c r); cbn; rewrite Ei.
      * exists p. split; assumption.
      * rewrite update_nth_same, Hn. eexists. split; [ reflexivity | exact Hp ].
  - destruct (nth_error (Main.ptys s) id); [ | exact Hs ].
    destruct (Main.window_alive s); exact Hs.
  - destruct (nth_error (Main.ptys s) id) as [p|]; [ | exact Hs ].
    destruct (Main.status p); try exact Hs; exact I.
Qed.

Lemma run_Referenced_running (es : list Main.Event) (s : Main.State) :
  Referenced_running s ->
  Referenced_running (fst (Main.run h resize_throws es s)).
Proof.
  revert s. induction es as [|e es IH]; intros s Hs; cbn [Main.run fst].
  - exact Hs.
  - apply IH, step_Referenced_running, Hs.
Qed.

End MainInvariants.

(** X10.  Whatever reaches the main process, in whatever order, it writes
    input to a PTY and asks a PTY to resize only while that PTY is running:
    spawned, not killed by the main process, and its exit not yet
    reported. *)
Theorem main_touches_only_running_pty
  (h : Main.Host) (resize_throws : Main.Pty -> Z -> Z -> bool)
  (es : list Main.Event) (e : Main.Event) (c : Main.Call) (i : nat) :
  let s := fst (Main.run h resize_throws es Main.initial) in
  In c (snd (Main.step h resize_throws e s)) ->
  pty_target c = Some i ->
  exists p, nth_error (Main.ptys s) i = Some p /\ Main.status p = Main.Running.
Proof.
  intros s.
  assert (Hs : Referenced_running s)
    by (apply run_Referenced_running; exact I).
  clearbody s. unfold Referenced_running in Hs.
  intros Hin Ht.
  destruct e; cbn [Main.step] in Hin.
  - destruct (Main.ready s); cbn in Hin; [ contradiction | ].
    destruct Hin as [<- | [<- | Hin]]; try discriminate.
    destruct (match Main.env h "NODE_ENV" with Some v => String.eqb v "development" | None => false end);
      cbn in Hin; [ destruct Hin as [<- | []]; discriminate | contradiction ].
  - destruct (Main.ready s && forallb Main.destroyed (Main.windows s));
      cbn in Hin; [ | contradiction ].
    destruct Hin as [<- | [<- | Hin]]; try discriminate.
    destruct (match Main.env h "NODE_ENV" with Some v => String.eqb v "development" | None => false end);
      cbn in Hin; [ destruct Hin as [<- | []]; discriminate | contradiction ].
  - destruct (Main.live_window s win); [ | contradiction ].
    destruct (Main.mainWindow _) as [m|]; [ | contradiction ].
    destruct (nth_error _ m); [ | contradiction ].
    destruct Hin as [<- | []]. discriminate.
  - destruct (Main.live_window s win); [ | contradiction ].
    unfold Main.kill_and_forget in Hin. cbn in Hin.
    destruct (Main.ptyProcess s); cbn in Hin; [ | contradiction ].
    destruct Hin as [<- | []]. discriminate.
  - destruct (String.eqb (Main.platform h) "darwin"); [ contradiction | ].
    destruct Hin as [<- | []]. discriminate.
  - unfold Main.kill_and_forget in Hin.
    destruct (Main.ptyProcess s); cbn in Hin; [ | contradiction ].
    destruct Hin as [<- | []]. discriminate.
  - unfold Main.ipc in Hin.
    destruct (Main.handler_of t channel) as [[ | | | ]|]; [ | | | | contradiction ].
    + destruct a; try contradiction. cbn [snd] in Hin.
      unfold Main.initializePty in Hin. cbv zeta in Hin. cbn [snd] in Hin.
      rewrite !in_app_iff in Hin.
      destruct Hin as [[Hin | Hin] | Hin].
      * destruct (Main.ptyProcess s); [ | contradiction ].
        destruct Hin as [<- | []]. discriminate.
      * destruct Hin as [<- | []]. discriminate.
      * destruct Hin as [<- | []]. discriminate.
    + destruct a; try contradiction.
      destruct (Main.ptyProcess s) as [j|]; [ | contradiction ].
      destruct Hin as [<- | []]. cbn in Ht. injection Ht as <-. exact Hs.
    + destruct a; try contradiction.
      destruct (Main.ptyProcess s) as [j|]; [ | contradiction ].
      destruct Hs as (p & Hn & Hp). rewrite Hn in Hin.
      destruct (resize_throws p c0 r); cbn in Hin.
      * destruct Hin as [<- | [<- | []]]; [ | discriminate ].
        cbn in Ht. injection Ht as <-. exists p. split; assumption.
      * destruct Hin as [<- | []].
        cbn in Ht. injection Ht as <-. exists p. split; assumption.
    + destruct Hin as [<- | []]. discriminate.
  - destruct (nth_error (Main.ptys s) id); [ | contradiction ].
    destruct (Main.window_alive s); [ | contradiction ].
    destruct Hin as [<- | []]. discriminate.
  - destruct (nth_error (Main.ptys s) id) as [p|]; [ | contradiction ].
    destruct (Main.status p); try contradiction;
      cbn in Hin; destruct Hin as [<- | Hin]; try discriminate;
      apply in_app_iff in Hin; destruct Hin as [Hin | Hin];
      try (destruct (Main.window_alive s); [ destruct Hin as [<- | []]; discriminate | contradiction ]);
      destruct Hin as [<- | []]; discriminate.
Qed.

(** ** One PTY at a time *)

Section SinglePty.
Variable h : Main.Host.
Variable resize_throws : Main.Pty -> Z -> Z -> bool.

Lemma step_Unspawned (e : Main.Event) (s : Main.State) :
  is_init_request e = false -> Unspawned s ->
  Unspawned (fst (Main.step h resize_throws e s)).
Proof.
  intros He [Hp Hr]. unfold Unspawned.
  destruct e; cbn [Main.step].
  - destruct (Main.ready s); split; assumption.
  - destruct (Main.ready s && forallb Main.destroyed (Main.windows s));
      split; assumption.
  - destruct (Main.live_window s win); [ | split; assumption ].
    destruct (Main.mainWindow _) as [m|]; [ | split; assumption ].
    destruct (nth_error _ m); split; assumption.
  - destruct (Main.live_window s win); [ | split; assumption ].
    unfold Main.kill_and_forget. cbn. rewrite Hr. split; assumption.
  - destruct (String.eqb (Main.platform h) "darwin"); split; assumption.
  - unfold Main.kill_and_forget. rewrite Hr. split; assumption.
  - unfold Main.ipc. cbn in He.
    destruct (Main.handler_of t channel) as [[ | | | ]|];
      try discriminate; try (split; assumption).
    + destruct a; try (split; assumption). rewrite Hr. split; assumption.
    + destruct a; try (split; assumption). rewrite Hr. split; assumption.
  - rewrite Hp. destruct id; split; assumption.
  - rewrite Hp. destruct id; split; assumption.
Qed.

Lemma step_Sole (e : Main.Event) (s : Main.State) :
  is_init_request e = false -> Sole s ->
  Sole (fst (Main.step h resize_throws e s)).
Proof.
  intros He (p & Hp & Hs). unfold Sole.
  destruct e; cbn [Main.step].
  - destruct (Main.ready s); exists p; split; assumption.
  - destruct (Main.ready s && forallb Main.destroyed (Main.windows s));
      exists p; split; assumption.
  - destruct (Main.live_window s win); [ | exists p; split; assumption ].
    destruct (Main.mainWindow _) as [m|]; [ | exists p; split; assumption ].
    destruct (nth_error _ m); exists p; split; assumption.
  - destruct (Main.live_window s win); [ | exists p; split; assumption ].
    unfold Main.kill_and_forget. cbn.
    destruct Hs as [[Hr Hst] | [Hr Hst]]; rewrite Hr; cbn.
    + rewrite Hp. cbn. exists (Main.killed p). split; [ reflexivity | ].
      right. split; [ reflexivity | apply killed_not_running ].
    + exists p. split; [ exact Hp | right; split; assumption ].
  - destruct (String.eqb (Main.platform h) "darwin"); exists p; split; assumption.
  - unfold Main.kill_and_forget.
    destruct Hs as [[Hr Hst] | [Hr Hst]]; rewrite Hr; cbn.
    + rewrite Hp. cbn. exists (Main.killed p). split; [ reflexivity | ].
      right. split; [ reflexivity | apply killed_not_running ].
    + exists p. split; [ exact Hp | right; split; assumption ].
  - unfold Main.ipc. cbn in He.
    destruct (Main.handler_of t channel) as [[ | | | ]|];
      try discriminate; try (exists p; split; assumption).
    + destruct a; try (exists p; split; assumption).
      destruct Hs as [[Hr Hst] | [Hr Hst]]; rewrite Hr; cbn.
      * rewrite Hp. cbn. exists (Main.with_input d p). split; [ reflexivity | ].
        left. split; [ exact Hr | exact Hst ].
      * exists p. split; [ exact Hp | right; split; assumption ].
    + destruct a; try (exists p; split; assumption).
      destruct Hs as [[Hr Hst] | [Hr Hst]]; rewrite Hr; cbn.
      * rewrite Hp. cbn. destruct (resize_throws p c r); cbn.
        -- exists p. split; [ exact Hp | left; split; assumption ].
        -- exists (Main.with_size (mkGridSize c r) p).
           split; [ reflexivity | left; split; assumption ].
      * exists p. split; [ exact Hp | right; split; assumption ].
  - rewrite Hp. destruct id as [|[|id]]; cbn;
      try (exists p; split; assumption).
    destruct (Main.window_alive s); exists p; split; assumption.
  - rewrite Hp. destruct id as [|[|id]]; cbn;
      try (exists p; split; assumption).
    destruct (Main.status p) eqn:Est; cbn.
    + exists (Main.with_status Main.Exited p).
      split; [ reflexivity | right; split; [ reflexivity | discriminate ] ].
    + exists (Main.with_status Main.Exited p).
      split; [ reflexivity | right; split; [ reflexivity | discriminate ] ].
    + exists p. split; [ exact Hp | rewrite Est; exact Hs ].
Qed.

Lemma init_Sole (e : Main.Event) (s : Main.State) :
  is_init_request e = true -> Unspawned s ->
  Unspawned (fst (Main.step h resize_throws e s))
  \/ Sole (fst (Main.step h resize_throws e s)).
Proof.
  intros He [Hp Hr].
  destruct e; try discriminate. cbn [Main.step]. unfold Main.ipc. cbn in He.
  destruct (Main.handler_of t channel) as [[ | | | ]|]; try discriminate.
  destruct a; try (left; split; assumption).
  right. unfold Main.initializePty. cbv zeta. rewrite Hr. cbn. rewrite Hp. cbn.
  eexists. split; [ reflexivity | left; split; reflexivity ].
Qed.

Lemma run_Sole (es : list Main.Event) (s : Main.State) :
  init_requests es = 0%nat -> Sole s ->
  Sole (fst (Main.run h resize_throws es s)).
Proof.
  revert s. induction es as [|e es IH]; intros s Hn Hs; cbn [Main.run fst].
  - exact Hs.
  - unfold init_requests in Hn. cbn [filter] in Hn.
    destruct (is_init_request e) eqn:He; [ discriminate | ].
    apply IH; [ exact Hn | apply step_Sole; assumption ].
Qed.

Lemma run_Unspawned (es : list Main.Event) (s : Main.State) :
  (init_requests es <= 1)%nat -> Unspawned s ->
  Unspawned (fst (Main.run h resize_throws es s))
  \/ Sole (fst (Main.run h resize_throws es s)).
Proof.
  revert s. induction es as [|e es IH]; intros s Hn Hs; cbn [Main.run fst].
  - left. exact Hs.
  - unfold init_requests in Hn. cbn [filter] in Hn.
    destruct (is_init_request e) eqn:He.
    + cbn [List.length] in Hn.
      destruct (init_Sole e s He Hs) as [Hu | Ho].
      * apply IH; [ unfold init_requests; lia | exact Hu ].
      * right. apply run_Sole; [ unfold init_requests; lia | exact Ho ].
    + apply IH; [ exact Hn | apply step_Unspawned; assumption ].
Qed.

End SinglePty.

(** X11.  As long as the renderer asks for a PTY at most once, the main process
    refers to every PTY that is running: there is at most one, and closing
    the window or quitting kills it. *)
Theorem single_init_leaves_no_orphan
  (h : Main.Host) (resize_throws : Main.Pty -> Z -> Z -> bool)
  (es : list Main.Event) :
  (init_requests es <= 1)%nat ->
  let s := fst (Main.run h resize_throws es Main.initial) in
  (List.length (Main.ptys s) <= 1)%nat
  /\ (forall (i : nat) (p : Main.Pty),
         nth_error (Main.ptys s) i = Some p -> Main.status p = Main.Running ->
         Main.ptyProcess s = Some i)
  /\ (forall (i : nat) (p : Main.Pty),
         nth_error (Main.ptys (fst (Main.step h resize_throws Main.EvBeforeQuit s))) i
         = Some p ->
         Main.status p <> Main.Running).
Proof.
  intros Hn s.
  assert (Hs : Unspawned s \/ Sole s)
    by (apply run_Unspawned; [ exact Hn | split; reflexivity ]).
  clearbody s. destruct Hs as [[Hp Hr] | (p & Hp & Hs)].
  - rewrite Hp. split; [ cbn; lia | ]. split.
    + intros [|i] q Hq; discriminate.
    + cbn [Main.step]. unfold Main.kill_and_forget. rewrite Hr. cbn. rewrite Hp.
      intros [|i] q Hq; discriminate.
  - rewrite Hp. split; [ cbn; lia | ]. split.
    + intros [|[|i]] q Hq Hst; try discriminate.
      injection Hq as <-. destruct Hs as [[Hr _] | [_ Hn']]; [ exact Hr | congruence ].
    + cbn [Main.step]. unfold Main.kill_and_forget.
      destruct Hs as [[Hr Hst] | [Hr Hst]]; rewrite Hr; cbn; rewrite Hp.
      * intros [|[|i]] q Hq; try discriminate.
        injection Hq as <-. apply killed_not_running.
      * intros [|[|i]] q Hq; try discriminate.
        injection Hq as <-. exact Hst.
Qed.

Lemma single_init_leaves_no_orphan_witness :
  (List.length (Main.ptys main_started) <= 1)%nat
  /\ (forall (i : nat) (p : Main.Pty),
         nth_error (Main.ptys main_started) i = Some p ->
         Main.status p = Main.Running ->
         Main.ptyProcess main_started = Some i)
  /\ (forall (i : nat) (p : Main.Pty),
         nth_error (Main.ptys (fst (Main.step linux_host strict_resize
                                      Main.EvBeforeQuit main_started))) i
         = Some p ->
         Main.status p <> Main.Running).
Proof.
  apply (single_init_leaves_no_orphan linux_host strict_resize
           [Main.EvReady;
            Main.EvIpc Main.Invoke "terminal:init" (Main.SizeArgs 80 30)]).
  vm_compute. lia.
Defined.

Lemma main_touches_only_running_pty_witness :
  exists p, nth_error (Main.ptys main_started) 0 = Some p
            /\ Main.status p = Main.Running.
Proof.
  apply (main_touches_only_running_pty linux_host strict_resize
           [Main.EvReady;
            Main.EvIpc Main.Invoke "terminal:init" (Main.SizeArgs 80 30)]
           (Main.EvIpc Main.Send "terminal:input" (Main.DataArg "ls"))
           (Main.pty_write 0 "ls") 0).
  - vm_compute. left. reflexivity.
  - reflexivity.
Defined.

(** ** A PTY exit reported late *)

(** X12.  The exit handler of every PTY clears the one reference the main
    process keeps.  When the exit of a PTY other than the referenced one is
    reported -- the PTY killed by a second "terminal:init" -- the reference
    to the running PTY is dropped, the application is told to quit, and the
    "before-quit" handler then finds nothing to kill: the running PTY is
    left as it is. *)
Theorem stale_exit_forgets_running_pty
  (h : Main.Host) (resize_throws : Main.Pty -> Z -> Z -> bool)
  (s : Main.State) (i j : nat) (p q : Main.Pty)
  (exitCode : Z) (signal : option Z) :
  Main.ptyProcess s = Some j -> i <> j ->
  nth_error (Main.ptys s) i = Some p -> Main.status p <> Main.Exited ->
  nth_error (Main.ptys s) j = Some q -> Main.status q = Main.Running ->
  let r := Main.step h resize_throws (Main.EvPtyExit i exitCode signal) s in
  Main.ptyProcess (fst r) = None
  /\ nth_error (Main.ptys (fst r)) j = Some q
  /\ In Main.app_quit (snd r)
  /\ Main.step h resize_throws Main.EvBeforeQuit (fst r) = (fst r, []).
Proof.
  intros Hr Hij Hp Hst Hq Hrun r. subst r. cbn [Main.step]. rewrite Hp.
  assert (E : match Main.status p with
              | Main.Exited => (s, [])
              | _ =>
                  (Main.set_ptyProcess None
                     (Main.set_ptys
                        (Main.update_nth i (Main.with_status Main.Exited) (Main.ptys s)) s),
                   Main.console_log exitCode signal
                   :: match Main.window_alive s with
                      | Some w => [Main.webContents_send w "terminal:exit"
                                     (Main.ExitArgs exitCode signal)]
                      | None => []
                      end ++ [Main.app_quit])
              end
              = (Main.set_ptyProcess None
                   (Main.set_ptys
                      (Main.update_nth i (Main.with_status Main.Exited) (Main.ptys s)) s),
                 Main.console_log exitCode signal
                 :: match Main.window_alive s with
                    | Some w => [Main.webContents_send w "terminal:exit"
                                   (Main.ExitArgs exitCode signal)]
                    | None => []
                    end ++ [Main.app_quit])).
  { destruct (Main.status p); [ reflexivity | reflexivity | congruence ]. }
  rewrite E. cbn [fst snd]. split; [ reflexivity | ]. split; [ | split ].
  - cbn. rewrite update_nth_other by exact Hij. exact Hq.
  - right. apply in_app_iff. right. left. reflexivity.
  - reflexivity.
Qed.

Lemma stale_exit_forgets_running_pty_witness :
  Main.ptyProcess
    (fst (Main.step linux_host strict_resize (Main.EvPtyExit 0 0 (Some 1))
            twice_initialised)) = None
  /\ option_map Main.status
       (nth_error
          (Main.ptys (fst (Main.step linux_host strict_resize
                             (Main.EvPtyExit 0 0 (Some 1)) twice_initialised))) 1)
     = Some Main.Running.
Proof.
  assert (Hq : exists q, nth_error (Main.ptys twice_initialised) 1 = Some q
                         /\ Main.status q = Main.Running)
    by (vm_compute; eexists; split; reflexivity).
  assert (Hp : exists p, nth_error (Main.ptys twice_initialised) 0 = Some p
                         /\ Main.status p <> Main.Exited)
    by (vm_compute; eexists; split; [ reflexivity | discriminate ]).
  destruct Hq as (q & Hq & Hrun). destruct Hp as (p & Hp & Hst).
  destruct (stale_exit_forgets_running_pty linux_host strict_resize
              twice_initialised 0 1 p q 0 (Some 1)
              ltac:(vm_compute; reflexivity) ltac:(discriminate)
              Hp Hst Hq Hrun) as (H1 & H2 & _).
  split; [ exact H1 | ]. rewrite H2. cbn. rewrite Hrun. reflexivity.
Defined.

(** ** Channels *)

(** X13.  Every request a function of [terminalAPI] sends is received by the
    handler meant for it: the channel names and the transports (invoke with
    handle, send with on) of preload.ts and main.ts agree. *)
Theorem requests_reach_their_handlers :
  (forall c r : Z,
      option_map (fun m => Main.handler_of (Preload.transport m) (Preload.channel m))
        (Preload.request (App.terminalAPI_init c r)) = Some (Some Main.on_init))
  /\ (forall d : string,
         option_map (fun m => Main.handler_of (Preload.transport m) (Preload.channel m))
           (Preload.request (App.terminalAPI_write d)) = Some (Some Main.on_input))
  /\ (forall c r : Z,
         option_map (fun m => Main.handler_of (Preload.transport m) (Preload.channel m))
           (Preload.request (App.terminalAPI_resize c r)) = Some (Some Main.on_resize))
  /\ Main.handler_of (Preload.transport Preload.getProcessId)
       (Preload.channel Preload.getProcessId) = Some Main.on_get_process_id.
Proof. repeat split. Qed.

(** X14.  Every message the main process sends to the renderer, whatever
    happens to it, is on a channel that a function of [terminalAPI] listens
    on, with the payload that listener expects. *)
Theorem messages_reach_their_listeners
  (h : Main.Host) (resize_throws : Main.Pty -> Z -> Z -> bool)
  (e : Main.Event) (s : Main.State) (channel : string) (payload : Main.IpcArgs) :
  In (channel, payload) (sent (snd (Main.step h resize_throws e s))) ->
  Preload.deliver channel payload <> None.
Proof.
  intros Hin. destruct e; cbn [Main.step] in Hin.
  - destruct (Main.ready s); cbn in Hin; [ contradiction | ].
    destruct (match Main.env h "NODE_ENV" with Some v => String.eqb v "development" | None => false end);
      cbn in Hin; contradiction.
  - destruct (Main.ready s && forallb Main.destroyed (Main.windows s));
      cbn in Hin; [ | contradiction ].
    destruct (match Main.env h "NODE_ENV" with Some v => String.eqb v "development" | None => false end);
      cbn in Hin; contradiction.
  - destruct (Main.live_window s win); [ | contradiction ].
    destruct (Main.mainWindow _) as [m|]; [ | contradiction ].
    destruct (nth_error _ m); [ | contradiction ].
    destruct Hin as [E | []]. injection E as <- <-. discriminate.
  - destruct (Main.live_window s win); [ | contradiction ].
    unfold Main.kill_and_forget in Hin. cbn in Hin.
    destruct (Main.ptyProcess s); cbn in Hin; contradiction.
  - destruct (String.eqb (Main.platform h) "darwin"); cbn in Hin; contradiction.
  - unfold Main.kill_and_forget in Hin.
    destruct (Main.ptyProcess s); cbn in Hin; contradiction.
  - unfold Main.ipc in Hin.
    destruct (Main.handler_of t channel0) as [[ | | | ]|]; [ | | | | contradiction ].
    + destruct a; try contradiction. cbn [snd] in Hin.
      unfold Main.initializePty in Hin. cbv zeta in Hin. cbn [snd] in Hin.
      destruct (Main.ptyProcess s); cbn in Hin; contradiction.
    + destruct a; try contradiction.
      destruct (Main.ptyProcess s); cbn in Hin; contradiction.
    + destruct a; try contradiction.
      destruct (Main.ptyProcess s) as [j|]; [ | contradiction ].
      destruct (nth_error (Main.ptys s) j) as [p|]; [ | contradiction ].
      destruct (resize_throws p c r); cbn in Hin; contradiction.
    + cbn in Hin. contradiction.
  - destruct (nth_error (Main.ptys s) id); [ | contradiction ].
    destruct (Main.window_alive s); [ | contradiction ].
    destruct Hin as [E | []]. injection E as <- <-. discriminate.
  - destruct (nth_error (Main.ptys s) id) as [p|]; [ | contradiction ].
    destruct (Main.status p); try contradiction;
      (destruct (Main.window_alive s); cbn in Hin;
       [ destruct Hin as [E | []]; injection E as <- <-; discriminate
       | contradiction ]).
Qed.

Lemma messages_reach_their_listeners_witness :
  Preload.deliver "terminal:data" (Main.DataArg "ls") <> None.
Proof.
  apply (messages_reach_their_listeners linux_host strict_resize
           (Main.EvPtyData 0 "ls") main_started).
  vm_compute. left. reflexivity.
Defined.

(** X15.  A call of [terminalAPI.init(cols, rows)] with positive dimensions,
    as the main process receives it: a PTY of exactly that size is spawned
    with the default shell, it is running and it is the one the main
    process refers to from then on; the PTY referred to before, if any, has
    been killed. *)
Theorem init_request_spawns_pty
  (h : Main.Host) (resize_throws : Main.Pty -> Z -> Z -> bool)
  (s : Main.State) (c r : Z) :
  0 < c -> 0 < r ->
  exists e : Main.Event,
    forward (App.terminalAPI_init c r) = Some e
    /\ Main.ptyProcess (fst (Main.step h resize_throws e s))
       = Some (List.length (Main.ptys s))
    /\ nth_error (Main.ptys (fst (Main.step h resize_throws e s)))
         (List.length (Main.ptys s))
       = Some {| Main.file := Main.getDefaultShell h;
                 Main.args := if String.eqb (Main.platform h) "win32"
                              then [] else ["--login"%string];
                 Main.name := "xterm-256color";
                 Main.pty_size := mkGridSize c r;
                 Main.cwd := Main.homedir h;
                 Main.status := Main.Running;
                 Main.input := [] |}
    /\ (forall i p, i <> List.length (Main.ptys s) ->
          nth_error (Main.ptys (fst (Main.step h resize_throws e s))) i = Some p ->
          Main.ptyProcess s = Some i -> Main.status p <> Main.Running).
Proof.
  intros Hc Hr. eexists. split; [ reflexivity | ].
  cbn [Main.step Preload.transport Preload.channel Preload.arguments].
  unfold Main.ipc. cbn [Main.handler_of String.eqb Ascii.eqb Bool.eqb]. cbn [fst].
  destruct (initializePty_spawns h c r s) as (H1 & H2 & H3 & _).
  rewrite (pty_spawned_positive c r Hc Hr) in H2.
  split; [ exact H1 | split; [ exact H2 | exact H3 ] ].
Qed.

Lemma init_request_spawns_pty_witness :
  exists e : Main.Event,
    forward (App.terminalAPI_init 100 30) = Some e
    /\ Main.ptyProcess (fst (Main.step linux_host strict_resize e main_started))
       = Some (List.length (Main.ptys main_started))
    /\ nth_error (Main.ptys (fst (Main.step linux_host strict_resize e main_started)))
         (List.length (Main.ptys main_started))
       = Some {| Main.file := Main.getDefaultShell linux_host;
                 Main.args := if String.eqb (Main.platform linux_host) "win32"
                              then [] else ["--login"%string];
                 Main.name := "xterm-256color";
                 Main.pty_size := mkGridSize 100 30;
                 Main.cwd := Main.homedir linux_host;
                 Main.status := Main.Running;
                 Main.input := [] |}
    /\ (forall i p, i <> List.length (Main.ptys main_started) ->
          nth_error (Main.ptys (fst (Main.step linux_host strict_resize e main_started))) i
          = Some p ->
          Main.ptyProcess main_started = Some i -> Main.status p <> Main.Running).
Proof.
  apply (init_request_spawns_pty linux_host strict_resize main_started 100 30); lia.
Defined.

(** ** From one process to the other *)

(** X16.  A chunk of output of a PTY, while the main process has a window and
    the renderer application is running as started (not disposed, the
    [init()] of start-up completed and no other): the main process sends it
    on, the bridge hands it to the application, and the application writes
    it to the terminal emulation exactly once. *)
Theorem pty_output_reaches_terminal `{GlyphAtlas}
  (h : Main.Host) (resize_throws : Main.Pty -> Z -> Z -> bool)
  (s : Main.State) (id win : nat) (p : Main.Pty) (d : string)
  (width height now : Z) (es : list App.Event) :
  nth_error (Main.ptys s) id = Some p ->
  Main.window_alive s = Some win ->
  forallb (fun e => negb (is_dispose e)) es = true ->
  completed_inits 1 es = 1%nat ->
  let w := App.state (App.run es (App.state (App.boot width height now))) in
  snd (renderer_receives
         (sent (snd (Main.step h resize_throws (Main.EvPtyData id d) s))) w)
  = [App.xterm_write (App.Data d)].
Proof.
  intros Hp Hw Hes Hi w. cbn [Main.step]. rewrite Hp, Hw. cbn [snd sent flat_map app].
  cbn [renderer_receives Preload.deliver String.eqb Ascii.eqb Bool.eqb snd].
  destruct (delivered_per_init width height now es d Hes) as [Hd _].
  fold w in Hd. rewrite Hd, Hi. reflexivity.
Qed.

Lemma pty_output_reaches_terminal_witness :
  snd (renderer_receives (H := terminus8x16)
         (sent (snd (Main.step linux_host strict_resize
                       (Main.EvPtyData 0 "ls") main_started)))
         (App.state (App.run (H := terminus8x16) [App.EvInitReply; App.EvFrame 1016]
            (App.state (App.boot (H := terminus8x16) 640 480 1000)))))
  = [App.xterm_write (App.Data "ls")].
Proof.
  assert (Hp : exists p, nth_error (Main.ptys main_started) 0 = Some p)
    by (vm_compute; eexists; reflexivity).
  destruct Hp as (p & Hp).
  apply (pty_output_reaches_terminal (H := terminus8x16) linux_host strict_resize
           main_started 0 0 p "ls" 640 480 1000
           [App.EvInitReply; App.EvFrame 1016] Hp).
  - vm_compute. reflexivity.
  - reflexivity.
  - reflexivity.
Defined.

(** X17.  A key stroke, while the renderer application is running as started
    and the main process refers to a PTY: the application sends it through
    the bridge exactly once, and the main process appends it to the input of
    that PTY and to no other. *)
Theorem keystroke_reaches_pty `{GlyphAtlas}
  (h : Main.Host) (resize_throws : Main.Pty -> Z -> Z -> bool)
  (s : Main.State) (i : nat) (p : Main.Pty) (d : string)
  (width height now : Z) (es : list App.Event) :
  Main.ptyProcess s = Some i ->
  nth_error (Main.ptys s) i = Some p ->
  forallb (fun e => negb (is_dispose e)) es = true ->
  completed_inits 1 es = 1%nat ->
  let w := App.state (App.run es (App.state (App.boot width height now))) in
  let r := main_receives h resize_throws (App.trace (App.step (App.EvKey d) w)) s in
  snd r = [Main.pty_write i d]
  /\ nth_error (Main.ptys (fst r)) i = Some (Main.with_input d p)
  /\ (forall j, j <> i -> nth_error (Main.ptys (fst r)) j = nth_error (Main.ptys s) j).
Proof.
  intros Hr Hp Hes Hi w.
  destruct (delivered_per_init width height now es d Hes) as [_ Hk].
  fold w in Hk. rewrite Hk, Hi. cbn [repeat main_receives forward Preload.request].
  cbn [Preload.transport Preload.channel Preload.arguments Main.step].
  unfold Main.ipc. cbn [Main.handler_of String.eqb Ascii.eqb Bool.eqb].
  rewrite Hr. cbn. split; [ reflexivity | ]. split.
  - rewrite update_nth_same, Hp. reflexivity.
  - intros j Hj. apply update_nth_other. congruence.
Qed.

Lemma keystroke_reaches_pty_witness :
  snd (main_receives linux_host strict_resize
         (App.trace (App.step (H := terminus8x16) (App.EvKey "q")
            (App.state (App.run (H := terminus8x16) [App.EvInitReply; App.EvFrame 1016]
               (App.state (App.boot (H := terminus8x16) 640 480 1000))))))
         main_started)
  = [Main.pty_write 0 "q"].
Proof.
  assert (Hp : exists p, nth_error (Main.ptys main_started) 0 = Some p)
    by (vm_compute; eexists; reflexivity).
  destruct Hp as (p & Hp).
  apply (keystroke_reaches_pty (H := terminus8x16) linux_host strict_resize
           main_started 0 p "q" 640 480 1000
           [App.EvInitReply; App.EvFrame 1016]).
  - vm_compute. reflexivity.
  - exact Hp.
  - reflexivity.
  - reflexivity.
Defined.

(** ** A window resize, there and back *)

Lemma main_receives_app (h : Main.Host) (resize_throws : Main.Pty -> Z -> Z -> bool)
  (t1 t2 : list App.Call) (s : Main.State) :
  main_receives h resize_throws (t1 ++ t2) s
  = (fst (main_receives h resize_throws t2
            (fst (main_receives h resize_throws t1 s))),
     snd (main_receives h resize_throws t1 s)
     ++ snd (main_receives h resize_throws t2
               (fst (main_receives h resize_throws t1 s)))).
Proof.
  revert s. induction t1 as [|c t1 IH]; intros s; cbn [app main_receives].
  - cbn. destruct (main_receives h resize_throws t2 s). reflexivity.
  - destruct (forward c) as [e|]; [ | apply IH ].
    cbn [fst snd]. rewrite IH. cbn [fst snd]. rewrite app_assoc. reflexivity.
Qed.

Lemma main_receives_local (h : Main.Host) (resize_throws : Main.Pty -> Z -> Z -> bool)
  (t : list App.Call) (s : Main.State) :
  Forall (fun c => forward c = None) t ->
  main_receives h resize_throws t s = (s, []).
Proof.
  induction 1 as [|c t Hc Ht IH]; cbn [main_receives].
  - reflexivity.
  - rewrite Hc. exact IH.
Qed.

Section ResizeRoundTrip.
Context `{GlyphAtlas}.

Lemma local_gridSizeChanged (c r : Z) (w : App.World) :
  Forall (fun c => forward c = None) (App.trace (App.gridSizeChanged c r w)).
Proof.
  unfold App.gridSizeChanged. rewrite trace_bind.
  cbn [App.trace App.value App.state App.get fst snd app].
  destruct ((c >? 0) && (r >? 0) && App.is_some (App.connector w)).
  - repeat constructor.
  - constructor.
Qed.

Lemma local_notifications (l : list Rasterizer.Notification) (w : App.World) :
  Forall (fun c => forward c = None)
    (App.trace (App.forEach l
       (fun n => App.gridSizeChanged (cols (snd n)) (rows (snd n))) w)).
Proof.
  revert w. induction l as [|n l IH]; intros w; cbn [App.forEach].
  - constructor.
  - rewrite trace_bind. apply Forall_app. split;
      [ apply local_gridSizeChanged | apply IH ].
Qed.

Lemma local_updateSize (width height : Z) (w : App.World) :
  Forall (fun c => forward c = None)
    (App.trace (App.terminalText_do_updateSize width height w)).
Proof.
  unfold App.terminalText_do_updateSize. rewrite trace_bind.
  cbn [App.trace App.value App.state App.get fst snd app]. cbv zeta.
  rewrite trace_bind. cbv beta. rewrite trace_bind. cbv beta.
  cbn [App.trace App.value App.state App.modify App.call fst snd app].
  constructor; [ reflexivity | apply local_notifications ].
Qed.

Lemma local_handleResize (w : App.World) :
  Forall (fun c => forward c = None) (App.trace (App.handleResize w)).
Proof.
  destruct (handleResize_state w) as (v & _ & ->). cbn [App.trace snd].
  constructor; [ reflexivity | ].
  apply Forall_app. split; [ apply local_updateSize | ].
  constructor; [ reflexivity | ].
  match goal with |- context [if ?b then _ else _] => destruct b end;
    repeat constructor.
Qed.

Lemma ipcWindowResized_result (w : App.World) :
  App.ipcWindowResized w
  = (tt,
     (if (cols (Rasterizer.getGridSize (App.terminalText (App.state (App.handleResize w)))) >? 0)
         && (rows (Rasterizer.getGridSize (App.terminalText (App.state (App.handleResize w)))) >? 0)
      then App.state (App.terminalAPI_do_resize
             (cols (Rasterizer.getGridSize (App.terminalText (App.state (App.handleResize w)))))
             (rows (Rasterizer.getGridSize (App.terminalText (App.state (App.handleResize w)))))
             (App.state (App.handleResize w)))
      else App.state (App.handleResize w)),
     App.trace (App.handleResize w)
     ++ (if (cols (Rasterizer.getGridSize (App.terminalText (App.state (App.handleResize w)))) >? 0)
            && (rows (Rasterizer.getGridSize (App.terminalText (App.state (App.handleResize w)))) >? 0)
         then [App.terminalAPI_resize
                 (cols (Rasterizer.getGridSize (App.terminalText (App.state (App.handleResize w)))))
                 (rows (Rasterizer.getGridSize (App.terminalText (App.state (App.handleResize w)))))]
         else [])).
Proof.
  unfold App.ipcWindowResized.
  set (r := App.handleResize w).
  assert (Hr : r = (tt, App.state r, App.trace r))
    by (destruct r as [[[] v] t]; reflexivity).
  set (v := App.state r) in *. set (t := App.trace r) in *. clearbody v t.
  subst r.
  apply (bind_result _ _ w v _ tt tt t _ Hr).
  apply (bind_result _ _ v v _ v tt [] _); [ reflexivity | ].
  cbv zeta.
  destruct ((cols (Rasterizer.getGridSize (App.terminalText v)) >? 0)
            && (rows (Rasterizer.getGridSize (App.terminalText v)) >? 0));
    reflexivity.
Qed.

Lemma one_listener_resized (w : App.World) :
  App.resizeWindowListeners (App.api w) = 1%nat ->
  App.state (App.step App.EvIpcWindowResize w) = App.state (App.ipcWindowResized w)
  /\ App.trace (App.step App.EvIpcWindowResize w) = App.trace (App.ipcWindowResized w).
Proof.
  intros H1. unfold App.step. rewrite state_bind, trace_bind.
  cbn [App.trace App.value App.state App.get fst snd app].
  rewrite H1. cbn [App.times]. rewrite state_bind, trace_bind.
  cbn [App.trace App.state App.ret fst snd]. rewrite app_nil_r.
  split; reflexivity.
Qed.

End ResizeRoundTrip.

Lemma main_window_resized
  (h : Main.Host) (resize_throws : Main.Pty -> Z -> Z -> bool)
  (s : Main.State) (win : nat) (width height : Z) :
  Main.mainWindow s = Some win -> Main.live_window s win = true ->
  Main.step h resize_throws (Main.EvWindowResize win width height) s
  = (Main.set_windows
       (Main.update_nth win (Main.resized width height) (Main.windows s)) s,
     [Main.webContents_send win "terminal:resize-window"
        (Main.SizeArgs width height)]).
Proof.
  intros Hm Hl. cbn [Main.step]. rewrite Hl.
  change (Main.mainWindow (Main.set_windows
            (Main.update_nth win (Main.resized width height) (Main.windows s)) s))
    with (Main.mainWindow s).
  rewrite Hm.
  change (Main.windows (Main.set_windows
            (Main.update_nth win (Main.resized width height) (Main.windows s)) s))
    with (Main.update_nth win (Main.resized width height) (Main.windows s)).
  rewrite update_nth_same. unfold Main.live_window in Hl.
  destruct (nth_error (Main.windows s) win); [ reflexivity | discriminate ].
Qed.

(** X18.  A resize of the window of the main process, while it is the main
    window, a PTY is referred to, the renderer application holds its
    connector and listens once: the main process tells the renderer, the
    renderer resizes the terminal emulation and asks for the PTY to be
    resized, and the main process resizes it.  If the grid the rasterizer
    reports is positive in both dimensions and node-pty accepts it, then at
    the end the PTY has exactly that grid size, and the terminal emulation
    its rows and its columns, or the 2 columns XTerm.js keeps when the grid
    has only one. *)
Theorem window_resize_round_trip `{GlyphAtlas}
  (h : Main.Host) (resize_throws : Main.Pty -> Z -> Z -> bool)
  (s : Main.State) (win i : nat) (p : Main.Pty) (w : App.World)
  (width height : Z) :
  Main.mainWindow s = Some win -> Main.live_window s win = true ->
  Main.ptyProcess s = Some i -> nth_error (Main.ptys s) i = Some p ->
  App.connector w <> None ->
  App.resizeWindowListeners (App.api w) = 1%nat ->
  let r1 := Main.step h resize_throws (Main.EvWindowResize win width height) s in
  let r2 := renderer_receives (sent (snd r1)) w in
  let r3 := main_receives h resize_throws (snd r2) (fst r1) in
  let g := Rasterizer.getGridSize (App.terminalText (fst r2)) in
  0 < cols g -> 0 < rows g -> resize_throws p (cols g) (rows g) = false ->
  App.x_size (App.xterm (fst r2)) = mkGridSize (Z.max (cols g) 2) (rows g)
  /\ option_map Main.pty_size (nth_error (Main.ptys (fst r3)) i) = Some g.
Proof.
  intros Hm Hl Hr Hp Hconn H1 r1 r2 r3 g.
  subst g r3 r2 r1.
  rewrite (main_window_resized h resize_throws s win width height Hm Hl).
  cbn [fst snd sent flat_map app].
  cbn [renderer_receives Preload.deliver String.eqb Ascii.eqb Bool.eqb fst snd].
  destruct (one_listener_resized w H1) as [-> ->].
  rewrite app_nil_r, ipcWindowResized_result.
  cbn [App.state App.trace fst snd].
  pose proof (handleResize_effect w Hconn) as He.
  pose proof (local_handleResize w) as Hloc.
  set (v := App.state (App.handleResize w)) in *.
  set (t := App.trace (App.handleResize w)) in *.
  clearbody v t.
  rewrite ipc_branch_terminalText.
  intros Hc Hrw Hthrow. destruct (He Hc Hrw) as (Hx & _ & _).
  replace (cols (Rasterizer.getGridSize (App.terminalText v)) >? 0) with true
    by (symmetry; apply Z.gtb_lt; exact Hc).
  replace (rows (Rasterizer.getGridSize (App.terminalText v)) >? 0) with true
    by (symmetry; apply Z.gtb_lt; exact Hrw).
  cbn [andb]. split; [ exact Hx | ].
  rewrite main_receives_app, (main_receives_local h resize_throws t _ Hloc).
  cbn [fst snd main_receives forward Preload.request].
  cbn [Preload.transport Preload.channel Preload.arguments Main.step].
  unfold Main.ipc. cbn [Main.handler_of String.eqb Ascii.eqb Bool.eqb].
  change (Main.ptyProcess (Main.set_windows
            (Main.update_nth win (Main.resized width height) (Main.windows s)) s))
    with (Main.ptyProcess s).
  change (Main.ptys (Main.set_windows
            (Main.update_nth win (Main.resized width height) (Main.windows s)) s))
    with (Main.ptys s).
  rewrite Hr, Hp, Hthrow. cbn [fst]. cbn [Main.ptys Main.set_ptys].
  rewrite update_nth_same, Hp. cbn.
  destruct (Rasterizer.getGridSize (App.terminalText v)); reflexivity.
Qed.

Lemma window_resize_round_trip_witness :
  App.x_size (App.xterm (fst (renderer_receives (H := terminus8x16)
     (sent (snd (Main.step linux_host strict_resize
                   (Main.EvWindowResize 0 800 480) main_started)))
     started_widened)))
  = mkGridSize 100 30
  /\ option_map Main.pty_size
       (nth_error
          (Main.ptys (fst (main_receives linux_host strict_resize
             (snd (renderer_receives (H := terminus8x16)
                (sent (snd (Main.step linux_host strict_resize
                              (Main.EvWindowResize 0 800 480) main_started)))
                started_widened))
             (fst (Main.step linux_host strict_resize
                     (Main.EvWindowResize 0 800 480) main_started))))) 0)
     = Some (mkGridSize 100 30).
Proof.
  assert (Hp : exists p, nth_error (Main.ptys main_started) 0 = Some p)
    by (vm_compute; eexists; reflexivity).
  destruct Hp as (p & Hp).
  assert (Hg : Rasterizer.getGridSize (App.terminalText
                 (fst (renderer_receives (H := terminus8x16)
                    (sent (snd (Main.step linux_host strict_resize
                                  (Main.EvWindowResize 0 800 480) main_started)))
                    started_widened)))
               = mkGridSize 100 30)
    by (vm_compute; reflexivity).
  destruct (window_resize_round_trip (H := terminus8x16) linux_host strict_resize
              main_started 0 0 p started_widened 800 480) as [Hx Hs].
  - vm_compute. reflexivity.
  - vm_compute. reflexivity.
  - vm_compute. reflexivity.
  - exact Hp.
  - vm_compute. discriminate.
  - vm_compute. reflexivity.
  - rewrite Hg. reflexivity.
  - rewrite Hg. reflexivity.
  - rewrite Hg. reflexivity.
  - rewrite Hx, Hs, Hg. split; reflexivity.
Defined.


(** ** The one window *)

(** A handler that returns the state it was given. *)
Ltac same :=
  match goal with
  | H : One_window ?s |- One_window _ => exact H
  end.

Section OneWindow.
Variable h : Main.Host.
Variable resize_throws : Main.Pty -> Z -> Z -> bool.

Lemma live_window_bound (s : Main.State) (m : nat) :
  Main.live_window s m = true -> (m < List.length (Main.windows s))%nat.
Proof.
  unfold Main.live_window. intros Hl.
  apply nth_error_Some. destruct (nth_error (Main.windows s) m); congruence.
Qed.

Lemma createWindow_One_window (s : Main.State) :
  Main.ready s = true ->
  forallb Main.destroyed (Main.windows s) = true ->
  One_window (fst (Main.createWindow h s)).
Proof.
  intros Hr Hall. split.
  - cbn. congruence.
  - intros m. unfold Main.live_window. cbn.
    destruct (Nat.lt_ge_cases m (List.length (Main.windows s))) as [Hlt | Hge].
    + rewrite nth_error_app1 by exact Hlt.
      destruct (nth_error (Main.windows s) m) as [bw|] eqn:En.
      * rewrite forallb_forall in Hall.
        rewrite (Hall bw (nth_error_In _ _ En)). cbn.
        split; [ discriminate | ]. intros E. injection E as E. lia.
      * split; [ discriminate | ]. intros E. injection E as E. lia.
    + rewrite nth_error_app2 by exact Hge.
      destruct (m - List.length (Main.windows s))%nat as [|k] eqn:Ek.
      * cbn. split; [ intros _; f_equal; lia | reflexivity ].
      * destruct k; cbn; (split; [ discriminate | ]);
          intros E; injection E as E; lia.
Qed.

Lemma One_window_ext (s s' : Main.State) :
  Main.ready s' = Main.ready s -> Main.windows s' = Main.windows s ->
  Main.mainWindow s' = Main.mainWindow s ->
  One_window s -> One_window s'.
Proof.
  intros Er Ew Em [H0 H1]. split.
  - rewrite Er, Ew. exact H0.
  - intros m. unfold Main.live_window. rewrite Ew, Em. apply H1.
Qed.

Lemma kill_and_forget_One_window (s : Main.State) :
  One_window s -> One_window (fst (Main.kill_and_forget s)).
Proof.
  intros Hs. unfold Main.kill_and_forget.
  destruct (Main.ptyProcess s); cbn [fst]; [ | exact Hs ].
  apply (One_window_ext s); [ reflexivity | reflexivity | reflexivity | exact Hs ].
Qed.

Lemma step_One_window (e : Main.Event) (s : Main.State) :
  One_window s -> One_window (fst (Main.step h resize_throws e s)).
Proof.
  intros [H0 H1].
  assert (Hkeep : forall s', Main.ready s' = Main.ready s ->
                             Main.windows s' = Main.windows s ->
                             Main.mainWindow s' = Main.mainWindow s ->
                             One_window s').
  { intros s' Er Ew Em. split.
    - rewrite Er, Ew. exact H0.
    - intros m. unfold Main.live_window. rewrite Ew, Em. apply H1. }
  assert (Hsame : One_window s) by (split; assumption).
  destruct e; cbn [Main.step].
  - destruct (Main.ready s) eqn:Er; [ same | ].
    apply createWindow_One_window; [ reflexivity | ].
    cbn. rewrite (H0 eq_refl). reflexivity.
  - destruct (Main.ready s && forallb Main.destroyed (Main.windows s)) eqn:Ec;
      [ | same ].
    apply andb_true_iff in Ec. destruct Ec as [Er Ea].
    apply createWindow_One_window; assumption.
  - destruct (Main.live_window s win) eqn:El; [ | same ].
    assert (Hs1 : One_window
              (Main.set_windows
                 (Main.update_nth win (Main.resized width height) (Main.windows s)) s)).
    { split.
      - cbn. intros Er. pose proof (live_window_bound s win El) as Hb.
        rewrite (H0 Er) in Hb. cbn in Hb. lia.
      - intros m. rewrite <- H1. unfold Main.live_window. cbn.
        destruct (Nat.eq_dec win m) as [<- | Hne].
        + rewrite update_nth_same.
          destruct (nth_error (Main.windows s) win); reflexivity.
        + rewrite update_nth_other by exact Hne. reflexivity. }
    destruct (Main.mainWindow _) as [m|]; [ | exact Hs1 ].
    destruct (nth_error _ m); exact Hs1.
  - destruct (Main.live_window s win) eqn:El; [ | same ].
    assert (Hs1 : One_window
              (Main.set_mainWindow None
                 (Main.set_windows
                    (Main.update_nth win Main.closed (Main.windows s)) s))).
    { split.
      - cbn. intros Er. pose proof (live_window_bound s win El) as Hb.
        rewrite (H0 Er) in Hb. cbn in Hb. lia.
      - intros m. unfold Main.live_window. cbn.
        split; [ | discriminate ].
        destruct (Nat.eq_dec win m) as [<- | Hne].
        + rewrite update_nth_same.
          destruct (nth_error (Main.windows s) win); cbn; discriminate.
        + rewrite update_nth_other by exact Hne. intros Hlm.
          assert (Hm : Main.live_window s m = true) by exact Hlm.
          apply H1 in Hm. apply H1 in El. congruence. }
    apply kill_and_forget_One_window, Hs1.
  - destruct (String.eqb (Main.platform h) "darwin"); same.
  - apply kill_and_forget_One_window, Hsame.
  - unfold Main.ipc.
    destruct (Main.handler_of t channel) as [[ | | | ]|]; try (same).
    + destruct a; try (same). cbn [fst].
      apply Hkeep; unfold Main.initializePty; cbv zeta;
        destruct (Main.ptyProcess s); reflexivity.
    + destruct a; try (same).
      destruct (Main.ptyProcess s); [ | same ].
      apply Hkeep; reflexivity.
    + destruct a; try (same).
      destruct (Main.ptyProcess s) as [j|]; [ | same ].
      destruct (nth_error (Main.ptys s) j) as [p|]; [ | same ].
      destruct (resize_throws p c r); [ same | ].
      apply Hkeep; reflexivity.
  - destruct (nth_error (Main.ptys s) id); [ | same ].
    destruct (Main.window_alive s); same.
  - destruct (nth_error (Main.ptys s) id) as [p|]; [ | same ].
    destruct (Main.status p); try (same);
      apply Hkeep; reflexivity.
Qed.

Lemma run_One_window (es : list Main.Event) (s : Main.State) :
  One_window s -> One_window (fst (Main.run h resize_throws es s)).
Proof.
  revert s. induction es as [|e es IH]; intros s Hs; cbn [Main.run fst].
  - exact Hs.
  - apply IH, step_One_window, Hs.
Qed.

Lemma initial_One_window : One_window Main.initial.
Proof.
  split; [ reflexivity | ].
  intros m. unfold Main.live_window. cbn.
  destruct m; split; discriminate.
Qed.

End OneWindow.

(** X19.  The main process never has two windows: whatever happens, a window is
    alive exactly when it is the one [mainWindow] refers to, so "activate"
    opens a window only when there is none and "closed" always clears the
    right reference. *)
Theorem main_has_one_window
  (h : Main.Host) (resize_throws : Main.Pty -> Z -> Z -> bool)
  (es : list Main.Event) (m1 m2 : nat) :
  let s := fst (Main.run h resize_throws es Main.initial) in
  (Main.live_window s m1 = true <-> Main.mainWindow s = Some m1)
  /\ (Main.live_window s m1 = true -> Main.live_window s m2 = true -> m1 = m2).
Proof.
  intros s.
  assert (Hs : One_window s) by (apply run_One_window, initial_One_window).
  clearbody s. destruct Hs as [_ H1]. split; [ apply H1 | ].
  intros L1 L2. apply H1 in L1. apply H1 in L2. congruence.
Qed.

(** X20.  The main process sends messages only to a window that is alive: PTY
    output, a PTY's exit and window resizes are never sent to a window that
    has been closed. *)
Theorem main_sends_only_to_live_window
  (h : Main.Host) (resize_throws : Main.Pty -> Z -> Z -> bool)
  (es : list Main.Event) (e : Main.Event) (c : Main.Call) (win : nat) :
  let s := fst (Main.run h resize_throws es Main.initial) in
  In c (snd (Main.step h resize_throws e s)) ->
  send_target c = Some win ->
  Main.live_window s win = true.
Proof.
  intros s.
  assert (Hs : One_window s) by (apply run_One_window, initial_One_window).
  clearbody s. destruct Hs as [_ H1].
  assert (Halive : forall w, Main.window_alive s = Some w -> Main.live_window s w = true).
  { unfold Main.window_alive, Main.live_window. intros w.
    destruct (Main.mainWindow s) as [m|]; [ | discriminate ].
    destruct (nth_error (Main.windows s) m) as [bw|] eqn:En; [ | discriminate ].
    destruct (Main.destroyed bw) eqn:Ed; [ discriminate | ].
    intros E. injection E as <-. rewrite En, Ed. reflexivity. }
  intros Hin Ht.
  destruct e; cbn [Main.step] in Hin.
  - destruct (Main.ready s); cbn in Hin; [ contradiction | ].
    destruct Hin as [<- | [<- | Hin]]; try discriminate.
    destruct (match Main.env h "NODE_ENV" with Some v => String.eqb v "development" | None => false end);
      cbn in Hin; [ destruct Hin as [<- | []]; discriminate | contradiction ].
  - destruct (Main.ready s && forallb Main.destroyed (Main.windows s));
      cbn in Hin; [ | contradiction ].
    destruct Hin as [<- | [<- | Hin]]; try discriminate.
    destruct (match Main.env h "NODE_ENV" with Some v => String.eqb v "development" | None => false end);
      cbn in Hin; [ destruct Hin as [<- | []]; discriminate | contradiction ].
  - destruct (Main.live_window s win0) eqn:El; [ | contradiction ].
    change (Main.mainWindow (Main.set_windows
              (Main.update_nth win0 (Main.resized width height) (Main.windows s)) s))
      with (Main.mainWindow s) in Hin.
    destruct (Main.mainWindow s) as [m|] eqn:Em; [ | contradiction ].
    destruct (nth_error _ m); [ | contradiction ].
    destruct Hin as [<- | []]. cbn in Ht. injection Ht as <-.
    apply H1. reflexivity.
  - destruct (Main.live_window s win0); [ | contradiction ].
    unfold Main.kill_and_forget in Hin. cbn in Hin.
    destruct (Main.ptyProcess s); cbn in Hin; [ | contradiction ].
    destruct Hin as [<- | []]. discriminate.
  - destruct (String.eqb (Main.platform h) "darwin"); [ contradiction | ].
    destruct Hin as [<- | []]. discriminate.
  - unfold Main.kill_and_forget in Hin.
    destruct (Main.ptyProcess s); cbn in Hin; [ | contradiction ].
    destruct Hin as [<- | []]. discriminate.
  - unfold Main.ipc in Hin.
    destruct (Main.handler_of t channel) as [[ | | | ]|]; [ | | | | contradiction ].
    + destruct a; try contradiction. cbn [snd] in Hin.
      unfold Main.initializePty in Hin. cbv zeta in Hin. cbn [snd] in Hin.
      rewrite !in_app_iff in Hin.
      destruct Hin as [[Hin | Hin] | Hin].
      * destruct (Main.ptyProcess s); [ | contradiction ].
        destruct Hin as [<- | []]. discriminate.
      * destruct Hin as [<- | []]. discriminate.
      * destruct Hin as [<- | []]. discriminate.
    + destruct a; try contradiction.
      destruct (Main.ptyProcess s) as [j|]; [ | contradiction ].
      destruct Hin as [<- | []]. discriminate.
    + destruct a; try contradiction.
      destruct (Main.ptyProcess s) as [j|]; [ | contradiction ].
      destruct (nth_error (Main.ptys s) j) as [p|]; [ | contradiction ].
      destruct (resize_throws p c0 r); cbn in Hin.
      * destruct Hin as [<- | [<- | []]]; discriminate.
      * destruct Hin as [<- | []]. discriminate.
    + destruct Hin as [<- | []]. discriminate.
  - destruct (nth_error (Main.ptys s) id); [ | contradiction ].
    destruct (Main.window_alive s) as [w|] eqn:Ew; [ | contradiction ].
    destruct Hin as [<- | []]. cbn in Ht. injection Ht as <-.
    apply Halive. reflexivity.
  - destruct (nth_error (Main.ptys s) id) as [p|]; [ | contradiction ].
    destruct (Main.status p); try contradiction;
      cbn in Hin; destruct Hin as [<- | Hin]; try discriminate;
      apply in_app_iff in Hin; destruct Hin as [Hin | Hin];
      try (destruct Hin as [<- | []]; discriminate);
      (destruct (Main.window_alive s) as [w|] eqn:Ew; [ | contradiction ];
       destruct Hin as [<- | []]; cbn in Ht; injection Ht as <-;
       apply Halive; reflexivity).
Qed.

Lemma main_sends_only_to_live_window_witness :
  Main.live_window main_started 0 = true.
Proof.
  apply (main_sends_only_to_live_window linux_host strict_resize
           [Main.EvReady;
            Main.EvIpc Main.Invoke "terminal:init" (Main.SizeArgs 80 30)]
           (Main.EvPtyData 0 "ls")
           (Main.webContents_send 0 "terminal:data" (Main.DataArg "ls")) 0).
  - vm_compute. left. reflexivity.
  - reflexivity.
Defined.

Lemma main_has_one_window_witness :
  (Main.live_window main_started 0 = true <-> Main.mainWindow main_started = Some 0%nat)
  /\ (Main.live_window main_started 0 = true ->
      Main.live_window main_started 0 = true -> 0%nat = 0%nat).
Proof.
  exact (main_has_one_window linux_host strict_resize
           [Main.EvReady;
            Main.EvIpc Main.Invoke "terminal:init" (Main.SizeArgs 80 30)] 0 0).
Defined.
